(** * CSV normal-form detection: a shallow embedding of
      scripts/preprocessing/normal_forms.py and scripts/common/dialect.py

    Python [str] values are modelled as [string] (sequences of [ascii]
    code points), Python lists as [list], exceptions as the [Raise]
    branch of a small error monad, and the function attributes
    [is_form_k.ID] as a trace of attribute writes. *)

From Stdlib Require Import String Ascii List ListSet Bool Arith ZArith Lia Permutation.
Import ListNotations.
Local Open Scope string_scope.
Local Open Scope list_scope.

(** ** Characters that have no literal form *)

Definition TAB : ascii := "009"%char.
Definition LF : ascii := "010"%char.
Definition CR : ascii := "013"%char.
Definition DQ : ascii := "034"%char.
Definition SQ : ascii := "039"%char.

(** A one-character Python string. *)
Definition str1 (c : ascii) : string := String c EmptyString.

(** [a + b] on strings. *)
Infix "+++" := String.append (at level 60, right associativity).

(** ** Exceptions *)

Inductive exn : Type :=
| ValueError
| IndexError
| AttributeError
| TypeError.

Inductive res (A : Type) : Type :=
| Ret (a : A)
| Raise (e : exn).
Arguments Ret {A} a.
Arguments Raise {A} e.

Definition rbind {A B : Type} (m : res A) (k : A -> res B) : res B :=
  match m with
  | Ret a => k a
  | Raise e => Raise e
  end.

Declare Scope res_scope.
Delimit Scope res_scope with res.
Notation "x <- m ;; k" := (rbind m (fun x => k))
  (at level 61, m at next level, right associativity) : res_scope.
Local Open Scope res_scope.

(** ** The Python built-ins the module uses *)

Module Py.

(** [sub in s] on strings: substring test. *)
Fixpoint str_in (sub s : string) : bool :=
  prefix sub s ||
  match s with
  | EmptyString => false
  | String _ s' => str_in sub s'
  end.

Definition startswith (s p : string) : bool := prefix p s.

Fixpoint endswith (s p : string) : bool :=
  String.eqb s p ||
  match s with
  | EmptyString => false
  | String _ s' => endswith s' p
  end.

(** [s.rstrip(c)] for a one-character argument: drop every trailing [c]. *)
Fixpoint rstrip (s : string) (c : ascii) : string :=
  match s with
  | EmptyString => EmptyString
  | String a s' =>
      let r := rstrip s' c in
      if String.eqb r EmptyString && Ascii.eqb a c then EmptyString
      else String a r
  end.

(** The scan of [s.split(sep)] for a non-empty [sep]: [skip] counts the
    characters of a separator occurrence still to be passed over, [cur]
    is the piece being collected. *)
Fixpoint split_go (sep : string) (skip : nat) (cur s : string) : list string :=
  match s with
  | EmptyString => [cur]
  | String c s' =>
      match skip with
      | S k => split_go sep k cur s'
      | O =>
          if prefix sep s
          then cur :: split_go sep (String.length sep - 1) EmptyString s'
          else split_go sep O (cur +++ str1 c) s'
      end
  end.

(** [s.split(sep)] for a separator that is not empty. *)
Definition split_on (s sep : string) : list string :=
  split_go sep O EmptyString s.

(** [s.split(sep)]; an empty separator raises ValueError. *)
Definition str_split (s sep : string) : res (list string) :=
  match sep with
  | EmptyString => Raise ValueError
  | _ => Ret (split_on s sep)
  end.

(** [sep.join(l)]. *)
Definition str_join (sep : string) (l : list string) : string :=
  String.concat sep l.

(** [s[0]]; IndexError on the empty string. *)
Definition first (s : string) : res ascii :=
  match s with
  | EmptyString => Raise IndexError
  | String c _ => Ret c
  end.

Fixpoint last_char (c : ascii) (s : string) : ascii :=
  match s with
  | EmptyString => c
  | String c' s' => last_char c' s'
  end.

(** [s[-1]]; IndexError on the empty string. *)
Definition last (s : string) : res ascii :=
  match s with
  | EmptyString => Raise IndexError
  | String c s' => Ret (last_char c s')
  end.

Fixpoint drop_last (s : string) : string :=
  match s with
  | EmptyString => EmptyString
  | String c EmptyString => EmptyString
  | String c s' => String c (drop_last s')
  end.

(** [s[1:-1]]: never raises; empty when [len(s) < 2]. *)
Definition inner (s : string) : string :=
  match s with
  | EmptyString => EmptyString
  | String _ s' => drop_last s'
  end.

(** [c == q] where [c] is a character of a string and [q] a string. *)
Definition char_is (c : ascii) (q : string) : bool := String.eqb (str1 c) q.

(** [[i for i, c in enumerate(s) if c == x]], counted from [i]. *)
Fixpoint indices_of (x : ascii) (i : nat) (s : string) : list nat :=
  match s with
  | EmptyString => []
  | String c s' =>
      if Ascii.eqb c x then i :: indices_of x (S i) s' else indices_of x (S i) s'
  end.

(** The items a [for] loop sees when it iterates over a string. *)
Definition chars (s : string) : list string :=
  map str1 (list_ascii_of_string s).

End Py.

(** ** Structural predicates *)

Definition is_quoted_cell (cell quotechar : string) : bool :=
  if (String.length cell <? 2)%nat then false
  else
    match cell with
    | EmptyString => false
    | String c0 rest =>
        Py.char_is c0 quotechar && Py.char_is (Py.last_char c0 rest) quotechar
    end.

Definition is_any_quoted_cell (cell : string) : bool :=
  is_quoted_cell cell (str1 SQ) || is_quoted_cell cell (str1 DQ).

Definition is_any_partial_quoted_cell (cell : string) : bool :=
  match cell with
  | EmptyString => false
  | String c0 rest =>
      let cl := Py.last_char c0 rest in
      Ascii.eqb c0 DQ || Ascii.eqb c0 SQ || Ascii.eqb cl DQ || Ascii.eqb cl SQ
  end.

Definition is_empty_quoted (cell quotechar : string) : bool :=
  (String.length cell =? 2)%nat && is_quoted_cell cell quotechar.

Definition is_empty_unquoted (cell : string) : bool :=
  String.eqb cell EmptyString.

Definition is_any_empty (cell : string) : bool :=
  is_empty_unquoted cell
  || is_empty_quoted cell (str1 SQ)
  || is_empty_quoted cell (str1 DQ).

Definition has_delimiter (s delim : string) : bool := Py.str_in delim s.

Definition has_nested_quotes (s quotechar : string) : bool :=
  Py.str_in quotechar (Py.inner s).

(** ** Character classes of the regular expressions *)

Definition in_range (lo hi c : ascii) : bool :=
  (nat_of_ascii lo <=? nat_of_ascii c)%nat && (nat_of_ascii c <=? nat_of_ascii hi)%nat.

Definition is_alnum (c : ascii) : bool :=
  in_range "a" "z" c || in_range "A" "Z" c || in_range "0" "9" c.

Definition one_of (cs : list ascii) (c : ascii) : bool :=
  existsb (Ascii.eqb c) cs.

(** [[a-zA-Z0-9\.\_\&\-\@\+\%\(\)\ \/]] *)
Definition elementary_char (c : ascii) : bool :=
  is_alnum c
  || one_of ["."; "_"; "&"; "-"; "@"; "+"; "%"; "("; ")"; " "; "/"]%char c.

Fixpoint all_chars (p : ascii -> bool) (s : string) : bool :=
  match s with
  | EmptyString => true
  | String c s' => p c && all_chars p s'
  end.

(** [regex.fullmatch("[...]+", cell)] is not None. *)
Definition is_elementary (cell : string) : bool :=
  negb (String.eqb cell EmptyString) && all_chars elementary_char cell.

(** [[A-Za-z0-9.\_&-]], the class negated in form 6. *)
Definition form_6_char (c : ascii) : bool :=
  is_alnum c || one_of ["."; "_"; "&"; "-"]%char c.

(** [[A-Za-z0-9.\_&\- ]], the class negated in form 9. *)
Definition form_9_char (c : ascii) : bool :=
  is_alnum c || one_of ["."; "_"; "&"; "-"; " "]%char c.

(** [regex.compile("[^...]").search(s)] finds a character outside [p]. *)
Definition search_outside (p : ascii -> bool) (s : string) : bool :=
  negb (all_chars p s).

(** ** Row and cell splitting *)

(** The first [while] loop of [strip_trailing_crnl], and the second:
    [while data.endswith(c): data = data.rstrip(c)], run with [fuel]
    iterations at most. *)
Fixpoint strip_loop (fuel : nat) (c : ascii) (data : string) : string :=
  match fuel with
  | O => data
  | S fuel' =>
      if Py.endswith data (str1 c)
      then strip_loop fuel' c (Py.rstrip data c)
      else data
  end.

Definition strip_trailing_crnl (data : string) : string :=
  let data := strip_loop (S (String.length data)) LF data in
  let data := strip_loop (S (String.length data)) CR data in
  data.

(** What [split_file] returns: a list of rows from [str.split], or, on
    its last line, the string [data] itself. *)
Inductive rows_t : Type :=
| RowList (l : list string)
| RowStr (s : string).

(** [for row in rows], [len(rows)] and [rows[0]] see these items: the
    elements of a list, the one-character strings of a string. *)
Definition row_items (rows : rows_t) : list string :=
  match rows with
  | RowList l => l
  | RowStr s => Py.chars s
  end.

Definition CRLF : string := String CR (str1 LF).

Definition split_file (data : string) : rows_t :=
  let data := strip_trailing_crnl data in
  if Py.str_in CRLF data then RowList (Py.split_on data CRLF)
  else if Py.str_in (str1 LF) data then RowList (Py.split_on data (str1 LF))
  else if Py.str_in (str1 CR) data then RowList (Py.split_on data (str1 CR))
  else RowStr data.

(** The [for c in row] loop of [split_row], on the state
    [(cells, current_cell, in_quotes)]. *)
Fixpoint split_row_scan (delim quotechar : string) (row : string)
    (cells : list string) (current_cell : string) (in_quotes : bool)
  : list string * string * bool :=
  match row with
  | EmptyString => (cells, current_cell, in_quotes)
  | String c row' =>
      if Py.char_is c delim && negb in_quotes
      then split_row_scan delim quotechar row' (cells ++ [current_cell]) EmptyString in_quotes
      else if Py.char_is c quotechar
      then split_row_scan delim quotechar row' cells (current_cell +++ str1 c) (negb in_quotes)
      else split_row_scan delim quotechar row' cells (current_cell +++ str1 c) in_quotes
  end.

(** [quotechar] is [None] for Python's [None]. *)
Definition split_row (row delim : string) (quotechar : option string)
  : res (list string) :=
  match quotechar with
  | None => Py.str_split row delim
  | Some q =>
      if negb (Py.str_in q row) then Py.str_split row delim
      else
        let '(cells, current_cell, _) :=
          split_row_scan delim q row [] EmptyString false in
        Ret (if String.eqb current_cell EmptyString then cells
             else cells ++ [current_cell])
  end.

(** ** Row-aggregate predicates *)

Definition every_row_has_delim (rows : rows_t) (delim : string) : bool :=
  forallb (fun row => has_delimiter row delim) (row_items rows).

Fixpoint multiple_cell_per_row_items (items : list string) (delim : string)
    (quotechar : option string) : res bool :=
  match items with
  | [] => Ret true
  | row :: rest =>
      (cells <- split_row row delim quotechar ;;
       if (List.length cells =? 1)%nat then Ret false
       else multiple_cell_per_row_items rest delim quotechar)
  end.

Definition multiple_cell_per_row (rows : rows_t) (delim : string)
    (quotechar : option string) : res bool :=
  multiple_cell_per_row_items (row_items rows) delim quotechar.

(** [cells_per_row] is a Python set of [int]; [set_add] keeps it free of
    duplicates. *)
Fixpoint even_rows_items (items : list string) (delim : string)
    (quotechar : option string) (cells_per_row : set nat) : res (set nat) :=
  match items with
  | [] => Ret cells_per_row
  | row :: rest =>
      (cells <- split_row row delim quotechar ;;
       even_rows_items rest delim quotechar
         (set_add Nat.eq_dec (List.length cells) cells_per_row))
  end.

Definition even_rows (rows : rows_t) (delim : string)
    (quotechar : option string) : res bool :=
  cells_per_row <- even_rows_items (row_items rows) delim quotechar (empty_set nat) ;;
  Ret (List.length cells_per_row =? 1)%nat.

Definition more_than_one_row (rows : rows_t) : bool :=
  (1 <? List.length (row_items rows))%nat.

(** ** The escape-character pre-check *)

(** Modelled from the spec: [common.utils.pairwise] is not among the
    sources; the pre-check "scans every adjacent character pair". *)
Fixpoint pairwise (data : string) : list (ascii * ascii) :=
  match data with
  | EmptyString => []
  | String u rest =>
      match rest with
      | EmptyString => []
      | String v _ => (u, v) :: pairwise rest
      end
  end.

(** ** Form results and the attribute trace *)

(** [(status, reason)]: the pair every tester returns. *)
Definition verdict : Type := bool * option string.

(** A computation that may set [ID] attributes on tester functions and
    may raise: the attribute writes made, in order, and the outcome. *)
Definition M (A : Type) : Type := list nat * res A.

Definition mret {A : Type} (a : A) : M A := ([], Ret a).

Definition mbind {A B : Type} (m : M A) (k : A -> M B) : M B :=
  match m with
  | (w, Ret a) => let '(w', r) := k a in (w ++ w', r)
  | (w, Raise e) => (w, Raise e)
  end.

(** [is_form_k.ID = k]. *)
Definition set_ID (k : nat) : M unit := ([k], Ret tt).

Definition lift {A : Type} (r : res A) : M A := ([], r).

Declare Scope M_scope.
Delimit Scope M_scope with M.
Notation "x <- m ;; k" := (mbind m (fun x => k))
  (at level 61, m at next level, right associativity) : M_scope.
Notation "m ;;; k" := (mbind m (fun _ => k))
  (at level 61, right associativity) : M_scope.

(** A loop body either goes on with a new loop state or returns from
    the enclosing function. *)
Inductive step (S : Type) : Type :=
| Continue (s : S)
| Return (v : verdict).
Arguments Continue {S} s.
Arguments Return {S} v.

(** [for x in items: body], with the loop's variables as state. *)
Fixpoint for_each {A S : Type} (body : S -> A -> res (step S)) (s : S)
    (items : list A) : res (step S) :=
  match items with
  | [] => Ret (Continue s)
  | x :: rest =>
      (r <- body s x ;;
       match r with
       | Continue s' => for_each body s' rest
       | Return v => Ret (Return v)
       end)
  end.

Definition reject (reason : string) : verdict := (false, Some reason).
Definition accept : verdict := (true, None).

(** ** The form testers *)

Section Forms.

(** [common.escape.is_potential_escapechar(char, encoding)] is not among
    the sources: the testers are parametric in it. *)
Variable is_potential_escapechar : ascii -> string -> bool.

Definition maybe_has_escapechar (data encoding delim quotechar : string) : bool :=
  if negb (Py.str_in delim data) && negb (Py.str_in quotechar data) then false
  else
    existsb
      (fun uv : ascii * ascii =>
         let (u, v) := uv in
         (Py.char_is v delim || Py.char_is v quotechar)
         && is_potential_escapechar u encoding)
      (pairwise data).

Definition tester : Type := string -> string -> string -> string -> M verdict.

Definition form_escape_wrapper (form_func : tester) : tester :=
  fun data encoding delim quotechar =>
    if maybe_has_escapechar data encoding delim quotechar
    then mret (reject "maybe_escape")
    else form_func data encoding delim quotechar.

(** The four checks that open most testers; [None] when all pass. *)
Definition shape_checks (rows : rows_t) (delim : string)
    (q_cells q_even : option string) : res (option verdict) :=
  if negb (every_row_has_delim rows delim) then Ret (Some (reject "no_delim"))
  else
    (multi <- multiple_cell_per_row rows delim q_cells ;;
     if negb multi then Ret (Some (reject "single_cell"))
     else
       (even <- even_rows rows delim q_even ;;
        if negb even then Ret (Some (reject "uneven_rows"))
        else if negb (more_than_one_row rows) then Ret (Some (reject "single_row"))
        else Ret None)).

(** *** Form 1: all cells quoted, no empty cells, no nested quotes *)

Definition form_1_cell (quotechar : string) (_ : unit) (cell : string)
  : res (step unit) :=
  if is_any_empty cell then Ret (Return (reject "empty_cell"))
  else if negb (is_quoted_cell cell quotechar) then Ret (Return (reject "unquoted_cell"))
  else if has_nested_quotes cell quotechar then Ret (Return (reject "nested_quotes"))
  else Ret (Continue tt).

Definition form_1_row (delim quotechar : string) (_ : unit) (row : string)
  : res (step unit) :=
  cells <- split_row row delim (Some quotechar) ;;
  for_each (form_1_cell quotechar) tt cells.

(** The body of form 1 after the attribute write. *)
Definition form_1_structure (data delim quotechar : string) : res verdict :=
  let rows := split_file data in
  early <- shape_checks rows delim (Some quotechar) (Some quotechar) ;;
  match early with
  | Some v => Ret v
  | None =>
      (r <- for_each (form_1_row delim quotechar) tt (row_items rows) ;;
       match r with
       | Return v => Ret v
       | Continue _ => Ret accept
       end)
  end.

Definition is_form_1_body : tester := fun data encoding delim quotechar =>
  (set_ID 1 ;;;
   lift (form_1_structure data delim quotechar))%M.

Definition is_form_1 : tester := form_escape_wrapper is_form_1_body.

(** *** Forms 13 to 19: content signatures *)

Definition is_form_13_body : tester := fun data encoding delim quotechar =>
  (set_ID 13 ;;;
   if negb (Py.startswith data "what,kind,bundleId,bundleVersion,description,time")
   then mret (reject "no_match")
   else if String.eqb quotechar EmptyString
   then (if Py.str_in (str1 DQ) data then mret (reject "has_quote") else mret accept)
   else if String.eqb quotechar (str1 DQ)
   then (if negb (Py.str_in (str1 DQ) data) then mret (reject "has_no_quote")
         else mret accept)
   else mret accept)%M.

Definition is_form_13 : tester := form_escape_wrapper is_form_13_body.

Definition is_form_14_body : tester := fun data encoding delim quotechar =>
  (set_ID 14 ;;;
   if Py.startswith data "Format is tab separated" then mret accept
   else mret (reject "no_match"))%M.

Definition is_form_14 : tester := form_escape_wrapper is_form_14_body.

Definition is_form_15_body : tester := fun data encoding delim quotechar =>
  (set_ID 15 ;;;
   if Py.startswith data "Fornecedor;" then mret accept
   else mret (reject "no_match"))%M.

Definition is_form_15 : tester := form_escape_wrapper is_form_15_body.

(** Case folding of [regex.IGNORECASE] on the modelled code points:
    only the ASCII letters have a case partner. *)
Definition lower (c : ascii) : ascii :=
  if in_range "A" "Z" c then ascii_of_nat (nat_of_ascii c + 32) else c.

(** [regex.match("^" + p, s, regex.IGNORECASE)] for a literal [p]. *)
Fixpoint match_ignorecase (p s : string) : bool :=
  match p with
  | EmptyString => true
  | String a p' =>
      match s with
      | EmptyString => false
      | String b s' => Ascii.eqb (lower a) (lower b) && match_ignorecase p' s'
      end
  end.

Definition QUOTE_COMMA : string := String DQ ",".
Definition COMMA_QUOTE : string := String "," (str1 DQ).
Definition SQ_COMMA_SQ : string := String SQ (String "," (str1 SQ)).

(** The quote checks shared, as text, by forms 17, 18 and 19;
    [no_quote] is the reason code of the first branch. *)
Definition signature_quote_checks (no_quote : string) (data quotechar : string)
  : verdict :=
  if Py.str_in SQ_COMMA_SQ data then reject "single_quote"
  else if String.eqb quotechar (str1 DQ)
  then (if negb (Py.str_in QUOTE_COMMA data || Py.str_in COMMA_QUOTE data)
        then reject no_quote else accept)
  else if String.eqb quotechar EmptyString
  then (if Py.str_in (str1 DQ) data then reject "has_quote" else accept)
  else reject "unexpected_quote".

Definition FORM_17_HEADER : string :=
  "Department Family,Entity,Date,Expense Type,Expense Area," +++
  "Supplier,Transaction Number,Amount,VAT Registration Number".

Definition is_form_17_body : tester := fun data encoding delim quotechar =>
  (set_ID 17 ;;;
   if negb (match_ignorecase FORM_17_HEADER data) then mret (reject "no_match")
   else mret (signature_quote_checks "no_qoute" data quotechar))%M.

Definition is_form_17 : tester := form_escape_wrapper is_form_17_body.

Definition is_form_18_body : tester := fun data encoding delim quotechar =>
  (set_ID 18 ;;;
   if negb (Py.startswith data "CPS outcomes by principal offence")
   then mret (reject "no_match")
   else mret (signature_quote_checks "no_quote" data quotechar))%M.

Definition is_form_18 : tester := form_escape_wrapper is_form_18_body.

Definition is_form_19_body : tester := fun data encoding delim quotechar =>
  (set_ID 19 ;;;
   if negb (Py.startswith data "RecordKey,SurveyKey,SurveyName")
   then mret (reject "no_match")
   else mret (signature_quote_checks "no_quote" data quotechar))%M.

Definition is_form_19 : tester := form_escape_wrapper is_form_19_body.

(** [if sibling(data, encoding, delim, quotechar)[0]: return (False, reason)],
    then the rest of the tester. *)
Definition excluding (sibling : tester) (reason : string)
    (data encoding delim quotechar : string) (rest : M verdict) : M verdict :=
  (r <- sibling data encoding delim quotechar ;;
    if fst r then mret (reject reason) else rest)%M.

(** *** Form 2: nothing quoted, no empty cells *)

Definition form_2_cell (_ : unit) (cell : string) : res (step unit) :=
  if is_empty_unquoted cell then Ret (Return (reject "empty_unquoted"))
  else if is_any_quoted_cell cell then Ret (Return (reject "quoted_cell"))
  else if is_any_partial_quoted_cell cell then Ret (Return (reject "partial_quoted_cell"))
  else if negb (is_elementary cell) then Ret (Return (reject "non_elementary"))
  else Ret (Continue tt).

Definition form_2_row (delim : string) (_ : unit) (row : string)
  : res (step unit) :=
  cells <- split_row row delim None ;;
  for_each form_2_cell tt cells.

(** The body of form 2 after the sibling checks. *)
Definition form_2_structure (data delim quotechar : string) : res verdict :=
  let rows := split_file data in
  early <- shape_checks rows delim None None ;;
  match early with
  | Some v => Ret v
  | None =>
      (r <- for_each (form_2_row delim) tt (row_items rows) ;;
       match r with
       | Return v => Ret v
       | Continue _ => Ret accept
       end)
  end.

Definition is_form_2_body : tester := fun data encoding delim quotechar =>
  (set_ID 2 ;;;
   excluding is_form_13 "form_13" data encoding delim quotechar (
   excluding is_form_18 "form_18" data encoding delim quotechar (
   excluding is_form_17 "form_17" data encoding delim quotechar (
   lift (form_2_structure data delim quotechar)))))%M.

Definition is_form_2 : tester := form_escape_wrapper is_form_2_body.

(** *** Form 3: all unquoted, at least one row made of delimiters only *)

Definition form_3_cell (_ : unit) (cell : string) : res (step unit) :=
  if is_any_quoted_cell cell then Ret (Return (reject "quoted_cell"))
  else if negb (is_elementary cell) then Ret (Return (reject "non_elementary"))
  else Ret (Continue tt).

(** [delim * n]. *)
Fixpoint str_repeat (s : string) (n : nat) : string :=
  match n with
  | O => EmptyString
  | S n' => s +++ str_repeat s n'
  end.

Definition form_3_row (delim expected : string) (empty_delimited_row_count : nat)
    (row : string) : res (step nat) :=
  cells <- split_row row delim None ;;
  r <- for_each form_3_cell tt cells ;;
  match r with
  | Return v => Ret (Return v)
  | Continue _ =>
      if String.eqb row expected then Ret (Continue (S empty_delimited_row_count))
      else Ret (Continue empty_delimited_row_count)
  end.

(** The body of form 3 after the attribute write. *)
Definition form_3_structure (data delim quotechar : string) : res verdict :=
  let rows := split_file data in
  early <- shape_checks rows delim None None ;;
  match early with
  | Some v => Ret v
  | None =>
      (cells0 <- match row_items rows with
              | [] => Raise IndexError
              | row0 :: _ => Py.str_split row0 delim
              end ;;
       let cells_per_row := List.length cells0 in
       let expected := str_repeat delim (cells_per_row - 1) in
       r <- for_each (form_3_row delim expected) O (row_items rows) ;;
       match r with
       | Return v => Ret v
       | Continue empty_delimited_row_count =>
           if (empty_delimited_row_count =? 0)%nat then Ret (reject "no_empty_rows")
           else Ret accept
       end)
  end.

Definition is_form_3_body : tester := fun data encoding delim quotechar =>
  (set_ID 3 ;;;
   lift (form_3_structure data delim quotechar))%M.

Definition is_form_3 : tester := form_escape_wrapper is_form_3_body.

(** *** Form 4: unquoted, except the cells that hold the delimiter *)

Definition form_4_cell (delim quotechar : string) (found_quoted_with_delim : bool)
    (cell : string) : res (step bool) :=
  if is_quoted_cell cell quotechar && negb (has_delimiter cell delim)
  then Ret (Return (reject "quoted_no_delim"))
  else
    let found := if is_quoted_cell cell quotechar then true
                 else found_quoted_with_delim in
    if is_any_empty cell then Ret (Return (reject "empty_cell"))
    else if negb (is_quoted_cell cell quotechar) && negb (is_elementary cell)
    then Ret (Return (reject "non_elementary"))
    else Ret (Continue found).

Definition form_4_row (delim quotechar : string) (found_quoted_with_delim : bool)
    (row : string) : res (step bool) :=
  if is_quoted_cell row quotechar && negb (Py.str_in quotechar (Py.inner row))
  then Ret (Return (reject "quoted_row"))
  else
    (cells <- split_row row delim (Some quotechar) ;;
     for_each (form_4_cell delim quotechar) found_quoted_with_delim cells).

(** The body of form 4 after the sibling checks. *)
Definition form_4_structure (data delim quotechar : string) : res verdict :=
  let rows := split_file data in
  early <- shape_checks rows delim (Some quotechar) (Some quotechar) ;;
  match early with
  | Some v => Ret v
  | None =>
      (r <- for_each (form_4_row delim quotechar) false (row_items rows) ;;
       match r with
       | Return v => Ret v
       | Continue found_quoted_with_delim =>
           if negb found_quoted_with_delim then Ret (reject "no_quoted_w_delim")
           else Ret accept
       end)
  end.

Definition is_form_4_body : tester := fun data encoding delim quotechar =>
  (set_ID 4 ;;;
   excluding is_form_18 "form_18" data encoding delim quotechar (
   excluding is_form_17 "form_17" data encoding delim quotechar (
   lift (form_4_structure data delim quotechar))))%M.

Definition is_form_4 : tester := form_escape_wrapper is_form_4_body.

(** *** Form 5: the banner of one export tool *)

Definition README_QUOTED : string := String SQ ("Readme.txt" +++ str1 SQ).

Definition is_form_5_body : tester := fun data encoding delim quotechar =>
  (set_ID 5 ;;;
   if Py.startswith data ";Originally developed by Anthony Bowden" then mret accept
   else if Py.str_in (str1 DQ) data then mret (reject "unexpected")
   else if Py.str_in (str1 SQ) data
   then
     let idxs := Py.indices_of SQ O data in
     match idxs with
     | [i0; i1] =>
         if negb (String.eqb (substring i0 (i1 + 1 - i0) data) README_QUOTED)
         then mret (reject "unexpected")
         else mret (reject "not_railsim")
     | _ => mret (reject "unexpected")
     end
   else mret (reject "not_railsim"))%M.

Definition is_form_5 : tester := form_escape_wrapper is_form_5_body.

(** *** Form 6: a single unquoted column *)

Definition form_6_row (_ : unit) (row : string) : res (step unit) :=
  let cell := row in
  if is_any_quoted_cell cell then Ret (Return (reject "quoted_cell"))
  else if search_outside form_6_char cell then Ret (Return (reject "non_elementary"))
  else Ret (Continue tt).

(** The body of form 6 after the attribute write. *)
Definition form_6_structure (data delim quotechar : string) : res verdict :=
  let rows := split_file data in
  if negb (more_than_one_row rows) then Ret (reject "single_row")
  else
    (r <- for_each form_6_row tt (row_items rows) ;;
     match r with
     | Return v => Ret v
     | Continue _ => Ret accept
     end).

Definition is_form_6_body : tester := fun data encoding delim quotechar =>
  (set_ID 6 ;;;
   lift (form_6_structure data delim quotechar))%M.

Definition is_form_6 : tester := form_escape_wrapper is_form_6_body.

(** *** Form 7: every row quoted as a whole, form 2 inside *)

Definition form_7_row (quotechar : string) (_ : unit) (row : string)
  : res (step unit) :=
  c0 <- Py.first row ;;
  if Py.char_is c0 quotechar
  then
    (cl <- Py.last row ;;
     if Py.char_is cl quotechar then Ret (Continue tt)
     else Ret (Return (reject "not_quoted")))
  else Ret (Return (reject "not_quoted")).

Definition form_7_checks (data delim quotechar : string) : res (step (list string)) :=
  let rows := split_file data in
  if negb (every_row_has_delim rows delim) then Ret (Return (reject "no_delim"))
  else if negb (more_than_one_row rows) then Ret (Return (reject "single_row"))
  else
    (r <- for_each (form_7_row quotechar) tt (row_items rows) ;;
     match r with
     | Return v => Ret (Return v)
     | Continue _ => Ret (Continue (map Py.inner (row_items rows)))
     end).

Definition is_form_7_body : tester := fun data encoding delim quotechar =>
  (set_ID 7 ;;;
   r <- lift (form_7_checks data delim quotechar) ;;
   match r with
   | Return v => mret v
   | Continue newrows =>
       is_form_2 (Py.str_join (str1 LF) newrows) encoding delim quotechar
   end)%M.

Definition is_form_7 : tester := form_escape_wrapper is_form_7_body.

(** *** Form 8: quoted and unquoted cells mixed *)

Definition form_8_cell (quotechar : string) (counts : nat * nat) (cell : string)
  : res (step (nat * nat)) :=
  let (quoted_cells, unquoted_cells) := counts in
  if is_any_empty cell then Ret (Return (reject "empty_cell"))
  else if is_quoted_cell cell quotechar
  then Ret (Continue (S quoted_cells, unquoted_cells))
  else if negb (is_any_quoted_cell cell)
  then (if negb (is_elementary cell) then Ret (Return (reject "non_elementary"))
        else Ret (Continue (quoted_cells, S unquoted_cells)))
  else Ret (Continue (quoted_cells, unquoted_cells)).

Definition form_8_row (delim quotechar : string) (counts : nat * nat)
    (row : string) : res (step (nat * nat)) :=
  cells <- split_row row delim (Some quotechar) ;;
  for_each (form_8_cell quotechar) counts cells.

(** The body of form 8 after the sibling checks. *)
Definition form_8_structure (data delim quotechar : string) : res verdict :=
  let rows := split_file data in
  early <- shape_checks rows delim (Some quotechar) (Some quotechar) ;;
  match early with
  | Some v => Ret v
  | None =>
      (r <- for_each (form_8_row delim quotechar) (O, O) (row_items rows) ;;
       match r with
       | Return v => Ret v
       | Continue (quoted_cells, unquoted_cells) =>
           if (quoted_cells =? 0)%nat || (unquoted_cells =? 0)%nat
           then Ret (reject "not quoted/unquoted mix")
           else Ret accept
       end)
  end.

Definition is_form_8_body : tester := fun data encoding delim quotechar =>
  (set_ID 8 ;;;
   excluding is_form_4 "form_4" data encoding delim quotechar (
   excluding is_form_13 "form_13" data encoding delim quotechar (
   excluding is_form_18 "form_18" data encoding delim quotechar (
   excluding is_form_17 "form_17" data encoding delim quotechar (
   lift (form_8_structure data delim quotechar))))))%M.

Definition is_form_8 : tester := form_escape_wrapper is_form_8_body.

(** *** Form 9: a single column, every cell quoted *)

Definition form_9_row (quotechar : string) (_ : unit) (row : string)
  : res (step unit) :=
  if negb (is_quoted_cell row quotechar) then Ret (Return (reject "not_quoted"))
  else if search_outside form_9_char (Py.inner row)
  then Ret (Return (reject "non_elementary"))
  else Ret (Continue tt).

(** The body of form 9 after the attribute write. *)
Definition form_9_structure (data delim quotechar : string) : res verdict :=
  let rows := split_file data in
  if negb (more_than_one_row rows) then Ret (reject "single_row")
  else
    (r <- for_each (form_9_row quotechar) tt (row_items rows) ;;
     match r with
     | Return v => Ret v
     | Continue _ => Ret accept
     end).

Definition is_form_9_body : tester := fun data encoding delim quotechar =>
  (set_ID 9 ;;;
   lift (form_9_structure data delim quotechar))%M.

Definition is_form_9 : tester := form_escape_wrapper is_form_9_body.

(** *** Form 10: all cells quoted, some of them empty *)

Definition form_10_cell (quotechar : string) (quoted_empty_count : nat)
    (cell : string) : res (step nat) :=
  if is_empty_unquoted cell then Ret (Return (reject "empty_unquoted"))
  else
    let count := if is_empty_quoted cell quotechar then S quoted_empty_count
                 else quoted_empty_count in
    if negb (is_quoted_cell cell quotechar) then Ret (Return (reject "unquoted_cell"))
    else if has_nested_quotes cell quotechar then Ret (Return (reject "nested_quotes"))
    else Ret (Continue count).

Definition form_10_row (delim quotechar : string) (quoted_empty_count : nat)
    (row : string) : res (step nat) :=
  cells <- split_row row delim (Some quotechar) ;;
  for_each (form_10_cell quotechar) quoted_empty_count cells.

(** The body of form 10 after the attribute write. *)
Definition form_10_structure (data delim quotechar : string) : res verdict :=
  let rows := split_file data in
  early <- shape_checks rows delim (Some quotechar) (Some quotechar) ;;
  match early with
  | Some v => Ret v
  | None =>
      (r <- for_each (form_10_row delim quotechar) O (row_items rows) ;;
       match r with
       | Return v => Ret v
       | Continue quoted_empty_count =>
           if (quoted_empty_count =? 0)%nat then Ret (reject "no_empty")
           else Ret accept
       end)
  end.

Definition is_form_10_body : tester := fun data encoding delim quotechar =>
  (set_ID 10 ;;;
   lift (form_10_structure data delim quotechar))%M.

Definition is_form_10 : tester := form_escape_wrapper is_form_10_body.

(** *** Form 11: unquoted, at most one empty cell per row *)

Definition form_11_cell (num_empty : nat) (cell : string) : res (step nat) :=
  if is_empty_unquoted cell then Ret (Continue (S num_empty))
  else if is_any_quoted_cell cell then Ret (Return (reject "quoted_cell"))
  else if is_any_partial_quoted_cell cell then Ret (Return (reject "partial_quoted_cell"))
  else if negb (is_elementary cell) then Ret (Return (reject "non_elementary"))
  else Ret (Continue num_empty).

Definition form_11_row (delim : string) (total_empty : nat) (row : string)
  : res (step nat) :=
  cells <- split_row row delim None ;;
  r <- for_each form_11_cell O cells ;;
  match r with
  | Return v => Ret (Return v)
  | Continue num_empty =>
      if (1 <? num_empty)%nat then Ret (Return (reject "many_empty"))
      else Ret (Continue (total_empty + num_empty))
  end.

(** The body of form 11 after the sibling checks. *)
Definition form_11_structure (data delim quotechar : string) : res verdict :=
  let rows := split_file data in
  early <- shape_checks rows delim None None ;;
  match early with
  | Some v => Ret v
  | None =>
      (r <- for_each (form_11_row delim) O (row_items rows) ;;
       match r with
       | Return v => Ret v
       | Continue total_empty =>
           if (total_empty =? 0)%nat then Ret (reject "no_empty")
           else Ret accept
       end)
  end.

Definition is_form_11_body : tester := fun data encoding delim quotechar =>
  (set_ID 11 ;;;
   excluding is_form_13 "form_13" data encoding delim quotechar (
   excluding is_form_17 "form_17" data encoding delim quotechar (
   lift (form_11_structure data delim quotechar))))%M.

Definition is_form_11 : tester := form_escape_wrapper is_form_11_body.

(** *** Form 12: [,(male|female),([a-zA-Z0-9]+@[a-zA-Z0-9]+.com)] *)

(** The rest of [s] after the literal [p], when [s] starts with it. *)
Fixpoint after_literal (p s : string) : option string :=
  match p with
  | EmptyString => Some s
  | String a p' =>
      match s with
      | EmptyString => None
      | String b s' => if Ascii.eqb a b then after_literal p' s' else None
      end
  end.

(** [.com]: any character but a line feed, then the literal. *)
Definition match_dot_com (s : string) : bool :=
  match s with
  | EmptyString => false
  | String c s' => negb (Ascii.eqb c LF) && prefix "com" s'
  end.

(** [[a-zA-Z0-9]+.com], with the backtracking of the [+]. *)
Fixpoint match_host (s : string) : bool :=
  match s with
  | EmptyString => false
  | String c s' => is_alnum c && (match_dot_com s' || match_host s')
  end.

(** [[a-zA-Z0-9]+@] and what follows it; the [at_least_one] flag says a
    character of the run was consumed. *)
Fixpoint match_user (at_least_one : bool) (s : string) : bool :=
  match s with
  | EmptyString => false
  | String c s' =>
      if is_alnum c then match_user true s'
      else at_least_one && Ascii.eqb c "@" && match_host s'
  end.

(** The whole pattern, anchored at the start of [s]. *)
Definition match_form_12_here (s : string) : bool :=
  match after_literal "," s with
  | None => false
  | Some s1 =>
      let gender :=
        match after_literal "male" s1 with
        | Some s2 => Some s2
        | None => after_literal "female" s1
        end in
      match gender with
      | None => false
      | Some s2 =>
          match after_literal "," s2 with
          | None => false
          | Some s3 => match_user false s3
          end
      end
  end.

(** [len(regex.findall(pattern, data)) > 0]: the pattern matches at
    some position. *)
Fixpoint form_12_found (data : string) : bool :=
  match_form_12_here data ||
  match data with
  | EmptyString => false
  | String _ data' => form_12_found data'
  end.

Definition is_form_12_body : tester := fun data encoding delim quotechar =>
  (set_ID 12 ;;;
   if Py.str_in (str1 DQ) data || Py.str_in (str1 SQ) data
   then mret (reject "has_quote")
   else if form_12_found data then mret accept
   else mret (reject "no_match"))%M.

Definition is_form_12 : tester := form_escape_wrapper is_form_12_body.

(** ** The catalogue and its parameter sets *)

(** A Python [dict] with string keys and values, in insertion order. *)
Definition dict : Type := list (string * string).

Fixpoint dict_get (k : string) (d : dict) : option string :=
  match d with
  | [] => None
  | (k', v) :: d' => if String.eqb k k' then Some v else dict_get k d'
  end.

(** [d[k] = v]. *)
Fixpoint dict_set (k v : string) (d : dict) : dict :=
  match d with
  | [] => [(k, v)]
  | (k', v') :: d' =>
      if String.eqb k k' then (k, v) :: d' else (k', v') :: dict_set k v d'
  end.

(** [dict_product({"delim": delims, "quotechar": quotechars})]. *)
Definition dict_product (delims quotechars : list string) : list dict :=
  flat_map
    (fun d => map (fun q => [("delim", d); ("quotechar", q)]) quotechars)
    delims.

(** [DELIMS] is a Python set: the order in which a loop visits it is not
    fixed by the language.  The catalogue takes that order as [delims];
    [DELIMS] is one such order. *)
Definition DELIMS : list string := [","; ";"; "|"; str1 TAB].

(** An entry of [forms]: the tester, the value its body gives to its
    [ID] attribute, and the parameter sets tried. *)
Definition entry : Type := tester * nat * list dict.

Definition forms (delims : list string) : list entry :=
  let option_dict_1 := dict_product delims [str1 DQ; str1 SQ] in
  let option_dict_2 := dict_product delims [EmptyString] in
  let option_dict_4 := dict_product [EmptyString] [str1 DQ; str1 SQ] in
  [ (is_form_1, 1, option_dict_1);
    (is_form_2, 2, option_dict_2);
    (is_form_4, 4, option_dict_1);
    (is_form_5, 5, dict_product [","] [EmptyString]);
    (is_form_6, 6, dict_product [EmptyString] [EmptyString]);
    (is_form_7, 7, option_dict_1);
    (is_form_8, 8, option_dict_1);
    (is_form_9, 9, option_dict_4);
    (is_form_10, 10, option_dict_1);
    (is_form_11, 11, option_dict_2);
    (is_form_12, 12, dict_product [","] [EmptyString]);
    (is_form_13, 13, dict_product [","] [str1 DQ; EmptyString]);
    (is_form_14, 14, dict_product [str1 TAB] [EmptyString]);
    (is_form_15, 15, dict_product [";"] [EmptyString]);
    (is_form_17, 17, dict_product [","] [EmptyString; str1 DQ]);
    (is_form_18, 18, dict_product [","] [EmptyString; str1 DQ]);
    (is_form_19, 19, dict_product [","] [EmptyString; str1 DQ]) ].

(** The (tester, parameters) combinations in the order of the two
    nested loops of [detect_form]. *)
Definition combinations (delims : list string) : list (tester * nat * dict) :=
  flat_map (fun e : entry =>
              let '(form_func, id, options) := e in
              map (fun opt => (form_func, id, opt)) options)
           (forms delims).

(** [form_func(data, encoding, **opt)]. *)
Definition call_with (form_func : tester) (data encoding : string) (opt : dict)
  : M verdict :=
  match dict_get "delim" opt, dict_get "quotechar" opt with
  | Some delim, Some quotechar => form_func data encoding delim quotechar
  | _, _ => lift (Raise TypeError)
  end.

(** ** The orchestrator *)

(** What a run can change outside itself: the [ID] attributes that
    exist on the tester functions, and the lines appended to the
    [form_N.json] files, each with the [N] of its file.  Printed
    diagnostics are not modelled. *)
Record world : Type := {
  attrs : list nat;
  recorded : list (nat * dict)
}.

(** [form_func.ID]: AttributeError until the tester's body has run. *)
Definition get_ID (id : nat) (w : world) : res nat :=
  if existsb (Nat.eqb id) (attrs w) then Ret id else Raise AttributeError.

Definition record_form (form_id : nat) (filename : string) (config : dict)
    (w : world) : world :=
  {| attrs := attrs w;
     recorded := recorded w ++ [(form_id, dict_set "filename" filename config)] |}.

Definition add_attrs (ids : list nat) (w : world) : world :=
  {| attrs := attrs w ++ ids; recorded := recorded w |}.

(** One pass of the inner loop body of [detect_form]. *)
Definition try_combination (filename : string) (record_result verbose : bool)
    (data encoding : string) (c : tester * nat * dict)
    (w : world) (detected_forms : list (nat * dict))
  : world * res (list (nat * dict)) :=
  let '(form_func, id, opt) := c in
  let '(ids, r) := call_with form_func data encoding opt in
  let w := add_attrs ids w in
  match r with
  | Raise e => (w, Raise e)
  | Ret (status, error) =>
      if status then
        let opt := dict_set "escapechar" EmptyString opt in
        match get_ID id w with
        | Raise e => (w, Raise e)
        | Ret form_id =>
            let w := if record_result then record_form form_id filename opt w
                     else w in
            (w, Ret (detected_forms ++ [(form_id, opt)]))
        end
      else if verbose then
        match get_ID id w with
        | Raise e => (w, Raise e)
        | Ret _ => (w, Ret detected_forms)
        end
      else (w, Ret detected_forms)
  end.

(** The two nested loops: every combination, in order. *)
Fixpoint collect (filename : string) (record_result verbose : bool)
    (data encoding : string) (cs : list (tester * nat * dict))
    (w : world) (detected_forms : list (nat * dict))
  : world * res (list (nat * dict)) :=
  match cs with
  | [] => (w, Ret detected_forms)
  | c :: cs' =>
      match try_combination filename record_result verbose data encoding c
              w detected_forms with
      | (w', Raise e) => (w', Raise e)
      | (w', Ret detected_forms') =>
          collect filename record_result verbose data encoding cs' w' detected_forms'
      end
  end.

(** What [detect_form] hands back. *)
Inductive outcome : Type :=
| Fail                                   (* ("FAIL", {}) *)
| NoForm                                 (* (None, {}) *)
| Detected (form_id : nat) (params : dict)
| Raised (e : exn).

(** The [if]/[elif]/[else] that ends [detect_form]. *)
Definition conclude (filename : string) (record_result : bool)
    (detected_forms : list (nat * dict)) (w : world) : world * outcome :=
  match detected_forms with
  | [] => ((if record_result then record_form 0 filename [] w else w), NoForm)
  | [(form_id, params)] => (w, Detected form_id params)
  | _ => (w, Raised ValueError)
  end.

(** [detect_form(filename, record_result, verbose)].  [encoding] and
    [loaded] are what [get_encoding] and [load_file] gave for the file
    ([None]: it could not be loaded); [delims] is the order in which
    [DELIMS] is visited. *)
Definition detect_form (delims : list string) (filename : string)
    (record_result verbose : bool) (encoding : string) (loaded : option string)
    (w : world) : world * outcome :=
  match loaded with
  | None => (w, Fail)
  | Some data =>
      match collect filename record_result verbose data encoding
              (combinations delims) w [] with
      | (w', Raise e) => (w', Raised e)
      | (w', Ret detected_forms) => conclude filename record_result detected_forms w'
      end
  end.

(** The combinations that report a positive match, read off the testers
    alone: what the loops collect when nothing stops them. *)
Definition matched (data encoding : string) (c : tester * nat * dict) : bool :=
  match snd (call_with (fst (fst c)) data encoding (snd c)) with
  | Ret (true, _) => true
  | _ => false
  end.

Definition positive_matches (delims : list string) (data encoding : string)
  : list (nat * dict) :=
  map (fun c : tester * nat * dict =>
         (snd (fst c), dict_set "escapechar" EmptyString (snd c)))
      (filter (matched data encoding) (combinations delims)).

End Forms.

(** ** The Dialect value object (scripts/common/dialect.py) *)

Module Dialect.

(** The value of an attribute: a [str], or [None]. *)
Definition field : Type := option string.

Record t : Type := mk {
  delimiter : field;
  quotechar : field;
  escapechar : field
}.

(** The Python values [other] ranges over in [__eq__]. *)
Inductive value : Type :=
| VDialect (d : t)
| VNone
| VStr (s : string)
| VInt (z : Z)
| VBool (b : bool).

Definition isinstance_Dialect (v : value) : bool :=
  match v with
  | VDialect _ => true
  | _ => false
  end.

(** [__key]. *)
Definition key (self : t) : field * field * field :=
  (delimiter self, quotechar self, escapechar self).

(** [==] on attribute values. *)
Definition field_eqb (a b : field) : bool :=
  match a, b with
  | None, None => true
  | Some x, Some y => String.eqb x y
  | _, _ => false
  end.

(** [==] on 3-tuples of attribute values. *)
Definition key_eqb (a b : field * field * field) : bool :=
  let '(a1, a2, a3) := a in
  let '(b1, b2, b3) := b in
  field_eqb a1 b1 && field_eqb a2 b2 && field_eqb a3 b3.

(** [__eq__]. *)
Definition eq (self : t) (other : value) : bool :=
  match other with
  | VDialect o => key_eqb (key self) (key o)
  | _ => false
  end.

Section Hash.

(** The built-in [hash] on 3-tuples of attribute values. *)
Variable builtin_hash : field * field * field -> Z.

(** [__hash__]. *)
Definition hash (self : t) : Z := builtin_hash (key self).

End Hash.

End Dialect.

(** ** Definitions used to state the properties *)

(** The naive delimiter split in the spec's words, for a one-character
    delimiter: cut the row at every occurrence of the delimiter. *)
Fixpoint naive_delimiter_split (d : ascii) (row : string) : list string :=
  match row with
  | EmptyString => [EmptyString]
  | String c row' =>
      if Ascii.eqb c d then EmptyString :: naive_delimiter_split d row'
      else
        match naive_delimiter_split d row' with
        | cell :: cells => String c cell :: cells
        | [] => [str1 c]
        end
  end.

(** [x] occurs in [s] as a contiguous piece. *)
Definition substring_of (x s : string) : Prop :=
  exists pre post, s = pre +++ x +++ post.

(** A result with a true status. *)
Definition positive (m : M verdict) : bool :=
  match snd m with
  | Ret (true, _) => true
  | _ => false
  end.

(** The outcome of a computation did not raise. *)
Definition returns {A : Type} (r : res A) : Prop := exists a, r = Ret a.

(** An escape oracle for running examples: the backslash and nothing
    else is a potential escape character. *)
Definition backslash_only (c : ascii) (encoding : string) : bool :=
  Ascii.eqb c "\"%char.

Definition UTF8 : string := "utf-8".

Definition fresh : world := {| attrs := []; recorded := [] |}.

(** The reason codes by which a tester names a sibling. *)
Definition sibling_code (reason : string) : bool := prefix "form_" reason.

Definition has_escapechar (params : dict) : Prop :=
  dict_get "escapechar" params = Some EmptyString.

(** A stand-in for the built-in hash when an example needs one. *)
Definition sample_hash (k : Dialect.field * Dialect.field * Dialect.field) : Z :=
  let '(d, q, e) := k in
  let len (f : Dialect.field) :=
    match f with
    | Some s => Z.of_nat (String.length s)
    | None => (-1)%Z
    end in
  (len d + 31 * len q + 961 * len e)%Z.

(** Some texts used as inputs. *)
Definition NL : string := str1 LF.
Definition QT : string := str1 DQ.

Definition tab_banner_table : string :=
  "Format is tab separateda" +++ str1 TAB +++ "b" +++ NL +++ "a" +++ str1 TAB +++ "b".

Definition crlf_blank_line : string :=
  "a" +++ CRLF +++ "b" +++ CRLF +++ CRLF.

Definition quoted_comma_table : string :=
  "a," +++ QT +++ "b,c" +++ QT +++ NL +++ "a," +++ QT +++ "b,c" +++ QT.

Definition usage_header : string :=
  "what,kind,bundleId,bundleVersion,description,time".

Definition cps_header : string := "CPS outcomes by principal offence".

Definition quoted_table : string :=
  QT +++ "a" +++ QT +++ "," +++ QT +++ "b" +++ QT +++ NL +++
  QT +++ "c" +++ QT +++ "," +++ QT +++ "d" +++ QT.

(** A table of form 1 with a backslash before the second quote. *)
Definition escaped_table : string :=
  QT +++ "a\" +++ QT +++ "," +++ QT +++ "b" +++ QT +++ NL +++
  QT +++ "c" +++ QT +++ "," +++ QT +++ "d" +++ QT.

(** A table of form 1 under the single quote, with a backslash and a
    double quote inside its first cell. *)
Definition escaped_quote_inside : string :=
  str1 SQ +++ "a\" +++ QT +++ str1 SQ +++ "," +++ str1 SQ +++ "b" +++ str1 SQ +++ NL +++
  str1 SQ +++ "c" +++ str1 SQ +++ "," +++ str1 SQ +++ "d" +++ str1 SQ.

(** A backslash followed by a double quote. *)
Definition BACKSLASH_QUOTE : string := String "\" QT.

(** [cur] put in front of the first cell. *)
Definition prepend (cur : string) (cells : list string) : list string :=
  match cells with
  | cell :: cells' => (cur +++ cell) :: cells'
  | [] => [cur]
  end.

(** The entry of the match list, and the line recorded, for a
    combination that matched. *)
Definition match_entry (c : tester * nat * dict) : nat * dict :=
  (snd (fst c), dict_set "escapechar" EmptyString (snd c)).

Definition record_line (filename : string) (m : nat * dict) : nat * dict :=
  (fst m, dict_set "filename" filename (snd m)).

(** A verdict whose reason code does not name a sibling. *)
Definition own_code (v : verdict) : Prop :=
  match snd v with
  | Some reason => sibling_code reason = false
  | None => True
  end.

(** ** The other methods of Dialect *)

Module DialectOps.

(** What the methods raise: ValueError with the name of the attribute
    in its message, KeyError with the missing key, TypeError from [<]
    between [None] and a [str]. *)
Inductive error : Type :=
| ValueError (attribute : string)
| KeyError (key : string)
| TypeError.

Inductive result (A : Type) : Type :=
| Ok (a : A)
| Err (e : error).
Arguments Ok {A} a.
Arguments Err {A} e.

(** [f is None or len(f) > 1]. *)
Definition too_long (f : Dialect.field) : bool :=
  match f with
  | None => true
  | Some s => (1 <? String.length s)%nat
  end.

(** [validate]: raises, or returns after printing the warning or not
    ([true]: the warning went to stderr). *)
Definition validate (self : Dialect.t) : result bool :=
  if too_long (Dialect.delimiter self) then Err (ValueError "Delimiter")
  else if too_long (Dialect.quotechar self) then Err (ValueError "Quotechar")
  else if too_long (Dialect.escapechar self) then Err (ValueError "Escapechar")
  else Ok (Dialect.field_eqb (Dialect.quotechar self) (Some "Q")
           || Dialect.field_eqb (Dialect.quotechar self) (Some "A")).

(** A [dict] whose values are attribute values. *)
Definition attr_dict : Type := list (string * Dialect.field).

Fixpoint lookup (k : string) (d : attr_dict) : result Dialect.field :=
  match d with
  | [] => Err (KeyError k)
  | (k', v) :: d' => if String.eqb k k' then Ok v else lookup k d'
  end.

(** [from_dict]: the three subscripts are evaluated in order. *)
Definition from_dict (d : attr_dict) : result Dialect.t :=
  match lookup "delimiter" d with
  | Err e => Err e
  | Ok delimiter =>
      match lookup "quotechar" d with
      | Err e => Err e
      | Ok quotechar =>
          match lookup "escapechar" d with
          | Err e => Err e
          | Ok escapechar => Ok (Dialect.mk delimiter quotechar escapechar)
          end
      end
  end.

Definition to_dict (self : Dialect.t) : result attr_dict :=
  match validate self with
  | Err e => Err e
  | Ok _ =>
      Ok [ ("delimiter", Dialect.delimiter self);
           ("quotechar", Dialect.quotechar self);
           ("escapechar", Dialect.escapechar self) ]
  end.

(** [a < b] on attribute values: strings compare by code points,
    [None] is not ordered. *)
Definition field_lt (a b : Dialect.field) : result bool :=
  match a, b with
  | Some x, Some y => Ok (String.ltb x y)
  | _, _ => Err TypeError
  end.

(** [a < b] on 3-tuples: the first pair of items that are not equal
    decides; equal tuples are not less. *)
Definition key_lt (a b : Dialect.field * Dialect.field * Dialect.field)
  : result bool :=
  let '(a1, a2, a3) := a in
  let '(b1, b2, b3) := b in
  if negb (Dialect.field_eqb a1 b1) then field_lt a1 b1
  else if negb (Dialect.field_eqb a2 b2) then field_lt a2 b2
  else if negb (Dialect.field_eqb a3 b3) then field_lt a3 b3
  else Ok false.

(** What [__lt__] returns: a [bool], or the [int] -1. *)
Inductive answer : Type :=
| ABool (b : bool)
| AInt (z : Z).

(** The truth value of an answer, as [if] and [not] take it. *)
Definition truthy (a : answer) : bool :=
  match a with
  | ABool b => b
  | AInt z => negb (Z.eqb z 0)
  end.

(** [__lt__]. *)
Definition lt (self : Dialect.t) (other : Dialect.value) : result answer :=
  match other with
  | Dialect.VDialect o =>
      match key_lt (Dialect.key self) (Dialect.key o) with
      | Ok b => Ok (ABool b)
      | Err e => Err e
      end
  | _ => Ok (AInt (-1))
  end.

(** [__ge__] as [functools.total_ordering] derives it from [__lt__]:
    [not (self < other)]. *)
Definition ge (self : Dialect.t) (other : Dialect.value) : result answer :=
  match lt self other with
  | Ok a => Ok (ABool (negb (truthy a)))
  | Err e => Err e
  end.

(** [__le__] as derived: [(self < other) or self == other]. *)
Definition le (self : Dialect.t) (other : Dialect.value) : result answer :=
  match lt self other with
  | Ok a => if truthy a then Ok a else Ok (ABool (Dialect.eq self other))
  | Err e => Err e
  end.

(** [__gt__] as derived: [not (self < other) and self != other]. *)
Definition gt (self : Dialect.t) (other : Dialect.value) : result answer :=
  match lt self other with
  | Ok a =>
      if negb (truthy a) then Ok (ABool (negb (Dialect.eq self other)))
      else Ok (ABool false)
  | Err e => Err e
  end.

(** All three attributes are strings. *)
Definition all_str (d : Dialect.t) : Prop :=
  Dialect.delimiter d <> None /\ Dialect.quotechar d <> None
  /\ Dialect.escapechar d <> None.

End DialectOps.

(** ** More definitions used to state properties *)

(** The number of characters of [s] that are the quotechar [q]. *)
Fixpoint count_quotes (q : string) (s : string) : nat :=
  match s with
  | EmptyString => O
  | String c s' =>
      if Py.char_is c q then S (count_quotes q s') else count_quotes q s'
  end.

(** A cell in which every opening quote is closed. *)
Definition balanced (q cell : string) : Prop :=
  Nat.even (count_quotes q cell) = true.

(** [n] copies of the character [c]. *)
Fixpoint run_of (c : ascii) (n : nat) : string :=
  match n with
  | O => EmptyString
  | S n' => String c (run_of c n')
  end.

(** The order of tuples of three items from the orders of the items:
    the first pair that differs decides. *)
Definition lex3 (c1 c2 c3 : comparison) : comparison :=
  match c1 with
  | Eq => match c2 with
          | Eq => c3
          | c => c
          end
  | c => c
  end.

(** The key of a Dialect whose attributes are strings, compared with
    another. *)
Definition key_compare (a b : string * string * string) : comparison :=
  let '(a1, a2, a3) := a in
  let '(b1, b2, b3) := b in
  lex3 (String.compare a1 b1) (String.compare a2 b2) (String.compare a3 b3).

(** The Dialect with three string attributes. *)
Definition str_dialect (k : string * string * string) : Dialect.t :=
  let '(d, q, e) := k in Dialect.mk (Some d) (Some q) (Some e).

(** The reject verdicts. *)
Definition negative (v : verdict) : Prop := fst v = false.

(** ** Tactics *)

(** Closes goals [returns e] where [e] is built from conditionals that
    end in [Ret]. *)
Ltac returns_by_cases :=
  repeat match goal with
         | |- returns (Ret _) => eexists; reflexivity
         | |- returns (if ?b then _ else _) => destruct b
         | |- returns (let (_, _) := ?p in _) => destruct p
         | |- returns (match ?x with _ => _ end) => destruct x
         end.

(** The same for the outcome of a body made of conditionals that end in
    [mret]. *)
Ltac returns_snd_by_cases :=
  repeat match goal with
         | |- returns (snd (mret _)) => eexists; reflexivity
         | |- returns (snd (if ?b then _ else _)) => destruct b
         | |- returns (snd (match ?x with _ => _ end)) => destruct x
         | |- returns (snd (let _ := _ in _)) => cbv zeta
         end.

(** Puts the pre-checks of a tester call, and of the sibling calls
    inside it, in view. *)
Ltac expose_prechecks :=
  cbv beta delta [is_form_1 is_form_2 is_form_4 is_form_5 is_form_6 is_form_7
                  is_form_8 is_form_9 is_form_10 is_form_11 is_form_12 is_form_13
                  is_form_14 is_form_15 is_form_17 is_form_18 is_form_19
                  is_form_2_body is_form_4_body is_form_8_body is_form_11_body
                  is_form_7_body excluding form_escape_wrapper].

(** Reads off the verdict of a chain of conditionals that end in
    [Ret]. *)
Ltac own_code_leaf H :=
  repeat match type of H with
         | context [if ?b then _ else _] => destruct b
         | context [let (_, _) := ?p in _] => destruct p
         end;
  try discriminate H;
  first [ injection H as <-; reflexivity | injection H as <-; exact I ].

(** * Properties *)

(** ** Strings *)

Lemma sapp_empty_r (s : string) : s +++ EmptyString = s.
Proof.
  induction s as [|c s IH]; simpl; [reflexivity | now rewrite IH].
Qed.

Lemma sapp_assoc (a b c : string) : (a +++ b) +++ c = a +++ (b +++ c).
Proof.
  induction a as [|x a IH]; simpl; [reflexivity | now rewrite IH].
Qed.

Lemma sapp_snoc_cons (a : string) (c : ascii) (b : string) :
  (a +++ str1 c) +++ b = a +++ String c b.
Proof. now rewrite sapp_assoc. Qed.

Lemma prefix_sapp (p s : string) : prefix p (p +++ s) = true.
Proof.
  induction p as [|c p IH]; simpl.
  - now destruct s.
  - destruct (ascii_dec c c); [exact IH | congruence].
Qed.

Lemma prefix_inv (p s : string) :
  prefix p s = true -> exists post, s = p +++ post.
Proof.
  revert s. induction p as [|c p IH]; intros s H.
  - exists s. reflexivity.
  - destruct s as [|c' s]; simpl in H; [discriminate|].
    destruct (ascii_dec c c') as [->|]; [|discriminate].
    destruct (IH _ H) as [post ->]. exists post. reflexivity.
Qed.

Lemma str_in_nil (x : string) :
  Py.str_in x EmptyString = prefix x EmptyString.
Proof. simpl. apply orb_false_r. Qed.

Lemma str_in_cons (x : string) (c : ascii) (s : string) :
  Py.str_in x (String c s) = prefix x (String c s) || Py.str_in x s.
Proof. reflexivity. Qed.

Lemma str_in_iff (x s : string) :
  Py.str_in x s = true <-> substring_of x s.
Proof.
  split.
  - induction s as [|c s IH]; intros H.
    + rewrite str_in_nil in H.
      destruct (prefix_inv _ _ H) as [post E]. exists EmptyString, post. exact E.
    + rewrite str_in_cons in H. apply orb_true_iff in H. destruct H as [H|H].
      * destruct (prefix_inv _ _ H) as [post E]. exists EmptyString, post. exact E.
      * destruct (IH H) as (pre & post & ->). exists (String c pre), post. reflexivity.
  - intros (pre & post & ->). induction pre as [|c pre IH].
    + change (EmptyString +++ x +++ post) with (x +++ post).
      destruct (x +++ post) eqn:E.
      * rewrite str_in_nil, <- E. apply prefix_sapp.
      * rewrite str_in_cons, <- E, prefix_sapp. reflexivity.
    + change (String c pre +++ x +++ post) with (String c (pre +++ x +++ post)).
      rewrite str_in_cons, IH. apply orb_true_r.
Qed.

Lemma substring_of_trans (x y z : string) :
  substring_of x y -> substring_of y z -> substring_of x z.
Proof.
  intros (p1 & q1 & ->) (p2 & q2 & ->).
  exists (p2 +++ p1), (q1 +++ q2). now rewrite !sapp_assoc.
Qed.

Lemma str_in_mono (x y z : string) :
  substring_of y z -> Py.str_in x z = false -> Py.str_in x y = false.
Proof.
  intros Hyz Hz. destruct (Py.str_in x y) eqn:E; [|reflexivity].
  apply str_in_iff in E. pose proof (substring_of_trans _ _ _ E Hyz) as H.
  apply str_in_iff in H. congruence.
Qed.

Lemma substring_of_prefix (a b : string) : substring_of a (a +++ b).
Proof. exists EmptyString, b. reflexivity. Qed.

Lemma substring_of_suffix (a b : string) : substring_of b (a +++ b).
Proof. exists a, EmptyString. now rewrite sapp_empty_r. Qed.

Lemma substring_of_refl (a : string) : substring_of a a.
Proof. exists EmptyString, EmptyString. simpl. now rewrite sapp_empty_r. Qed.


(** ** Stripping and splitting *)

Lemma eqb_cons_str1 (a : ascii) (s : string) (c : ascii) :
  String.eqb (String a s) (str1 c) = Ascii.eqb a c && String.eqb s EmptyString.
Proof. unfold str1. simpl. now destruct (Ascii.eqb a c). Qed.

Lemma endswith_cons (a : ascii) (s p : string) :
  Py.endswith (String a s) p = String.eqb (String a s) p || Py.endswith s p.
Proof. reflexivity. Qed.

Lemma endswith_rstrip (s : string) (c : ascii) :
  Py.endswith (Py.rstrip s c) (str1 c) = false.
Proof.
  induction s as [|a s IH]; [reflexivity|].
  simpl Py.rstrip.
  destruct (String.eqb (Py.rstrip s c) EmptyString && Ascii.eqb a c) eqn:E;
    [reflexivity|].
  rewrite endswith_cons, IH, orb_false_r, eqb_cons_str1, andb_comm. exact E.
Qed.

Lemma rstrip_id (s : string) (c : ascii) :
  Py.endswith s (str1 c) = false -> Py.rstrip s c = s.
Proof.
  induction s as [|a s IH]; [reflexivity|].
  rewrite endswith_cons. intros H. apply orb_false_iff in H. destruct H as [H1 H2].
  simpl. rewrite (IH H2).
  rewrite eqb_cons_str1, andb_comm in H1. now rewrite H1.
Qed.

(** One pass of either [while] loop is enough: whatever the fuel, the
    loop computes [rstrip]. *)
Lemma strip_loop_rstrip (fuel : nat) (c : ascii) (data : string) :
  strip_loop (S fuel) c data = Py.rstrip data c.
Proof.
  simpl. destruct (Py.endswith data (str1 c)) eqn:E.
  - destruct fuel as [|fuel]; [reflexivity|].
    simpl. now rewrite endswith_rstrip.
  - symmetry. now apply rstrip_id.
Qed.

Lemma strip_trailing_crnl_rstrip (data : string) :
  strip_trailing_crnl data = Py.rstrip (Py.rstrip data LF) CR.
Proof.
  unfold strip_trailing_crnl. now rewrite !strip_loop_rstrip.
Qed.

Lemma rstrip_prefix (s : string) (c : ascii) :
  exists post, s = Py.rstrip s c +++ post.
Proof.
  induction s as [|a s [post IH]].
  - exists EmptyString. reflexivity.
  - simpl. destruct (String.eqb (Py.rstrip s c) EmptyString && Ascii.eqb a c).
    + exists (String a s). reflexivity.
    + exists post. simpl. now rewrite <- IH.
Qed.

Lemma strip_trailing_crnl_substring (data : string) :
  substring_of (strip_trailing_crnl data) data.
Proof.
  rewrite strip_trailing_crnl_rstrip.
  destruct (rstrip_prefix data LF) as [p1 E1].
  destruct (rstrip_prefix (Py.rstrip data LF) CR) as [p2 E2].
  exists EmptyString, (p2 +++ p1). simpl.
  rewrite <- sapp_assoc, <- E2. exact E1.
Qed.

Lemma substring_of_cons (x : string) (c : ascii) (s : string) :
  substring_of x s -> substring_of x (String c s).
Proof.
  intros (pre & post & ->). exists (String c pre), post. reflexivity.
Qed.

Lemma substring_of_sapp_r (x a s : string) :
  substring_of x s -> substring_of x (a +++ s).
Proof.
  intros (pre & post & ->). exists (a +++ pre), post. now rewrite sapp_assoc.
Qed.

(** Every piece that [split] returns is a piece of the string split. *)
Lemma split_go_substring (sep : string) (s : string) :
  forall (skip : nat) (cur : string),
    (skip <> 0 -> cur = EmptyString) ->
    forall x, In x (Py.split_go sep skip cur s) -> substring_of x (cur +++ s).
Proof.
  induction s as [|c s IH]; intros skip cur Hskip x Hx.
  - simpl in Hx. destruct Hx as [<-|[]]. apply substring_of_prefix.
  - cbn [Py.split_go] in Hx. destruct skip as [|k].
    + destruct (prefix sep (String c s)).
      * destruct Hx as [<-|Hx]; [apply substring_of_prefix|].
        apply substring_of_sapp_r, substring_of_cons.
        apply (IH (String.length sep - 1) EmptyString); [reflexivity | exact Hx].
      * rewrite <- sapp_snoc_cons. apply (IH 0); [congruence | exact Hx].
    + rewrite Hskip in * by discriminate. simpl.
      apply substring_of_cons.
      apply (IH k EmptyString); [reflexivity | exact Hx].
Qed.

Lemma chars_substring (s x : string) :
  In x (Py.chars s) -> substring_of x s.
Proof.
  unfold Py.chars. induction s as [|c s IH]; simpl; [tauto|].
  intros [<-|H].
  - exists EmptyString, s. reflexivity.
  - apply substring_of_cons, IH, H.
Qed.

Lemma split_file_rows_substring (data row : string) :
  In row (row_items (split_file data)) -> substring_of row data.
Proof.
  intros H.
  apply substring_of_trans with (y := strip_trailing_crnl data);
    [|apply strip_trailing_crnl_substring].
  unfold split_file in H.
  repeat match type of H with
         | context [if ?b then _ else _] => destruct b
         end; simpl in H.
  1-3: unfold Py.split_on in H;
    apply (split_go_substring _ _ 0 EmptyString) in H; [exact H | congruence].
  now apply chars_substring.
Qed.

(** ** The naive split *)

Lemma naive_delimiter_split_nonempty (d : ascii) (row : string) :
  naive_delimiter_split d row <> [].
Proof.
  destruct row as [|c row]; simpl; [discriminate|].
  destruct (Ascii.eqb c d); [discriminate|].
  destruct (naive_delimiter_split d row); discriminate.
Qed.

Lemma prefix_empty (s : string) : prefix EmptyString s = true.
Proof. now destruct s. Qed.

Lemma prefix_str1 (d c : ascii) (s : string) :
  prefix (str1 d) (String c s) = Ascii.eqb c d.
Proof.
  unfold str1. simpl. destruct (ascii_dec d c) as [->|n].
  - now rewrite prefix_empty, Ascii.eqb_refl.
  - symmetry. apply Ascii.eqb_neq. congruence.
Qed.

(** Python's [split] on a one-character separator cuts at every
    occurrence of it. *)
Lemma split_go_naive (d : ascii) (row : string) :
  forall cur,
    Py.split_go (str1 d) 0 cur row = prepend cur (naive_delimiter_split d row).
Proof.
  induction row as [|c row IH]; intros cur.
  - simpl. now rewrite sapp_empty_r.
  - cbn [Py.split_go naive_delimiter_split]. rewrite prefix_str1.
    destruct (Ascii.eqb c d).
    + simpl String.length. simpl Nat.sub. rewrite IH. simpl.
      rewrite sapp_empty_r. f_equal.
      pose proof (naive_delimiter_split_nonempty d row) as Hne.
      destruct (naive_delimiter_split d row); [congruence | reflexivity].
    + rewrite IH.
      pose proof (naive_delimiter_split_nonempty d row) as Hne.
      destruct (naive_delimiter_split d row); [congruence|].
      simpl. now rewrite sapp_snoc_cons.
Qed.

Lemma str_split_naive (d : ascii) (row : string) :
  Py.str_split row (str1 d) = Ret (naive_delimiter_split d row).
Proof.
  unfold Py.str_split, Py.split_on, str1. fold (str1 d). rewrite split_go_naive.
  pose proof (naive_delimiter_split_nonempty d row) as Hne.
  destruct (naive_delimiter_split d row); [congruence | reflexivity].
Qed.

Lemma split_row_unquoted (row delim : string) (quotechar : option string) :
  (quotechar = None \/ exists q, quotechar = Some q /\ Py.str_in q row = false) ->
  split_row row delim quotechar = Py.str_split row delim.
Proof.
  intros [->|(q & -> & H)]; [reflexivity|].
  unfold split_row. now rewrite H.
Qed.

Lemma naive_delimiter_split_snoc (d : ascii) (r : string) :
  naive_delimiter_split d (r +++ str1 d) = naive_delimiter_split d r ++ [EmptyString].
Proof.
  induction r as [|c r IH].
  - simpl. now rewrite Ascii.eqb_refl.
  - simpl. rewrite IH. destruct (Ascii.eqb c d); [reflexivity|].
    pose proof (naive_delimiter_split_nonempty d r) as Hne.
    destruct (naive_delimiter_split d r); [congruence | reflexivity].
Qed.

Lemma split_row_scan_app (delim q a b : string) :
  forall cells cur inq,
    split_row_scan delim q (a +++ b) cells cur inq =
    let '(cells1, cur1, inq1) := split_row_scan delim q a cells cur inq in
    split_row_scan delim q b cells1 cur1 inq1.
Proof.
  induction a as [|c a IH]; intros cells cur inq; [reflexivity|].
  simpl.
  destruct (Py.char_is c delim && negb inq); [apply IH|].
  destruct (Py.char_is c q); apply IH.
Qed.

Lemma char_is_str1 (c : ascii) : Py.char_is c (str1 c) = true.
Proof. unfold Py.char_is. apply String.eqb_refl. Qed.

Lemma snoc_not_empty (s : string) (c : ascii) :
  String.eqb (s +++ str1 c) EmptyString = false.
Proof. now destruct s. Qed.

(** C6: on a row of a content in which the quotechar does not occur, and
    whenever the quotechar is absent ([None]), [split_row] is Python's
    [row.split(delim)]; for a one-character delimiter that is the naive
    split, which cuts the row at every occurrence of the delimiter. *)
Theorem split_row_is_naive_split
    (data row delim : string) (quotechar : option string) :
  In row (row_items (split_file data)) ->
  (quotechar = None \/
   exists q, quotechar = Some q /\ Py.str_in q data = false) ->
  split_row row delim quotechar = Py.str_split row delim /\
  (forall d, delim = str1 d ->
             split_row row delim quotechar = Ret (naive_delimiter_split d row)).
Proof.
  intros Hrow Hq.
  assert (E : split_row row delim quotechar = Py.str_split row delim).
  { apply split_row_unquoted. destruct Hq as [->|(q & -> & Hq)]; [now left|].
    right. exists q. split; [reflexivity|].
    apply str_in_mono with (z := data); [|exact Hq].
    now apply split_file_rows_substring. }
  split; [exact E|].
  intros d ->. rewrite E. apply str_split_naive.
Qed.

Lemma split_row_is_naive_split_witness :
  split_row "a,b" "," (Some QT) = Ret ["a"; "b"].
Proof.
  apply (proj2 (split_row_is_naive_split ("a,b" +++ NL +++ "c,d") "a,b" ","
                  (Some QT)
                  (or_introl eq_refl)
                  (or_intror (ex_intro _ QT (conj eq_refl eq_refl))))
               ","%char eq_refl).
Defined.

(** C5, as stated, fails where the quotechar is absent or does not occur
    in the row: the row [a,] ends on the delimiter and the cell after it,
    empty, is returned. *)
Lemma split_row_trailing_empty_cell_kept :
  split_row "a," "," (Some QT) = Ret ["a"; EmptyString] /\
  split_row "a," "," None = Ret ["a"; EmptyString].
Proof. split; reflexivity. Qed.

(** C5, amended: when the quotechar occurs in the row, [split_row]
    returns the cells closed by delimiters outside quotes, then the
    accumulator if it is not empty.  So a row that ends on a delimiter
    outside quotes yields one cell for each such delimiter and no cell
    for the empty text after the last one; inside quotes the final
    delimiter belongs to the last cell.  When the quotechar is absent or
    does not occur in the row, the split is the naive one and the empty
    cell after the final delimiter is kept. *)
Theorem split_row_trailing_accumulator
    (r : string) (d : ascii) (q : string)
    (cells : list string) (current_cell : string) (in_quotes : bool) :
  split_row_scan (str1 d) q r [] EmptyString false
    = (cells, current_cell, in_quotes) ->
  (Py.str_in q r = true ->
   split_row r (str1 d) (Some q) =
   Ret (if String.eqb current_cell EmptyString then cells
        else cells ++ [current_cell])) /\
  (Py.str_in q (r +++ str1 d) = true ->
   split_row (r +++ str1 d) (str1 d) (Some q) =
   Ret (if in_quotes then cells ++ [current_cell +++ str1 d]
        else cells ++ [current_cell])) /\
  (Py.str_in q (r +++ str1 d) = false ->
   split_row (r +++ str1 d) (str1 d) (Some q) =
   Ret (naive_delimiter_split d r ++ [EmptyString])) /\
  split_row (r +++ str1 d) (str1 d) None =
  Ret (naive_delimiter_split d r ++ [EmptyString]).
Proof.
  intros Hscan. repeat split.
  - intros Hq. unfold split_row. rewrite Hq, Hscan. reflexivity.
  - intros Hq. unfold split_row. rewrite Hq. simpl negb. cbv iota.
    rewrite split_row_scan_app, Hscan. simpl.
    rewrite char_is_str1. destruct in_quotes; simpl.
    + destruct (Py.char_is d q); now rewrite snoc_not_empty.
    + reflexivity.
  - intros Hq. unfold split_row. rewrite Hq. change (negb false) with true. cbv iota.
    now rewrite str_split_naive, naive_delimiter_split_snoc.
  - unfold split_row. now rewrite str_split_naive, naive_delimiter_split_snoc.
Qed.

Lemma split_row_trailing_accumulator_witness :
  split_row (QT +++ "x" +++ QT +++ ",") "," (Some QT) = Ret [QT +++ "x" +++ QT].
Proof.
  apply (proj1 (proj2 (split_row_trailing_accumulator
                         (QT +++ "x" +++ QT) ","%char QT [] (QT +++ "x" +++ QT) false
                         eq_refl)) eq_refl).
Defined.

(** The empty string is not an absent quotechar: it occurs in every row
    ([in] on strings), so the row is scanned and the empty accumulator
    after a final delimiter is dropped. *)
Lemma split_row_empty_quotechar_is_scanned :
  Py.str_in EmptyString "a," = true /\
  split_row "a," "," (Some EmptyString) = Ret ["a"].
Proof. split; reflexivity. Qed.

(** C4: a content with CRLF line ends and one blank line at its end.
    The two loops of [strip_trailing_crnl] leave one CRLF at the end and
    [split_file] returns a third, empty row. *)
Theorem split_file_crlf_blank_line :
  strip_trailing_crnl crlf_blank_line = "a" +++ CRLF +++ "b" +++ CRLF /\
  split_file crlf_blank_line = RowList ["a"; "b"; EmptyString].
Proof. split; reflexivity. Qed.

(** ** The attribute trace *)

Lemma snd_mbind {A B : Type} (m : M A) (k : A -> M B) :
  snd (mbind m k) =
  match snd m with
  | Ret a => snd (k a)
  | Raise e => Raise e
  end.
Proof.
  destruct m as [w [a|e]]; simpl; [|reflexivity].
  now destruct (k a).
Qed.

Lemma fst_mbind_set_ID {B : Type} (id : nat) (k : unit -> M B) :
  fst (mbind (set_ID id) k) = id :: fst (k tt).
Proof. simpl. now destruct (k tt). Qed.

Lemma snd_mbind_set_ID {B : Type} (id : nat) (k : unit -> M B) :
  snd (mbind (set_ID id) k) = snd (k tt).
Proof. now rewrite snd_mbind. Qed.

(** ** The escape pre-check *)

Lemma pairwise_cons (a b : ascii) (s : string) :
  pairwise (String a (String b s)) = (a, b) :: pairwise (String b s).
Proof. reflexivity. Qed.

Lemma pairwise_In (u v : ascii) (data : string) :
  In (u, v) (pairwise data) <->
  exists pre post, data = pre +++ String u (String v post).
Proof.
  split.
  - induction data as [|a rest IH]; [intros []|].
    destruct rest as [|b t]; [intros []|].
    rewrite pairwise_cons. intros [E|H].
    + injection E as -> ->. exists EmptyString, t. reflexivity.
    + destruct (IH H) as (pre & post & E).
      exists (String a pre), post. simpl. now rewrite <- E.
  - intros (pre & post & ->). induction pre as [|a pre IH].
    + left. reflexivity.
    + simpl String.append.
      destruct (pre +++ String u (String v post)) as [|b t] eqn:E.
      * destruct pre; discriminate.
      * rewrite pairwise_cons. right. exact IH.
Qed.

Section Escape.

Variable esc : ascii -> string -> bool.

Lemma maybe_has_escapechar_absent (data encoding delim quotechar : string) :
  Py.str_in delim data = false ->
  Py.str_in quotechar data = false ->
  maybe_has_escapechar esc data encoding delim quotechar = false.
Proof.
  intros H1 H2. unfold maybe_has_escapechar. now rewrite H1, H2.
Qed.

Lemma char_is_occurs (v : ascii) (x pre post : string) (u : ascii) :
  Py.char_is v x = true ->
  Py.str_in x (pre +++ String u (String v post)) = true.
Proof.
  intros H. apply String.eqb_eq in H. subst x.
  apply str_in_iff. exists (pre +++ str1 u), post.
  now rewrite sapp_snoc_cons.
Qed.

Lemma maybe_has_escapechar_pair (data encoding delim quotechar : string) :
  maybe_has_escapechar esc data encoding delim quotechar = true <->
  exists pre u v post,
    data = pre +++ String u (String v post) /\
    (str1 v = delim \/ str1 v = quotechar) /\
    esc u encoding = true.
Proof.
  unfold maybe_has_escapechar. split.
  - destruct (negb (Py.str_in delim data) && negb (Py.str_in quotechar data));
      [discriminate|].
    intros H. apply existsb_exists in H. destruct H as ([u v] & Hin & H).
    apply andb_true_iff in H. destruct H as [Hv Hu].
    apply pairwise_In in Hin. destruct Hin as (pre & post & ->).
    exists pre, u, v, post. repeat split; [|exact Hu].
    apply orb_true_iff in Hv.
    destruct Hv as [Hv|Hv]; apply String.eqb_eq in Hv; tauto.
  - intros (pre & u & v & post & -> & Hv & Hu).
    assert (Hc : Py.char_is v delim || Py.char_is v quotechar = true).
    { apply orb_true_iff. unfold Py.char_is.
      destruct Hv as [<-|<-]; [left|right]; apply String.eqb_refl. }
    assert (Hocc : negb (Py.str_in delim (pre +++ String u (String v post)))
                   && negb (Py.str_in quotechar (pre +++ String u (String v post)))
                   = false).
    { apply orb_true_iff in Hc. destruct Hc as [Hc|Hc];
        rewrite (char_is_occurs _ _ pre post u Hc); simpl;
        [reflexivity | apply andb_false_r]. }
    rewrite Hocc. apply existsb_exists. exists (u, v). split.
    + apply pairwise_In. now exists pre, post.
    + now rewrite Hc, Hu.
Qed.

Lemma wrapper_short_circuit (form_func : tester)
    (data encoding delim quotechar : string) :
  maybe_has_escapechar esc data encoding delim quotechar = true ->
  form_escape_wrapper esc form_func data encoding delim quotechar
  = ([], Ret (reject "maybe_escape")).
Proof. intros H. unfold form_escape_wrapper. now rewrite H. Qed.

Lemma wrapper_pass (form_func : tester)
    (data encoding delim quotechar : string) :
  maybe_has_escapechar esc data encoding delim quotechar = false ->
  form_escape_wrapper esc form_func data encoding delim quotechar
  = form_func data encoding delim quotechar.
Proof. intros H. unfold form_escape_wrapper. now rewrite H. Qed.

End Escape.

(** Every entry of the catalogue is a wrapped tester. *)
Lemma forms_wrapped (esc : ascii -> string -> bool) (delims : list string)
    (e : entry) :
  In e (forms esc delims) ->
  exists body, fst (fst e) = form_escape_wrapper esc body.
Proof.
  unfold forms. intros H. simpl in H.
  repeat (destruct H as [<-|H]; [eexists; reflexivity|]).
  destruct H.
Qed.

(** C7: the pre-check is false when neither the delimiter nor the
    quotechar occurs in the content; it is true exactly when some
    adjacent pair of characters has the delimiter or the quotechar second
    and a potential escape character first; and when it is true every
    tester of the catalogue returns [(False, "maybe_escape")] with no
    attribute written, that is without entering its body, as does the
    wrapper around any body. *)
Theorem escape_precheck_guards_every_tester
    (esc : ascii -> string -> bool) (data encoding delim quotechar : string) :
  (Py.str_in delim data = false -> Py.str_in quotechar data = false ->
   maybe_has_escapechar esc data encoding delim quotechar = false) /\
  (maybe_has_escapechar esc data encoding delim quotechar = true <->
   exists pre u v post,
     data = pre +++ String u (String v post) /\
     (str1 v = delim \/ str1 v = quotechar) /\
     esc u encoding = true) /\
  (maybe_has_escapechar esc data encoding delim quotechar = true ->
   (forall delims e, In e (forms esc delims) ->
      fst (fst e) data encoding delim quotechar = ([], Ret (reject "maybe_escape"))) /\
   (forall body,
      form_escape_wrapper esc body data encoding delim quotechar
      = ([], Ret (reject "maybe_escape")))).
Proof.
  split; [apply maybe_has_escapechar_absent|].
  split; [apply maybe_has_escapechar_pair|].
  intros H. split.
  - intros delims e He. destruct (forms_wrapped _ _ _ He) as [body ->].
    now apply wrapper_short_circuit.
  - intros body. now apply wrapper_short_circuit.
Qed.

Lemma escape_precheck_guards_every_tester_witness :
  is_form_1 backslash_only ("a\," +++ QT) UTF8 "," QT
  = ([], Ret (reject "maybe_escape")).
Proof.
  apply (proj1 (proj2 (proj2 (escape_precheck_guards_every_tester
                                backslash_only ("a\," +++ QT) UTF8 "," QT))
                      eq_refl)
               DELIMS (is_form_1 backslash_only, 1, _) (or_introl eq_refl)).
Defined.

(** ** The testers return *)

Lemma returns_Ret {A : Type} (a : A) : returns (Ret a).
Proof. now exists a. Qed.

Lemma returns_rbind {A B : Type} (m : res A) (k : A -> res B) :
  returns m -> (forall a, m = Ret a -> returns (k a)) -> returns (rbind m k).
Proof. intros [a ->] H. simpl. now apply H. Qed.

Lemma str_split_returns (row delim : string) :
  delim <> EmptyString -> returns (Py.str_split row delim).
Proof.
  intros H. unfold Py.str_split. destruct delim; [congruence | apply returns_Ret].
Qed.

Lemma split_row_returns (row delim : string) (quotechar : option string) :
  delim <> EmptyString -> returns (split_row row delim quotechar).
Proof.
  intros H. unfold split_row. destruct quotechar as [q|].
  - destruct (negb (Py.str_in q row)); [now apply str_split_returns|].
    destruct (split_row_scan delim q row [] EmptyString false) as [[cells cur] inq].
    apply returns_Ret.
  - now apply str_split_returns.
Qed.

Lemma multiple_cell_per_row_returns (rows : rows_t) (delim : string)
    (quotechar : option string) :
  delim <> EmptyString -> returns (multiple_cell_per_row rows delim quotechar).
Proof.
  intros H. unfold multiple_cell_per_row.
  induction (row_items rows) as [|row rest IH]; simpl; [apply returns_Ret|].
  apply returns_rbind; [now apply split_row_returns|].
  intros cells _. destruct (List.length cells =? 1)%nat; [apply returns_Ret | exact IH].
Qed.

Lemma even_rows_returns (rows : rows_t) (delim : string)
    (quotechar : option string) :
  delim <> EmptyString -> returns (even_rows rows delim quotechar).
Proof.
  intros H. unfold even_rows. apply returns_rbind; [|intros; apply returns_Ret].
  generalize (empty_set nat).
  induction (row_items rows) as [|row rest IH]; intros acc; simpl;
    [apply returns_Ret|].
  apply returns_rbind; [now apply split_row_returns|].
  intros cells _. apply IH.
Qed.

Lemma shape_checks_returns (rows : rows_t) (delim : string)
    (q_cells q_even : option string) :
  delim <> EmptyString -> returns (shape_checks rows delim q_cells q_even).
Proof.
  intros H. unfold shape_checks.
  destruct (negb (every_row_has_delim rows delim)); [apply returns_Ret|].
  apply returns_rbind; [now apply multiple_cell_per_row_returns|].
  intros multi _. destruct (negb multi); [apply returns_Ret|].
  apply returns_rbind; [now apply even_rows_returns|].
  intros even _. returns_by_cases.
Qed.

Lemma for_each_returns {A S : Type} (body : S -> A -> res (step S))
    (items : list A) :
  (forall s x, In x items -> returns (body s x)) ->
  forall s, returns (for_each body s items).
Proof.
  induction items as [|x rest IH]; intros H s; simpl; [apply returns_Ret|].
  apply returns_rbind; [apply H; now left|].
  intros [s'|v] _; [|apply returns_Ret].
  apply IH. intros s0 y Hy. apply H. now right.
Qed.

(** The loop over the cells of a row, after a split that returns. *)
Lemma row_loop_returns {S : Type} (cell_body : S -> string -> res (step S))
    (row delim : string) (quotechar : option string) (s : S) :
  delim <> EmptyString ->
  (forall s cell, returns (cell_body s cell)) ->
  returns (rbind (split_row row delim quotechar)
                 (fun cells => for_each cell_body s cells)).
Proof.
  intros Hd Hc. apply returns_rbind; [now apply split_row_returns|].
  intros cells _. apply for_each_returns. intros; apply Hc.
Qed.

(** The common frame of the structural testers. *)
Lemma structure_returns {S : Type} (rows : rows_t) (delim : string)
    (q_cells q_even : option string) (body : S -> string -> res (step S))
    (s0 : S) (finish : step S -> res verdict) :
  delim <> EmptyString ->
  (forall s row, returns (body s row)) ->
  (forall r, returns (finish r)) ->
  returns
    (rbind (shape_checks rows delim q_cells q_even) (fun early =>
     match early with
     | Some v => Ret v
     | None => rbind (for_each body s0 (row_items rows)) finish
     end)).
Proof.
  intros Hd Hb Hf. apply returns_rbind; [now apply shape_checks_returns|].
  intros [v|] _; [apply returns_Ret|].
  apply returns_rbind; [apply for_each_returns; intros; apply Hb|].
  intros r _. apply Hf.
Qed.

Lemma form_1_structure_returns (data delim quotechar : string) :
  delim <> EmptyString -> returns (form_1_structure data delim quotechar).
Proof.
  intros Hd. unfold form_1_structure. apply structure_returns; [exact Hd| |].
  - intros s row. apply row_loop_returns; [exact Hd|].
    intros s' cell. unfold form_1_cell. returns_by_cases.
  - intros r. returns_by_cases.
Qed.

Lemma form_2_structure_returns (data delim quotechar : string) :
  delim <> EmptyString -> returns (form_2_structure data delim quotechar).
Proof.
  intros Hd. unfold form_2_structure. apply structure_returns; [exact Hd| |].
  - intros s row. apply row_loop_returns; [exact Hd|].
    intros s' cell. unfold form_2_cell. returns_by_cases.
  - intros r. returns_by_cases.
Qed.

Lemma form_4_structure_returns (data delim quotechar : string) :
  delim <> EmptyString -> returns (form_4_structure data delim quotechar).
Proof.
  intros Hd. unfold form_4_structure. apply structure_returns; [exact Hd| |].
  - intros s row. unfold form_4_row.
    destruct (is_quoted_cell row quotechar
              && negb (Py.str_in quotechar (Py.inner row))); [apply returns_Ret|].
    apply row_loop_returns; [exact Hd|].
    intros s' cell. unfold form_4_cell. returns_by_cases.
  - intros r. returns_by_cases.
Qed.

Lemma form_8_structure_returns (data delim quotechar : string) :
  delim <> EmptyString -> returns (form_8_structure data delim quotechar).
Proof.
  intros Hd. unfold form_8_structure. apply structure_returns; [exact Hd| |].
  - intros s row. apply row_loop_returns; [exact Hd|].
    intros s' cell. unfold form_8_cell. returns_by_cases.
  - intros r. returns_by_cases.
Qed.

Lemma form_10_structure_returns (data delim quotechar : string) :
  delim <> EmptyString -> returns (form_10_structure data delim quotechar).
Proof.
  intros Hd. unfold form_10_structure. apply structure_returns; [exact Hd| |].
  - intros s row. apply row_loop_returns; [exact Hd|].
    intros s' cell. unfold form_10_cell. returns_by_cases.
  - intros r. returns_by_cases.
Qed.

Lemma form_11_structure_returns (data delim quotechar : string) :
  delim <> EmptyString -> returns (form_11_structure data delim quotechar).
Proof.
  intros Hd. unfold form_11_structure. apply structure_returns; [exact Hd| |].
  - intros s row. unfold form_11_row.
    apply returns_rbind; [now apply split_row_returns|].
    intros cells _. apply returns_rbind.
    + apply for_each_returns. intros s' cell _. unfold form_11_cell. returns_by_cases.
    + intros r _. returns_by_cases.
  - intros r. returns_by_cases.
Qed.

Lemma form_6_structure_returns (data delim quotechar : string) :
  returns (form_6_structure data delim quotechar).
Proof.
  unfold form_6_structure.
  destruct (negb (more_than_one_row (split_file data))); [apply returns_Ret|].
  apply returns_rbind.
  - apply for_each_returns. intros s row _. unfold form_6_row. returns_by_cases.
  - intros r _. returns_by_cases.
Qed.

Lemma form_9_structure_returns (data delim quotechar : string) :
  returns (form_9_structure data delim quotechar).
Proof.
  unfold form_9_structure.
  destruct (negb (more_than_one_row (split_file data))); [apply returns_Ret|].
  apply returns_rbind.
  - apply for_each_returns. intros s row _. unfold form_9_row. returns_by_cases.
  - intros r _. returns_by_cases.
Qed.

Lemma str_in_empty_hay (delim : string) :
  delim <> EmptyString -> Py.str_in delim EmptyString = false.
Proof. intros H. destruct delim; [congruence | reflexivity]. Qed.

(** [row[0]] and [row[-1]] are safe in form 7: a row that holds the
    delimiter is not empty. *)
Lemma form_7_checks_returns (data delim quotechar : string) :
  delim <> EmptyString -> returns (form_7_checks data delim quotechar).
Proof.
  intros Hd. unfold form_7_checks.
  destruct (negb (every_row_has_delim (split_file data) delim)) eqn:E;
    [apply returns_Ret|].
  destruct (negb (more_than_one_row (split_file data))); [apply returns_Ret|].
  apply returns_rbind.
  - apply for_each_returns. intros s row Hrow.
    apply negb_false_iff in E. unfold every_row_has_delim in E.
    rewrite forallb_forall in E. specialize (E row Hrow).
    unfold has_delimiter in E.
    destruct row as [|c row]; [now rewrite str_in_empty_hay in E|].
    unfold form_7_row. simpl. returns_by_cases.
  - intros r _. returns_by_cases.
Qed.

Section Testers.

Variable esc : ascii -> string -> bool.

Lemma returns_wrapper (body : tester) (data encoding delim quotechar : string) :
  returns (snd (body data encoding delim quotechar)) ->
  returns (snd (form_escape_wrapper esc body data encoding delim quotechar)).
Proof.
  intros H. unfold form_escape_wrapper.
  destruct (maybe_has_escapechar esc data encoding delim quotechar);
    [apply returns_Ret | exact H].
Qed.

Lemma snd_excluding (sibling : tester) (reason : string)
    (data encoding delim quotechar : string) (rest : M verdict) :
  snd (excluding sibling reason data encoding delim quotechar rest) =
  match snd (sibling data encoding delim quotechar) with
  | Ret r => if fst r then Ret (reject reason) else snd rest
  | Raise e => Raise e
  end.
Proof.
  unfold excluding. rewrite snd_mbind.
  destruct (snd (sibling data encoding delim quotechar)) as [[[] reason']|e];
    reflexivity.
Qed.

Lemma returns_excluding (sibling : tester) (reason : string)
    (data encoding delim quotechar : string) (rest : M verdict) :
  returns (snd (sibling data encoding delim quotechar)) ->
  returns (snd rest) ->
  returns (snd (excluding sibling reason data encoding delim quotechar rest)).
Proof.
  intros [r Hr] Hrest. rewrite snd_excluding, Hr.
  destruct (fst r); [apply returns_Ret | exact Hrest].
Qed.

Lemma is_form_13_returns (data encoding delim quotechar : string) :
  returns (snd (is_form_13 esc data encoding delim quotechar)).
Proof.
  unfold is_form_13, is_form_13_body. apply returns_wrapper. rewrite snd_mbind_set_ID.
  returns_snd_by_cases.
Qed.

Lemma is_form_14_returns (data encoding delim quotechar : string) :
  returns (snd (is_form_14 esc data encoding delim quotechar)).
Proof.
  unfold is_form_14, is_form_14_body. apply returns_wrapper. rewrite snd_mbind_set_ID.
  returns_snd_by_cases.
Qed.

Lemma is_form_15_returns (data encoding delim quotechar : string) :
  returns (snd (is_form_15 esc data encoding delim quotechar)).
Proof.
  unfold is_form_15, is_form_15_body. apply returns_wrapper. rewrite snd_mbind_set_ID.
  returns_snd_by_cases.
Qed.

Lemma is_form_17_returns (data encoding delim quotechar : string) :
  returns (snd (is_form_17 esc data encoding delim quotechar)).
Proof.
  unfold is_form_17, is_form_17_body. apply returns_wrapper. rewrite snd_mbind_set_ID.
  returns_snd_by_cases.
Qed.

Lemma is_form_18_returns (data encoding delim quotechar : string) :
  returns (snd (is_form_18 esc data encoding delim quotechar)).
Proof.
  unfold is_form_18, is_form_18_body. apply returns_wrapper. rewrite snd_mbind_set_ID.
  returns_snd_by_cases.
Qed.

Lemma is_form_19_returns (data encoding delim quotechar : string) :
  returns (snd (is_form_19 esc data encoding delim quotechar)).
Proof.
  unfold is_form_19, is_form_19_body. apply returns_wrapper. rewrite snd_mbind_set_ID.
  returns_snd_by_cases.
Qed.

Lemma is_form_12_returns (data encoding delim quotechar : string) :
  returns (snd (is_form_12 esc data encoding delim quotechar)).
Proof.
  unfold is_form_12, is_form_12_body. apply returns_wrapper. rewrite snd_mbind_set_ID.
  returns_snd_by_cases.
Qed.

Lemma is_form_5_returns (data encoding delim quotechar : string) :
  returns (snd (is_form_5 esc data encoding delim quotechar)).
Proof.
  unfold is_form_5, is_form_5_body. apply returns_wrapper. rewrite snd_mbind_set_ID.
  returns_snd_by_cases.
Qed.

Lemma is_form_6_returns (data encoding delim quotechar : string) :
  returns (snd (is_form_6 esc data encoding delim quotechar)).
Proof.
  unfold is_form_6, is_form_6_body. apply returns_wrapper.
  rewrite snd_mbind_set_ID. apply form_6_structure_returns.
Qed.

Lemma is_form_9_returns (data encoding delim quotechar : string) :
  returns (snd (is_form_9 esc data encoding delim quotechar)).
Proof.
  unfold is_form_9, is_form_9_body. apply returns_wrapper.
  rewrite snd_mbind_set_ID. apply form_9_structure_returns.
Qed.

Lemma is_form_1_returns (data encoding delim quotechar : string) :
  delim <> EmptyString ->
  returns (snd (is_form_1 esc data encoding delim quotechar)).
Proof.
  intros Hd. unfold is_form_1, is_form_1_body. apply returns_wrapper.
  rewrite snd_mbind_set_ID. now apply form_1_structure_returns.
Qed.

Lemma is_form_10_returns (data encoding delim quotechar : string) :
  delim <> EmptyString ->
  returns (snd (is_form_10 esc data encoding delim quotechar)).
Proof.
  intros Hd. unfold is_form_10, is_form_10_body. apply returns_wrapper.
  rewrite snd_mbind_set_ID. now apply form_10_structure_returns.
Qed.

Lemma is_form_2_returns (data encoding delim quotechar : string) :
  delim <> EmptyString ->
  returns (snd (is_form_2 esc data encoding delim quotechar)).
Proof.
  intros Hd. unfold is_form_2, is_form_2_body. apply returns_wrapper.
  rewrite snd_mbind_set_ID.
  apply returns_excluding; [apply is_form_13_returns|].
  apply returns_excluding; [apply is_form_18_returns|].
  apply returns_excluding; [apply is_form_17_returns|].
  now apply form_2_structure_returns.
Qed.

Lemma is_form_4_returns (data encoding delim quotechar : string) :
  delim <> EmptyString ->
  returns (snd (is_form_4 esc data encoding delim quotechar)).
Proof.
  intros Hd. unfold is_form_4, is_form_4_body. apply returns_wrapper.
  rewrite snd_mbind_set_ID.
  apply returns_excluding; [apply is_form_18_returns|].
  apply returns_excluding; [apply is_form_17_returns|].
  now apply form_4_structure_returns.
Qed.

Lemma is_form_8_returns (data encoding delim quotechar : string) :
  delim <> EmptyString ->
  returns (snd (is_form_8 esc data encoding delim quotechar)).
Proof.
  intros Hd. unfold is_form_8, is_form_8_body. apply returns_wrapper.
  rewrite snd_mbind_set_ID.
  apply returns_excluding; [now apply is_form_4_returns|].
  apply returns_excluding; [apply is_form_13_returns|].
  apply returns_excluding; [apply is_form_18_returns|].
  apply returns_excluding; [apply is_form_17_returns|].
  now apply form_8_structure_returns.
Qed.

Lemma is_form_11_returns (data encoding delim quotechar : string) :
  delim <> EmptyString ->
  returns (snd (is_form_11 esc data encoding delim quotechar)).
Proof.
  intros Hd. unfold is_form_11, is_form_11_body. apply returns_wrapper.
  rewrite snd_mbind_set_ID.
  apply returns_excluding; [apply is_form_13_returns|].
  apply returns_excluding; [apply is_form_17_returns|].
  now apply form_11_structure_returns.
Qed.

Lemma is_form_7_returns (data encoding delim quotechar : string) :
  delim <> EmptyString ->
  returns (snd (is_form_7 esc data encoding delim quotechar)).
Proof.
  intros Hd. unfold is_form_7, is_form_7_body. apply returns_wrapper.
  rewrite snd_mbind_set_ID, snd_mbind. simpl snd at 2.
  destruct (form_7_checks_returns data delim quotechar Hd) as [r ->].
  destruct r as [newrows|v]; [|apply returns_Ret].
  now apply is_form_2_returns.
Qed.

(** *** A tester that reports a match has its [ID] attribute *)

Lemma positive_mret_reject (reason : string) :
  positive (mret (reject reason)) = false.
Proof. reflexivity. Qed.

Lemma wrapper_positive (body : tester) (data encoding delim quotechar : string) :
  positive (form_escape_wrapper esc body data encoding delim quotechar) = true ->
  maybe_has_escapechar esc data encoding delim quotechar = false /\
  form_escape_wrapper esc body data encoding delim quotechar
  = body data encoding delim quotechar.
Proof.
  unfold form_escape_wrapper.
  destruct (maybe_has_escapechar esc data encoding delim quotechar);
    [discriminate | tauto].
Qed.

Lemma wrapper_positive_sets_ID (body : tester) (id : nat)
    (data encoding delim quotechar : string) :
  (exists w, fst (body data encoding delim quotechar) = id :: w) ->
  positive (form_escape_wrapper esc body data encoding delim quotechar) = true ->
  In id (fst (form_escape_wrapper esc body data encoding delim quotechar)).
Proof.
  intros [w Hw] Hp. apply wrapper_positive in Hp. destruct Hp as [_ ->].
  rewrite Hw. now left.
Qed.

End Testers.

(** ** The catalogue *)

Lemma in_dict_product (delims quotechars : list string) (opt : dict) :
  In opt (dict_product delims quotechars) ->
  exists d q, In d delims /\ In q quotechars /\
              opt = [("delim", d); ("quotechar", q)].
Proof.
  unfold dict_product. intros H. apply in_flat_map in H.
  destruct H as (d & Hd & H). apply in_map_iff in H.
  destruct H as (q & <- & Hq). now exists d, q.
Qed.

Lemma call_with_params (f : tester) (data encoding d q : string) :
  call_with f data encoding [("delim", d); ("quotechar", q)]
  = f data encoding d q.
Proof. reflexivity. Qed.

(** On the parameter sets of the catalogue no tester raises, and one
    that reports a match has written its [ID]. *)
Lemma catalogue_returns (esc : ascii -> string -> bool) (delims : list string)
    (data encoding : string) :
  (forall d, In d delims -> d <> EmptyString) ->
  forall e, In e (forms esc delims) ->
  forall opt, In opt (snd e) ->
    returns (snd (call_with (fst (fst e)) data encoding opt)) /\
    (positive (call_with (fst (fst e)) data encoding opt) = true ->
     In (snd (fst e)) (fst (call_with (fst (fst e)) data encoding opt))).
Proof.
  intros Hdelims e He opt Hopt.
  assert (Hne : forall d, In d delims \/ In d [","; ";"; str1 TAB] ->
                          d <> EmptyString).
  { intros d [H|H]; [now apply Hdelims|].
    simpl in H. intuition (subst; discriminate). }
  unfold forms in He. cbv zeta in He.
  repeat (destruct He as [<-|He];
          [ cbn [fst snd] in *;
            destruct (in_dict_product _ _ _ Hopt) as (d & q & Hd & Hq & ->);
            rewrite call_with_params; split;
            [ first [ apply is_form_5_returns | apply is_form_6_returns
                    | apply is_form_9_returns | apply is_form_12_returns
                    | apply is_form_13_returns | apply is_form_14_returns
                    | apply is_form_15_returns | apply is_form_17_returns
                    | apply is_form_18_returns | apply is_form_19_returns
                    | apply is_form_1_returns; apply Hne; now left
                    | apply is_form_2_returns; apply Hne; now left
                    | apply is_form_4_returns; apply Hne; now left
                    | apply is_form_7_returns; apply Hne; now left
                    | apply is_form_8_returns; apply Hne; now left
                    | apply is_form_10_returns; apply Hne; now left
                    | apply is_form_11_returns; apply Hne; now left ]
            | apply wrapper_positive_sets_ID; eexists;
              match goal with
              | |- fst (?body _ _ _ _ _) = _ =>
                  unfold body; rewrite fst_mbind_set_ID; reflexivity
              | |- fst (?body _ _ _ _) = _ =>
                  unfold body; rewrite fst_mbind_set_ID; reflexivity
              end ]
          | ]).
  destruct He.
Qed.

(** ** The orchestrator *)

Lemma in_combinations (esc : ascii -> string -> bool) (delims : list string)
    (c : tester * nat * dict) :
  In c (combinations esc delims) ->
  exists e opt, In e (forms esc delims) /\ In opt (snd e) /\
                c = (fst (fst e), snd (fst e), opt).
Proof.
  unfold combinations. intros H. apply in_flat_map in H.
  destruct H as ([[f id] options] & He & H). apply in_map_iff in H.
  destruct H as (opt & <- & Hopt). now exists (f, id, options), opt.
Qed.

Lemma get_ID_inv (id : nat) (w : world) (form_id : nat) :
  get_ID id w = Ret form_id -> form_id = id.
Proof.
  unfold get_ID. destruct (existsb (Nat.eqb id) (attrs w)); congruence.
Qed.

Lemma get_ID_outcome (id : nat) (w : world) :
  get_ID id w = Ret id \/ get_ID id w = Raise AttributeError.
Proof. unfold get_ID. destruct (existsb (Nat.eqb id) (attrs w)); tauto. Qed.

Lemma get_ID_written (id : nat) (ids : list nat) (w : world) :
  In id ids -> get_ID id (add_attrs ids w) = Ret id.
Proof.
  intros H. unfold get_ID, add_attrs. simpl.
  replace (existsb (Nat.eqb id) (attrs w ++ ids)) with true; [reflexivity|].
  symmetry. apply existsb_exists. exists id. split.
  - apply in_or_app. now right.
  - apply Nat.eqb_refl.
Qed.

Section Collect.

Variable esc : ascii -> string -> bool.
Variables (filename : string) (record_result verbose : bool).
Variables (data encoding : string).

(** One combination: the loop body either raises, or appends the
    combination's entry exactly when it matched. *)
Lemma try_combination_Ret (c : tester * nat * dict) (w : world)
    (detected : list (nat * dict)) (w' : world) (ms : list (nat * dict)) :
  try_combination filename record_result verbose data encoding c w detected = (w', Ret ms) ->
  let new := if matched data encoding c then [match_entry c] else [] in
  ms = detected ++ new /\
  recorded w' = recorded w ++
                (if record_result then map (record_line filename) new else []).
Proof.
  unfold try_combination, matched, match_entry.
  destruct c as [[f id] opt]. cbn [fst snd].
  destruct (call_with f data encoding opt) as [ids [[[] reason]|e]]; cbn [snd].
  - destruct (get_ID id (add_attrs ids w)) as [form_id|e] eqn:E; [|discriminate].
    apply get_ID_inv in E. subst form_id.
    intros H. injection H as <- <-. split; [reflexivity|].
    destruct record_result; simpl; [reflexivity | now rewrite app_nil_r].
  - destruct verbose.
    + destruct (get_ID id (add_attrs ids w)); [|discriminate].
      intros H. injection H as <- <-. simpl.
      split; [now rewrite app_nil_r|]. destruct record_result; now rewrite app_nil_r.
    + intros H. injection H as <- <-. simpl.
      split; [now rewrite app_nil_r|]. destruct record_result; now rewrite app_nil_r.
  - discriminate.
Qed.

(** When the loops run to their end, the match list is the list of the
    combinations that matched, in order, and each was recorded. *)
Lemma collect_Ret (cs : list (tester * nat * dict)) :
  forall (w : world) (detected : list (nat * dict)) (w' : world)
         (ms : list (nat * dict)),
    collect filename record_result verbose data encoding cs w detected = (w', Ret ms) ->
    let new := map match_entry (filter (matched data encoding) cs) in
    ms = detected ++ new /\
    recorded w' = recorded w ++
                  (if record_result then map (record_line filename) new else []).
Proof.
  induction cs as [|c cs IH]; intros w detected w' ms H; simpl in H.
  - injection H as <- <-. simpl.
    split; [now rewrite app_nil_r|]. destruct record_result; now rewrite app_nil_r.
  - destruct (try_combination filename record_result verbose data encoding c w detected)
      as [w1 [ms1|e]] eqn:E; [|discriminate].
    apply try_combination_Ret in E. destruct E as [E1 E2].
    apply IH in H. destruct H as [H1 H2]. cbn zeta in *.
    rewrite H1, H2, E1, E2. simpl filter.
    destruct (matched data encoding c); simpl; rewrite <- !app_assoc;
      destruct record_result; simpl; rewrite ?app_nil_r; split; reflexivity.
Qed.

(** What one combination can do: raise AttributeError from the
    diagnostic print, or go on. *)
Lemma try_combination_outcome (c : tester * nat * dict) (w : world)
    (detected : list (nat * dict)) :
  returns (snd (call_with (fst (fst c)) data encoding (snd c))) ->
  (positive (call_with (fst (fst c)) data encoding (snd c)) = true ->
   In (snd (fst c)) (fst (call_with (fst (fst c)) data encoding (snd c)))) ->
  exists w',
    (verbose = true /\
     try_combination filename record_result verbose data encoding c w detected
     = (w', Raise AttributeError)) \/
    (exists ms,
       try_combination filename record_result verbose data encoding c w detected
       = (w', Ret ms)).
Proof.
  unfold try_combination, positive.
  destruct c as [[f id] opt]. cbn [fst snd].
  destruct (call_with f data encoding opt) as [ids r]. cbn [fst snd].
  intros [[status reason] ->] Hid. destruct status.
  - rewrite (get_ID_written id ids w (Hid eq_refl)). eexists. right. eexists. reflexivity.
  - destruct verbose.
    + destruct (get_ID_outcome id (add_attrs ids w)) as [-> | ->];
        eexists; [right; eexists; reflexivity | left; split; reflexivity].
    + eexists. right. eexists. reflexivity.
Qed.

Lemma collect_outcome (cs : list (tester * nat * dict)) :
  (forall c, In c cs ->
     returns (snd (call_with (fst (fst c)) data encoding (snd c))) /\
     (positive (call_with (fst (fst c)) data encoding (snd c)) = true ->
      In (snd (fst c)) (fst (call_with (fst (fst c)) data encoding (snd c))))) ->
  forall (w : world) (detected : list (nat * dict)),
  exists w',
    (verbose = true /\
     collect filename record_result verbose data encoding cs w detected
     = (w', Raise AttributeError)) \/
    (exists ms,
       collect filename record_result verbose data encoding cs w detected
       = (w', Ret ms)).
Proof.
  induction cs as [|c cs IH]; intros Hcs w detected; simpl.
  - eexists. right. eexists. reflexivity.
  - destruct (Hcs c (or_introl eq_refl)) as [Hret Hid].
    destruct (try_combination_outcome c w detected Hret Hid)
      as (w1 & [[Hv E]|[ms1 E]]); rewrite E.
    + exists w1. left. now split.
    + apply IH. intros c' Hc'. apply Hcs. now right.
Qed.

End Collect.

Lemma combinations_safe (esc : ascii -> string -> bool) (delims : list string)
    (data encoding : string) :
  (forall d, In d delims -> d <> EmptyString) ->
  forall c, In c (combinations esc delims) ->
    returns (snd (call_with (fst (fst c)) data encoding (snd c))) /\
    (positive (call_with (fst (fst c)) data encoding (snd c)) = true ->
     In (snd (fst c)) (fst (call_with (fst (fst c)) data encoding (snd c)))).
Proof.
  intros Hd c Hc. destruct (in_combinations _ _ _ Hc) as (e & opt & He & Hopt & ->).
  cbn [fst snd]. exact (catalogue_returns esc delims data encoding Hd e He opt Hopt).
Qed.

Lemma DELIMS_not_empty (delims : list string) :
  Permutation DELIMS delims -> forall d, In d delims -> d <> EmptyString.
Proof.
  intros HP d Hd. apply Permutation_sym in HP.
  apply (Permutation_in _ HP) in Hd. simpl in Hd.
  intuition (subst; discriminate).
Qed.

Lemma positive_matches_eq (esc : ascii -> string -> bool) (delims : list string)
    (data encoding : string) :
  positive_matches esc delims data encoding
  = map match_entry (filter (matched data encoding) (combinations esc delims)).
Proof. reflexivity. Qed.

Lemma dict_get_set_same (k v : string) (d : dict) :
  dict_get k (dict_set k v d) = Some v.
Proof.
  induction d as [|[k' v'] d IH]; simpl.
  - now rewrite String.eqb_refl.
  - destruct (String.eqb k k') eqn:E; simpl.
    + now rewrite String.eqb_refl.
    + now rewrite E.
Qed.

Lemma dict_get_set_other (k k' v : string) (d : dict) :
  String.eqb k k' = false ->
  dict_get k (dict_set k' v d) = dict_get k d.
Proof.
  intros Hk. induction d as [|[k0 v0] d IH]; simpl.
  - now rewrite Hk.
  - destruct (String.eqb k' k0) eqn:E; simpl.
    + apply String.eqb_eq in E. subst k0. now rewrite Hk.
    + now rewrite IH.
Qed.

Lemma match_entry_escapechar (c : tester * nat * dict) :
  has_escapechar (snd (match_entry c)).
Proof. apply dict_get_set_same. Qed.

Lemma record_line_escapechar (filename : string) (m : nat * dict) :
  has_escapechar (snd m) -> has_escapechar (snd (record_line filename m)).
Proof.
  unfold has_escapechar, record_line. cbn [snd]. intros H.
  now rewrite dict_get_set_other by reflexivity.
Qed.

(** Whatever the loops do, also when they raise, every line recorded is
    the line of a match and carries an empty escapechar. *)
Lemma collect_log (filename : string) (record_result verbose : bool)
    (data encoding : string) (cs : list (tester * nat * dict)) :
  forall (w : world) (detected : list (nat * dict)),
  exists new,
    recorded (fst (collect filename record_result verbose data encoding cs w detected))
    = recorded w ++ new /\
    Forall (fun line => has_escapechar (snd line)) new.
Proof.
  induction cs as [|c cs IH]; intros w detected; simpl.
  - exists []. split; [now rewrite app_nil_r | constructor].
  - assert (Hc : exists new1,
               recorded (fst (try_combination filename record_result verbose data
                                encoding c w detected)) = recorded w ++ new1 /\
               Forall (fun line => has_escapechar (snd line)) new1).
    { unfold try_combination. destruct c as [[f id] opt].
      destruct (call_with f data encoding opt) as [ids [[[] reason]|e]].
      - destruct (get_ID id (add_attrs ids w)) as [form_id|e];
          [|exists []; simpl; split; [now rewrite app_nil_r | constructor]].
        destruct record_result; simpl.
        + eexists. split; [reflexivity|]. constructor; [|constructor].
          unfold has_escapechar. cbn [snd].
          rewrite dict_get_set_other by reflexivity.
          apply dict_get_set_same.
        + exists []. split; [now rewrite app_nil_r | constructor].
      - exists []. split; [|constructor]. rewrite app_nil_r.
        destruct verbose; [destruct (get_ID id (add_attrs ids w))|]; reflexivity.
      - exists []. split; [now rewrite app_nil_r | constructor]. }
    destruct Hc as (new1 & E1 & F1).
    destruct (try_combination filename record_result verbose data encoding c w detected)
      as [w1 [ms1|e]]; simpl in E1.
    + destruct (IH w1 ms1) as (new2 & E2 & F2).
      exists (new1 ++ new2). split.
      * rewrite E2, E1. now rewrite app_assoc.
      * apply Forall_app. now split.
    + exists new1. simpl. now split.
Qed.

(** C9: every entry the loops of [detect_form] append to the match list
    has "escapechar" set to the empty string, whatever combinations are
    tried; so has every line they record, and so have the parameters of
    the verdict when a form is detected. *)
Theorem matched_params_have_empty_escapechar
    (esc : ascii -> string -> bool) (delims : list string)
    (filename : string) (record_result verbose : bool)
    (encoding data : string) (w : world) (cs : list (tester * nat * dict)) :
  (forall ms,
     snd (collect filename record_result verbose data encoding cs w []) = Ret ms ->
     Forall (fun m => has_escapechar (snd m)) ms) /\
  (exists new,
     recorded (fst (collect filename record_result verbose data encoding cs w []))
     = recorded w ++ new /\
     Forall (fun line => has_escapechar (snd line)) new) /\
  (forall form_id params,
     snd (detect_form esc delims filename record_result verbose encoding (Some data) w)
     = Detected form_id params ->
     has_escapechar params).
Proof.
  assert (Hms : forall cs' w' ms,
             collect filename record_result verbose data encoding cs' w [] = (w', Ret ms) ->
             Forall (fun m => has_escapechar (snd m)) ms).
  { intros cs' w' ms H. apply collect_Ret in H. destruct H as [-> _]. simpl.
    apply Forall_forall. intros m Hm. apply in_map_iff in Hm.
    destruct Hm as (c & <- & _). apply match_entry_escapechar. }
  split; [|split].
  - intros ms H.
    destruct (collect filename record_result verbose data encoding cs w []) as [w' r] eqn:E.
    simpl in H. subst r. exact (Hms _ _ _ E).
  - apply collect_log.
  - intros form_id params. unfold detect_form.
    destruct (collect filename record_result verbose data encoding
                (combinations esc delims) w []) as [w' [ms|e]] eqn:E;
      [|discriminate].
    apply Hms in E. unfold conclude.
    destruct ms as [|[id p] [|m2 rest]]; simpl; try discriminate.
    intros H. injection H as <- <-. now inversion E.
Qed.

Lemma matched_params_have_empty_escapechar_witness :
  has_escapechar [("delim", ","); ("quotechar", QT); ("escapechar", EmptyString)].
Proof.
  apply (proj2 (proj2 (matched_params_have_empty_escapechar
                         backslash_only DELIMS "f.csv" true true UTF8 quoted_table
                         fresh []))
               1 _).
  vm_compute. reflexivity.
Defined.

(** The outcome of [detect_form] on a loaded content is decided by
    the list of positive matches over the whole catalogue, in whatever
    order [DELIMS] is visited.  No match: the verdict is "no form", and
    the line for form 0 is recorded when recording is on, with nothing
    else.  One match: the verdict is that form with its parameters.  Two
    or more: ValueError.  The loops always reach this point when
    [verbose] is off; when it is on, the only other outcome is the
    AttributeError of a diagnostic print that reads the [ID] of a tester
    whose body has never run. *)
Theorem detect_form_verdict_by_match_count
    (esc : ascii -> string -> bool) (delims : list string)
    (filename : string) (record_result verbose : bool)
    (encoding data : string) (w : world) :
  Permutation DELIMS delims ->
  let run := detect_form esc delims filename record_result verbose encoding
               (Some data) w in
  (verbose = true /\ snd run = Raised AttributeError) \/
  match positive_matches esc delims data encoding with
  | [] =>
      snd run = NoForm /\
      recorded (fst run) =
      recorded w ++ (if record_result then [(0, [("filename", filename)])] else [])
  | [(form_id, params)] => snd run = Detected form_id params
  | _ :: _ :: _ => snd run = Raised ValueError
  end.
Proof.
  intros HP. cbv zeta. unfold detect_form.
  destruct (collect_outcome filename record_result verbose data encoding
              (combinations esc delims)
              (combinations_safe esc delims data encoding (DELIMS_not_empty delims HP))
              w [])
    as (w' & [[Hv E]|[ms E]]); rewrite E.
  - left. now split.
  - right. destruct (collect_Ret _ _ _ _ _ _ _ _ _ _ E) as [Hms Hrec].
    cbv zeta in Hms, Hrec. simpl in Hms. rewrite positive_matches_eq, <- Hms.
    unfold conclude. destruct ms as [|[id p] [|m2 rest]]; simpl.
    + split; [reflexivity|]. rewrite <- Hms in Hrec.
      destruct record_result; simpl; rewrite Hrec; simpl; now rewrite ?app_nil_r.
    + reflexivity.
    + reflexivity.
Qed.

Lemma detect_form_verdict_by_match_count_witness :
  snd (detect_form backslash_only DELIMS "f.csv" true false UTF8
         (Some quoted_table) fresh)
  = Detected 1 [("delim", ","); ("quotechar", QT); ("escapechar", EmptyString)].
Proof.
  destruct (detect_form_verdict_by_match_count backslash_only DELIMS "f.csv"
              true false UTF8 quoted_table fresh (Permutation_refl _))
    as [[Hv _]|H].
  - discriminate Hv.
  - exact H.
Defined.

(** The other outcome at work: on a table whose first quoted cell ends
    in a backslash the pre-check stops form 1 at its first call, no [ID]
    has been written yet, and the diagnostic print raises; without the
    diagnostics the verdict is "no form". *)
Lemma diagnostic_print_reads_missing_ID :
  is_form_1 backslash_only escaped_table UTF8 "," QT
  = ([], Ret (reject "maybe_escape")) /\
  snd (detect_form backslash_only DELIMS "f.csv" true true UTF8
         (Some escaped_table) fresh) = Raised AttributeError /\
  snd (detect_form backslash_only DELIMS "f.csv" true false UTF8
         (Some escaped_table) fresh) = NoForm.
Proof. repeat split; vm_compute; reflexivity. Qed.

(** The first combination tried is form 1 with the first delimiter
    visited and the double quote. *)
Lemma combinations_head (esc : ascii -> string -> bool) (d : string)
    (rest : list string) :
  exists others,
    combinations esc (d :: rest)
    = (is_form_1 esc, 1, [("delim", d); ("quotechar", str1 DQ)]) :: others.
Proof. eexists. reflexivity. Qed.

(** A content that holds a backslash before a double quote stops the
    run at its first diagnostic print, whatever the order of [DELIMS]
    and the other arguments, when the backslash is a potential escape
    character: form 1 is called first, with the double quote, its
    pre-check fires, and [is_form_1.ID] does not exist yet. *)
Lemma backslash_quote_raises (esc : ascii -> string -> bool)
    (delims : list string) (filename : string) (record_result : bool)
    (encoding data : string) :
  esc "\"%char encoding = true ->
  Permutation DELIMS delims ->
  substring_of BACKSLASH_QUOTE data ->
  detect_form esc delims filename record_result true encoding (Some data) fresh
  = (fresh, Raised AttributeError).
Proof.
  intros Hesc HP (pre & post & ->).
  destruct delims as [|d rest].
  { apply Permutation_sym, Permutation_nil in HP. discriminate HP. }
  destruct (combinations_head esc d rest) as [others Hc].
  unfold detect_form. rewrite Hc. cbn [collect].
  unfold try_combination. rewrite call_with_params.
  unfold is_form_1. rewrite wrapper_short_circuit; [reflexivity|].
  apply maybe_has_escapechar_pair.
  exists pre, "\"%char, DQ, post. split; [reflexivity|]. split; [now right | exact Hesc].
Qed.

(** C2: with [verbose] on, as it is by default, [detect_form] does not
    give the verdict its match count calls for.  On a table whose first
    quoted cell ends in a backslash nothing matches, and instead of the
    "no form" verdict with the line of form 0 recorded the run raises
    AttributeError with nothing recorded; on a table that form 1 alone
    matches, under the single quote, it raises the same instead of
    returning form 1.  Both are files with a backslash before a double
    quote, and every such file does the same from a fresh start,
    whatever the order of [DELIMS] and the recording flag: the
    diagnostic print reads the [ID] of form 1, which the body of form 1
    assigns and the pre-check has skipped.  With [verbose] off the
    verdict follows the match count for every content. *)
Theorem detect_form_verbose_print_raises_before_verdict :
  (positive_matches backslash_only DELIMS escaped_table UTF8 = [] /\
   detect_form backslash_only DELIMS "f.csv" true true UTF8 (Some escaped_table) fresh
   = (fresh, Raised AttributeError) /\
   snd (detect_form backslash_only DELIMS "f.csv" true false UTF8
          (Some escaped_table) fresh) = NoForm /\
   recorded (fst (detect_form backslash_only DELIMS "f.csv" true false UTF8
                    (Some escaped_table) fresh))
   = [(0, [("filename", "f.csv")])]) /\
  (positive_matches backslash_only DELIMS escaped_quote_inside UTF8
   = [(1, [("delim", ","); ("quotechar", str1 SQ); ("escapechar", EmptyString)])] /\
   detect_form backslash_only DELIMS "f.csv" true true UTF8
     (Some escaped_quote_inside) fresh
   = (fresh, Raised AttributeError) /\
   snd (detect_form backslash_only DELIMS "f.csv" true false UTF8
          (Some escaped_quote_inside) fresh)
   = Detected 1 [("delim", ","); ("quotechar", str1 SQ); ("escapechar", EmptyString)]) /\
  (forall esc delims filename record_result encoding data,
     esc "\"%char encoding = true ->
     Permutation DELIMS delims ->
     substring_of BACKSLASH_QUOTE data ->
     detect_form esc delims filename record_result true encoding (Some data) fresh
     = (fresh, Raised AttributeError)) /\
  (forall esc delims filename record_result encoding data w,
     Permutation DELIMS delims ->
     let run := detect_form esc delims filename record_result false encoding
                  (Some data) w in
     match positive_matches esc delims data encoding with
     | [] =>
         snd run = NoForm /\
         recorded (fst run) =
         recorded w ++ (if record_result then [(0, [("filename", filename)])] else [])
     | [(form_id, params)] => snd run = Detected form_id params
     | _ :: _ :: _ => snd run = Raised ValueError
     end).
Proof.
  split; [repeat split; vm_compute; reflexivity|].
  split; [repeat split; vm_compute; reflexivity|].
  split; [exact backslash_quote_raises|].
  intros esc delims filename record_result encoding data w HP.
  destruct (detect_form_verdict_by_match_count esc delims filename record_result
              false encoding data w HP) as [[Hv _]|H]; [discriminate Hv | exact H].
Qed.

(** ** Exclusion between testers *)

Section Exclusion.

Variable esc : ascii -> string -> bool.
Variables data encoding delim quotechar : string.

Lemma positive_set_ID (id : nat) (m : M verdict) :
  positive (mbind (set_ID id) (fun _ => m)) = positive m.
Proof. unfold positive. now rewrite snd_mbind_set_ID. Qed.

(** A tester that goes past an exclusion check: the sibling did not
    match, and the result is that of the rest. *)
Lemma positive_excluding (sibling : tester) (reason : string) (rest : M verdict) :
  positive (excluding sibling reason data encoding delim quotechar rest) = true ->
  positive (sibling data encoding delim quotechar) = false /\
  positive rest = true.
Proof.
  unfold positive. rewrite snd_excluding.
  destruct (snd (sibling data encoding delim quotechar)) as [[[] r]|e]; simpl;
    intros H; try discriminate.
  now split.
Qed.

Lemma is_form_2_excludes :
  positive (is_form_2 esc data encoding delim quotechar) = true ->
  positive (is_form_13 esc data encoding delim quotechar) = false /\
  positive (is_form_18 esc data encoding delim quotechar) = false /\
  positive (is_form_17 esc data encoding delim quotechar) = false.
Proof.
  intros H. unfold is_form_2 in H.
  pose proof (wrapper_positive _ _ _ _ _ _ H) as [_ E]. rewrite E in H.
  unfold is_form_2_body in H. rewrite positive_set_ID in H.
  apply positive_excluding in H. destruct H as [H13 H].
  apply positive_excluding in H. destruct H as [H18 H].
  apply positive_excluding in H. destruct H as [H17 _].
  now repeat split.
Qed.

Lemma is_form_4_excludes :
  positive (is_form_4 esc data encoding delim quotechar) = true ->
  positive (is_form_18 esc data encoding delim quotechar) = false /\
  positive (is_form_17 esc data encoding delim quotechar) = false.
Proof.
  intros H. unfold is_form_4 in H.
  pose proof (wrapper_positive _ _ _ _ _ _ H) as [_ E]. rewrite E in H.
  unfold is_form_4_body in H. rewrite positive_set_ID in H.
  apply positive_excluding in H. destruct H as [H18 H].
  apply positive_excluding in H. destruct H as [H17 _].
  now split.
Qed.

Lemma is_form_8_excludes :
  positive (is_form_8 esc data encoding delim quotechar) = true ->
  positive (is_form_4 esc data encoding delim quotechar) = false /\
  positive (is_form_13 esc data encoding delim quotechar) = false /\
  positive (is_form_18 esc data encoding delim quotechar) = false /\
  positive (is_form_17 esc data encoding delim quotechar) = false.
Proof.
  intros H. unfold is_form_8 in H.
  pose proof (wrapper_positive _ _ _ _ _ _ H) as [_ E]. rewrite E in H.
  unfold is_form_8_body in H. rewrite positive_set_ID in H.
  apply positive_excluding in H. destruct H as [H4 H].
  apply positive_excluding in H. destruct H as [H13 H].
  apply positive_excluding in H. destruct H as [H18 H].
  apply positive_excluding in H. destruct H as [H17 _].
  now repeat split.
Qed.

Lemma is_form_11_excludes :
  positive (is_form_11 esc data encoding delim quotechar) = true ->
  positive (is_form_13 esc data encoding delim quotechar) = false /\
  positive (is_form_17 esc data encoding delim quotechar) = false.
Proof.
  intros H. unfold is_form_11 in H.
  pose proof (wrapper_positive _ _ _ _ _ _ H) as [_ E]. rewrite E in H.
  unfold is_form_11_body in H. rewrite positive_set_ID in H.
  apply positive_excluding in H. destruct H as [H13 H].
  apply positive_excluding in H. destruct H as [H17 _].
  now split.
Qed.

End Exclusion.

Lemma two_members_length {A : Type} (l : list A) (x y : A) :
  In x l -> In y l -> x <> y -> 2 <= List.length l.
Proof.
  destruct l as [|a [|b l]]; simpl; intros Hx Hy Hxy.
  - destruct Hx.
  - destruct Hx as [<-|[]]. destruct Hy as [<-|[]]. congruence.
  - lia.
Qed.

(** With an oracle that does not flag the letter [a], forms 2 and 14
    both match the tab-separated banner table. *)
Lemma tab_banner_table_matches (esc : ascii -> string -> bool) (encoding : string) :
  esc "a"%char encoding = false ->
  snd (is_form_2 esc tab_banner_table encoding (str1 TAB) EmptyString) = Ret accept /\
  snd (is_form_14 esc tab_banner_table encoding (str1 TAB) EmptyString) = Ret accept.
Proof.
  intros Ha.
  assert (Hm : maybe_has_escapechar esc tab_banner_table encoding (str1 TAB) EmptyString
               = false).
  { vm_compute. rewrite !Ha. reflexivity. }
  split; expose_prechecks; rewrite !Hm; vm_compute; reflexivity.
Qed.

Lemma form_2_in_catalogue (esc : ascii -> string -> bool) :
  In (is_form_2 esc, 2, [("delim", str1 TAB); ("quotechar", EmptyString)])
     (combinations esc DELIMS).
Proof.
  unfold combinations. apply in_flat_map.
  exists (is_form_2 esc, 2, dict_product DELIMS [EmptyString]). split.
  - unfold forms. cbv zeta. right. left. reflexivity.
  - cbn. do 3 right. left. reflexivity.
Qed.

Lemma form_14_in_catalogue (esc : ascii -> string -> bool) :
  In (is_form_14 esc, 14, [("delim", str1 TAB); ("quotechar", EmptyString)])
     (combinations esc DELIMS).
Proof.
  unfold combinations. apply in_flat_map.
  exists (is_form_14 esc, 14, dict_product [str1 TAB] [EmptyString]). split.
  - unfold forms. cbv zeta. do 12 right. left. reflexivity.
  - cbn. left. reflexivity.
Qed.

(** C1, as stated, fails: the content [tab_banner_table] starts with the
    banner of form 14 and is a table of form 2; both testers match it
    with the tab as delimiter.  With the oracle [backslash_only] these
    are the two positive matches and [detect_form] raises ValueError;
    with any oracle that does not flag the letter [a] there are two
    positive matches at least. *)
Lemma catalogue_double_match :
  positive_matches backslash_only DELIMS tab_banner_table UTF8
  = [ (2, [("delim", str1 TAB); ("quotechar", EmptyString); ("escapechar", EmptyString)]);
      (14, [("delim", str1 TAB); ("quotechar", EmptyString); ("escapechar", EmptyString)]) ]
  /\
  snd (detect_form backslash_only DELIMS "f.csv" true true UTF8
         (Some tab_banner_table) fresh) = Raised ValueError
  /\
  (forall esc encoding,
     esc "a"%char encoding = false ->
     2 <= List.length (positive_matches esc DELIMS tab_banner_table encoding)).
Proof.
  split; [vm_compute; reflexivity|].
  split; [vm_compute; reflexivity|].
  intros esc encoding Ha.
  destruct (tab_banner_table_matches esc encoding Ha) as [H2 H14].
  rewrite positive_matches_eq, length_map.
  apply two_members_length
    with (x := (is_form_2 esc, 2, [("delim", str1 TAB); ("quotechar", EmptyString)]))
         (y := (is_form_14 esc, 14, [("delim", str1 TAB); ("quotechar", EmptyString)])).
  - apply filter_In. split; [apply form_2_in_catalogue|].
    unfold matched. cbn [fst snd]. rewrite call_with_params, H2. reflexivity.
  - apply filter_In. split; [apply form_14_in_catalogue|].
    unfold matched. cbn [fst snd]. rewrite call_with_params, H14. reflexivity.
  - intros E. injection E as _ E. discriminate E.
Qed.

(** C1, amended: whenever [detect_form] returns a verdict, at most one
    combination of the catalogue matched: a detected form is the only
    positive match, "no form" means there was none, and two or more
    positive matches make [detect_form] raise.  A tester that checks a
    sibling for exclusion never matches together with it on the same
    arguments: form 2 with 13, 18 or 17, form 4 with 18 or 17, form 8
    with 4, 13, 18 or 17, form 11 with 13 or 17. *)
Theorem one_match_per_verdict
    (esc : ascii -> string -> bool) (delims : list string)
    (filename : string) (record_result verbose : bool)
    (encoding data : string) (w : world) :
  let run := detect_form esc delims filename record_result verbose encoding
               (Some data) w in
  (forall form_id params,
     snd run = Detected form_id params ->
     positive_matches esc delims data encoding = [(form_id, params)]) /\
  (snd run = NoForm -> positive_matches esc delims data encoding = []) /\
  (2 <= List.length (positive_matches esc delims data encoding) ->
   exists e, snd run = Raised e) /\
  (forall delim quotechar,
     (positive (is_form_2 esc data encoding delim quotechar) = true ->
      positive (is_form_13 esc data encoding delim quotechar) = false /\
      positive (is_form_18 esc data encoding delim quotechar) = false /\
      positive (is_form_17 esc data encoding delim quotechar) = false) /\
     (positive (is_form_4 esc data encoding delim quotechar) = true ->
      positive (is_form_18 esc data encoding delim quotechar) = false /\
      positive (is_form_17 esc data encoding delim quotechar) = false) /\
     (positive (is_form_8 esc data encoding delim quotechar) = true ->
      positive (is_form_4 esc data encoding delim quotechar) = false /\
      positive (is_form_13 esc data encoding delim quotechar) = false /\
      positive (is_form_18 esc data encoding delim quotechar) = false /\
      positive (is_form_17 esc data encoding delim quotechar) = false) /\
     (positive (is_form_11 esc data encoding delim quotechar) = true ->
      positive (is_form_13 esc data encoding delim quotechar) = false /\
      positive (is_form_17 esc data encoding delim quotechar) = false)).
Proof.
  cbv zeta.
  assert (Hrun :
    (exists e, snd (detect_form esc delims filename record_result verbose encoding
                      (Some data) w) = Raised e) \/
    snd (detect_form esc delims filename record_result verbose encoding (Some data) w)
    = snd (conclude filename record_result
             (positive_matches esc delims data encoding) w)).
  { unfold detect_form.
    destruct (collect filename record_result verbose data encoding
                (combinations esc delims) w []) as [w' [ms|e]] eqn:E.
    - right. apply collect_Ret in E. destruct E as [-> _]. simpl.
      rewrite positive_matches_eq. unfold conclude.
      destruct (map match_entry (filter (matched data encoding) (combinations esc delims)))
        as [|[id p] [|m2 rest]]; reflexivity.
    - left. now exists e. }
  split; [|split; [|split]].
  - intros form_id params H. destruct Hrun as [[e He]|Hc]; [congruence|].
    rewrite Hc in H. unfold conclude in H.
    destruct (positive_matches esc delims data encoding) as [|[id p] [|m2 rest]];
      simpl in H; try discriminate.
    now injection H as -> ->.
  - intros H. destruct Hrun as [[e He]|Hc]; [congruence|].
    rewrite Hc in H. unfold conclude in H.
    destruct (positive_matches esc delims data encoding) as [|[id p] [|m2 rest]];
      simpl in H; try discriminate.
    reflexivity.
  - intros H. destruct Hrun as [He|Hc]; [exact He|].
    rewrite Hc. unfold conclude.
    destruct (positive_matches esc delims data encoding) as [|[id p] [|m2 rest]];
      simpl in H; try lia.
    now exists ValueError.
  - intros delim quotechar. split; [|split; [|split]].
    + apply is_form_2_excludes.
    + apply is_form_4_excludes.
    + apply is_form_8_excludes.
    + apply is_form_11_excludes.
Qed.

Lemma one_match_per_verdict_witness :
  positive_matches backslash_only DELIMS quoted_table UTF8
  = [(1, [("delim", ","); ("quotechar", QT); ("escapechar", EmptyString)])].
Proof.
  apply (proj1 (one_match_per_verdict backslash_only DELIMS "f.csv" true true UTF8
                  quoted_table fresh)).
  vm_compute. reflexivity.
Defined.

(** ** The reason codes of form 8 *)

Lemma rbind_Ret_inv {A B : Type} (m : res A) (k : A -> res B) (b : B) :
  rbind m k = Ret b -> exists a, m = Ret a /\ k a = Ret b.
Proof. destruct m as [a|e]; simpl; [|discriminate]. intros H. now exists a. Qed.

(** A verdict that leaves a loop is one a loop body returned. *)
Lemma for_each_Return {A S : Type} (P : verdict -> Prop)
    (body : S -> A -> res (step S)) :
  (forall s x v, body s x = Ret (Return v) -> P v) ->
  forall items s v, for_each body s items = Ret (Return v) -> P v.
Proof.
  intros Hbody. induction items as [|x rest IH]; intros s v H; simpl in H.
  - discriminate.
  - apply rbind_Ret_inv in H. destruct H as ([s'|v'] & Hx & H).
    + now apply IH in H.
    + injection H as <-. now apply Hbody in Hx.
Qed.

Lemma shape_checks_own_code (rows : rows_t) (delim : string)
    (q_cells q_even : option string) (v : verdict) :
  shape_checks rows delim q_cells q_even = Ret (Some v) -> own_code v.
Proof.
  unfold shape_checks. intros H.
  destruct (negb (every_row_has_delim rows delim)); [own_code_leaf H|].
  apply rbind_Ret_inv in H. destruct H as (multi & _ & H).
  destruct (negb multi); [own_code_leaf H|].
  apply rbind_Ret_inv in H. destruct H as (even & _ & H).
  own_code_leaf H.
Qed.

Lemma form_8_structure_own_code (data delim quotechar : string) (v : verdict) :
  form_8_structure data delim quotechar = Ret v -> own_code v.
Proof.
  unfold form_8_structure. intros H.
  apply rbind_Ret_inv in H. destruct H as ([v'|] & Hs & H).
  - injection H as <-. now apply shape_checks_own_code in Hs.
  - apply rbind_Ret_inv in H. destruct H as ([[quoted unquoted]|v'] & Hl & H).
    + own_code_leaf H.
    + injection H as <-. revert Hl. apply for_each_Return.
      intros s row v Hrow. unfold form_8_row in Hrow.
      apply rbind_Ret_inv in Hrow. destruct Hrow as (cells & _ & Hc).
      revert Hc. apply for_each_Return.
      intros s' cell v0 Hcell. unfold form_8_cell in Hcell.
      own_code_leaf Hcell.
Qed.

(** The result of form 8 once the pre-check has passed. *)
Lemma is_form_8_unfold (esc : ascii -> string -> bool)
    (data encoding delim quotechar : string) :
  maybe_has_escapechar esc data encoding delim quotechar = false ->
  snd (is_form_8 esc data encoding delim quotechar) =
  match snd (is_form_4 esc data encoding delim quotechar) with
  | Raise e => Raise e
  | Ret r4 =>
      if fst r4 then Ret (reject "form_4") else
      match snd (is_form_13 esc data encoding delim quotechar) with
      | Raise e => Raise e
      | Ret r13 =>
          if fst r13 then Ret (reject "form_13") else
          match snd (is_form_18 esc data encoding delim quotechar) with
          | Raise e => Raise e
          | Ret r18 =>
              if fst r18 then Ret (reject "form_18") else
              match snd (is_form_17 esc data encoding delim quotechar) with
              | Raise e => Raise e
              | Ret r17 =>
                  if fst r17 then Ret (reject "form_17")
                  else form_8_structure data delim quotechar
              end
          end
      end
  end.
Proof.
  intros Hm. unfold is_form_8. rewrite wrapper_pass by exact Hm.
  unfold is_form_8_body. rewrite snd_mbind_set_ID, !snd_excluding. reflexivity.
Qed.

(** C8, as stated, fails on the number of siblings: form 8 rejects with
    four different sibling codes, [form_4] besides [form_13], [form_18]
    and [form_17].  The last three inputs do so whatever the escape
    oracle; the first needs an oracle that flags none of [a], [b], [c]
    and the comma. *)
Lemma form_8_rejects_with_four_sibling_codes :
  snd (is_form_8 backslash_only quoted_comma_table UTF8 "," QT) = Ret (reject "form_4")
  /\
  (forall esc encoding,
     esc "a"%char encoding = false -> esc ","%char encoding = false ->
     esc "b"%char encoding = false -> esc "c"%char encoding = false ->
     snd (is_form_8 esc quoted_comma_table encoding "," QT) = Ret (reject "form_4")) /\
  (forall esc encoding,
     snd (is_form_8 esc usage_header encoding "|" EmptyString) = Ret (reject "form_13")) /\
  (forall esc encoding,
     snd (is_form_8 esc cps_header encoding "," EmptyString) = Ret (reject "form_18")) /\
  (forall esc encoding,
     snd (is_form_8 esc FORM_17_HEADER encoding "|" EmptyString) = Ret (reject "form_17")).
Proof.
  split; [vm_compute; reflexivity|].
  split; [|repeat split; intros esc encoding; vm_compute; reflexivity].
  intros esc encoding Ha Hcomma Hb Hc.
  assert (Hm : maybe_has_escapechar esc quoted_comma_table encoding "," QT = false).
  { vm_compute. rewrite ?Ha, ?Hcomma, ?Hb, ?Hc. reflexivity. }
  expose_prechecks. rewrite !Hm. vm_compute. reflexivity.
Qed.

(** C8, amended: form 8 excludes four siblings, forms 4, 13, 18 and 17,
    checked in this order.  For a non-empty delimiter, when one of them
    reports a match form 8 returns not matched with the reason code of
    the first of them that does; and when form 8 returns a reason code
    that names a sibling, it is the code of the first of these four
    that reported a match: there is no other exclusion. *)
Theorem form_8_excludes_four_siblings
    (esc : ascii -> string -> bool) (data encoding delim quotechar : string) :
  delim <> EmptyString ->
  let p4 := positive (is_form_4 esc data encoding delim quotechar) in
  let p13 := positive (is_form_13 esc data encoding delim quotechar) in
  let p18 := positive (is_form_18 esc data encoding delim quotechar) in
  let p17 := positive (is_form_17 esc data encoding delim quotechar) in
  (p4 = true ->
   snd (is_form_8 esc data encoding delim quotechar) = Ret (reject "form_4")) /\
  (p4 = false -> p13 = true ->
   snd (is_form_8 esc data encoding delim quotechar) = Ret (reject "form_13")) /\
  (p4 = false -> p13 = false -> p18 = true ->
   snd (is_form_8 esc data encoding delim quotechar) = Ret (reject "form_18")) /\
  (p4 = false -> p13 = false -> p18 = false -> p17 = true ->
   snd (is_form_8 esc data encoding delim quotechar) = Ret (reject "form_17")) /\
  (forall reason,
     snd (is_form_8 esc data encoding delim quotechar) = Ret (false, Some reason) ->
     sibling_code reason = true ->
     (reason = "form_4" /\ p4 = true) \/
     (reason = "form_13" /\ p4 = false /\ p13 = true) \/
     (reason = "form_18" /\ p4 = false /\ p13 = false /\ p18 = true) \/
     (reason = "form_17" /\ p4 = false /\ p13 = false /\ p18 = false /\ p17 = true)).
Proof.
  intros Hd. cbv zeta.
  destruct (maybe_has_escapechar esc data encoding delim quotechar) eqn:Hm.
  - (* the pre-check stops form 8 and its siblings alike *)
    unfold is_form_8, is_form_4, is_form_13, is_form_18, is_form_17.
    rewrite !wrapper_short_circuit by exact Hm.
    repeat split; try discriminate.
    intros reason H Hs. simpl in H. injection H as <-. discriminate Hs.
  - rewrite (is_form_8_unfold esc data encoding delim quotechar Hm). unfold positive.
    destruct (is_form_4_returns esc data encoding delim quotechar Hd) as [[b4 r4] ->].
    destruct (is_form_13_returns esc data encoding delim quotechar) as [[b13 r13] ->].
    destruct (is_form_18_returns esc data encoding delim quotechar) as [[b18 r18] ->].
    destruct (is_form_17_returns esc data encoding delim quotechar) as [[b17 r17] ->].
    cbn [fst].
    destruct b4, b13, b18, b17; cbn iota;
      (split; [|split; [|split; [|split]]]);
      try (intros; (discriminate || reflexivity));
      intros reason H Hs;
      try (injection H as <-; tauto);
      apply form_8_structure_own_code in H; unfold own_code in H; simpl in H;
      congruence.
Qed.

Lemma form_8_excludes_four_siblings_witness :
  snd (is_form_8 backslash_only quoted_comma_table UTF8 "," QT) = Ret (reject "form_4").
Proof.
  apply (proj1 (form_8_excludes_four_siblings backslash_only quoted_comma_table UTF8
                  "," QT ltac:(discriminate))).
  vm_compute. reflexivity.
Defined.

(** ** A content without line ends *)

(** C3: for the content [hello] the last line of [split_file] returns
    the string itself, not a list holding it.  The testers then see five
    rows, one per character: [more_than_one_row] holds, form 6 does not
    reject with "single_row" but matches, and [detect_form] detects
    form 6, whatever the escape oracle and the flags. *)
Theorem single_line_hello_detected_as_form_6
    (esc : ascii -> string -> bool) (encoding : string) :
  split_file "hello" = RowStr "hello" /\
  row_items (split_file "hello") = ["h"; "e"; "l"; "l"; "o"] /\
  more_than_one_row (split_file "hello") = true /\
  is_form_6 esc "hello" encoding EmptyString EmptyString = ([6], Ret accept) /\
  (forall filename record_result verbose,
     snd (detect_form esc DELIMS filename record_result verbose encoding
            (Some "hello") fresh)
     = Detected 6 [("delim", EmptyString); ("quotechar", EmptyString);
                   ("escapechar", EmptyString)]).
Proof.
  repeat split; try reflexivity.
  intros filename record_result verbose.
  destruct record_result, verbose; vm_compute; reflexivity.
Qed.

(** ** Dialect *)

Lemma field_eqb_eq (a b : Dialect.field) :
  Dialect.field_eqb a b = true <-> a = b.
Proof.
  destruct a as [x|], b as [y|]; simpl; split; intros H;
    try discriminate; try reflexivity.
  - apply String.eqb_eq in H. now subst.
  - injection H as ->. apply String.eqb_refl.
Qed.

Lemma key_eqb_eq (a b : Dialect.field * Dialect.field * Dialect.field) :
  Dialect.key_eqb a b = true <-> a = b.
Proof.
  destruct a as [[a1 a2] a3], b as [[b1 b2] b3]. unfold Dialect.key_eqb.
  rewrite !andb_true_iff, !field_eqb_eq. split.
  - intros [[-> ->] ->]. reflexivity.
  - intros H. injection H as -> -> ->. tauto.
Qed.

(** C10: two Dialects compare equal exactly when their delimiters, their
    quotechars and their escapechars are equal; a value that is not a
    Dialect is never equal to one; and equal Dialects have the same
    hash, whatever the built-in hash of a tuple is. *)
Theorem Dialect_eq_componentwise_and_hash
    (builtin_hash : Dialect.field * Dialect.field * Dialect.field -> Z)
    (a : Dialect.t) (other : Dialect.value) :
  (forall b,
     Dialect.eq a (Dialect.VDialect b) = true <->
     Dialect.delimiter a = Dialect.delimiter b /\
     Dialect.quotechar a = Dialect.quotechar b /\
     Dialect.escapechar a = Dialect.escapechar b) /\
  (Dialect.isinstance_Dialect other = false -> Dialect.eq a other = false) /\
  (forall b,
     Dialect.eq a (Dialect.VDialect b) = true ->
     Dialect.hash builtin_hash a = Dialect.hash builtin_hash b).
Proof.
  split; [|split].
  - intros b. unfold Dialect.eq. rewrite key_eqb_eq. unfold Dialect.key. split.
    + intros H. injection H as -> -> ->. tauto.
    + intros (-> & -> & ->). reflexivity.
  - destruct other; simpl; (discriminate || reflexivity).
  - intros b H. unfold Dialect.eq in H. apply key_eqb_eq in H.
    unfold Dialect.hash. now rewrite H.
Qed.

Lemma Dialect_eq_componentwise_and_hash_witness :
  Dialect.hash sample_hash (Dialect.mk (Some ",") (Some QT) (Some EmptyString))
  = Dialect.hash sample_hash (Dialect.mk (Some ",") (Some QT) (Some EmptyString)).
Proof.
  apply (proj2 (proj2 (Dialect_eq_componentwise_and_hash sample_hash
                         (Dialect.mk (Some ",") (Some QT) (Some EmptyString))
                         Dialect.VNone))).
  reflexivity.
Defined.

(** * Further properties *)

(** ** What stripping removes *)

Lemma rstrip_run (s : string) (c : ascii) :
  exists n, s = Py.rstrip s c +++ run_of c n.
Proof.
  induction s as [|a s [n IH]].
  - exists 0. reflexivity.
  - simpl. destruct (String.eqb (Py.rstrip s c) EmptyString && Ascii.eqb a c) eqn:E.
    + apply andb_true_iff in E. destruct E as [E1 E2].
      apply String.eqb_eq in E1. apply Ascii.eqb_eq in E2. subst a.
      rewrite E1 in IH. simpl in IH. exists (S n). simpl. now rewrite <- IH.
    + exists n. simpl. now rewrite <- IH.
Qed.

Lemma endswith_snoc_other (s : string) (a c : ascii) :
  a <> c -> Py.endswith (s +++ str1 a) (str1 c) = false.
Proof.
  intros Hac. induction s as [|b s IH]; simpl.
  - rewrite orb_false_r. apply Ascii.eqb_neq in Hac.
    destruct (Ascii.eqb a c); [discriminate | reflexivity].
  - rewrite IH, orb_false_r.
    destruct (Ascii.eqb b c); [|reflexivity].
    destruct s; reflexivity.
Qed.

Lemma rstrip_other (s : string) (a c : ascii) :
  a <> c -> Py.rstrip (s +++ str1 a) c = s +++ str1 a.
Proof.
  intros Hac. apply rstrip_id. now apply endswith_snoc_other.
Qed.

(** X1: [strip_trailing_crnl] returns the content without a run of
    carriage returns followed by a run of line feeds at its end, and
    nothing else is removed; what it returns never ends in a carriage
    return, and ends in a line feed only when that line feed stood
    before at least one of the removed carriage returns. *)
Theorem strip_trailing_crnl_removes_cr_run_then_lf_run (data : string) :
  exists k m,
    data = strip_trailing_crnl data +++ run_of CR k +++ run_of LF m /\
    Py.endswith (strip_trailing_crnl data) (str1 CR) = false /\
    (k = 0 -> Py.endswith (strip_trailing_crnl data) (str1 LF) = false).
Proof.
  rewrite strip_trailing_crnl_rstrip.
  destruct (rstrip_run data LF) as [m Hm].
  destruct (rstrip_run (Py.rstrip data LF) CR) as [k Hk].
  exists k, m. split; [|split].
  - rewrite <- sapp_assoc, <- Hk. exact Hm.
  - apply endswith_rstrip.
  - intros ->. simpl in Hk. rewrite sapp_empty_r in Hk. rewrite <- Hk.
    apply endswith_rstrip.
Qed.

(** ** Splitting and joining *)

Lemma split_go_nonempty (sep : string) (s : string) :
  forall skip cur, Py.split_go sep skip cur s <> [].
Proof.
  induction s as [|c s IH]; intros skip cur; cbn [Py.split_go]; [discriminate|].
  destruct skip; [|apply IH].
  destruct (prefix sep (String c s)); [discriminate | apply IH].
Qed.

Lemma split_go_skip (sep t s cur : string) :
  Py.split_go sep (String.length t) cur (t +++ s) = Py.split_go sep 0 cur s.
Proof. induction t as [|c t IH]; simpl; [reflexivity | exact IH]. Qed.

Lemma concat_cons (sep x : string) (l : list string) :
  l <> [] -> String.concat sep (x :: l) = x +++ sep +++ String.concat sep l.
Proof. destruct l; [congruence | reflexivity]. Qed.

Lemma length_sapp (a b : string) :
  String.length (a +++ b) = String.length a + String.length b.
Proof. induction a as [|c a IH]; simpl; [reflexivity | now rewrite IH]. Qed.

(** [sep.join(s.split(sep)) == s] for a separator that is not empty. *)
Lemma join_split_go (sep : string) :
  sep <> EmptyString ->
  forall n s cur,
    String.length s <= n ->
    String.concat sep (Py.split_go sep 0 cur s) = cur +++ s.
Proof.
  intros Hsep. induction n as [|n IH]; intros s cur Hn.
  - destruct s; [|simpl in Hn; lia]. simpl. now rewrite sapp_empty_r.
  - destruct s as [|c s]; [simpl; now rewrite sapp_empty_r|].
    cbn [Py.split_go]. destruct (prefix sep (String c s)) eqn:E.
    + destruct sep as [|c0 t]; [congruence|].
      apply prefix_inv in E. destruct E as [post E].
      simpl in E. injection E as <- ->.
      replace (String.length (String c t) - 1) with (String.length t)
        by (simpl; lia).
      rewrite split_go_skip.
      rewrite concat_cons by apply split_go_nonempty.
      rewrite IH.
      * reflexivity.
      * simpl in Hn. rewrite length_sapp in Hn. lia.
    + rewrite IH by (simpl in Hn; lia). apply sapp_snoc_cons.
Qed.

Lemma join_split_on (s sep : string) :
  sep <> EmptyString -> Py.str_join sep (Py.split_on s sep) = s.
Proof.
  intros Hsep. unfold Py.str_join, Py.split_on.
  now rewrite (join_split_go sep Hsep (String.length s) s EmptyString (le_n _)).
Qed.

Lemma join_chars (s : string) : Py.str_join EmptyString (Py.chars s) = s.
Proof.
  unfold Py.str_join, Py.chars. induction s as [|c s IH]; [reflexivity|].
  simpl. destruct s as [|c' s]; [reflexivity|].
  simpl in *. now rewrite IH.
Qed.

(** X2: [split_file] loses nothing but what [strip_trailing_crnl]
    removes.  When it returns a list, that list is not empty and joining
    it with the line end it split on (CR LF, else LF, else CR: the first
    of them that occurs in the stripped content) gives the stripped
    content back.  When no line end occurs it returns the stripped
    content itself, whose items are its characters. *)
Theorem split_file_join_round_trip (data : string) :
  match split_file data with
  | RowList rows =>
      rows <> [] /\
      exists sep,
        Py.str_join sep rows = strip_trailing_crnl data /\
        Py.str_in sep (strip_trailing_crnl data) = true /\
        ((sep = CRLF) \/
         (sep = str1 LF /\ Py.str_in CRLF (strip_trailing_crnl data) = false) \/
         (sep = str1 CR /\ Py.str_in (str1 LF) (strip_trailing_crnl data) = false))
  | RowStr s =>
      s = strip_trailing_crnl data /\
      Py.str_in (str1 LF) s = false /\ Py.str_in (str1 CR) s = false /\
      Py.str_join EmptyString (row_items (RowStr s)) = s
  end.
Proof.
  unfold split_file.
  destruct (Py.str_in CRLF (strip_trailing_crnl data)) eqn:E1;
    [|destruct (Py.str_in (str1 LF) (strip_trailing_crnl data)) eqn:E2;
      [|destruct (Py.str_in (str1 CR) (strip_trailing_crnl data)) eqn:E3]].
  - split; [apply split_go_nonempty|]. exists CRLF.
    split; [apply join_split_on; discriminate|]. tauto.
  - split; [apply split_go_nonempty|]. exists (str1 LF).
    split; [apply join_split_on; discriminate|]. tauto.
  - split; [apply split_go_nonempty|]. exists (str1 CR).
    split; [apply join_split_on; discriminate|]. tauto.
  - repeat split; try assumption. apply join_chars.
Qed.

Lemma concat_snoc (sep : string) (l : list string) (x : string) :
  l <> [] ->
  String.concat sep (l ++ [x]) = String.concat sep l +++ sep +++ x.
Proof.
  induction l as [|a l IH]; [congruence|]. intros _.
  destruct l as [|b l]; [reflexivity|].
  change ((a :: b :: l) ++ [x]) with (a :: ((b :: l) ++ [x])).
  rewrite (concat_cons sep a ((b :: l) ++ [x])) by (simpl; discriminate).
  rewrite IH by discriminate.
  rewrite (concat_cons sep a (b :: l)) by discriminate.
  now rewrite !sapp_assoc.
Qed.

Lemma concat_snoc_append (sep : string) (l : list string) (x y : string) :
  String.concat sep (l ++ [x +++ y]) = String.concat sep (l ++ [x]) +++ y.
Proof.
  induction l as [|a l IH]; [reflexivity|].
  change ((a :: l) ++ [x +++ y]) with (a :: (l ++ [x +++ y])).
  change ((a :: l) ++ [x]) with (a :: (l ++ [x])).
  rewrite (concat_cons sep a (l ++ [x +++ y])) by (destruct l; simpl; discriminate).
  rewrite (concat_cons sep a (l ++ [x])) by (destruct l; simpl; discriminate).
  rewrite IH. now rewrite !sapp_assoc.
Qed.

(** The cells closed so far and the accumulator, joined, are the part
    of the row read so far. *)
Lemma split_row_scan_join (delim q : string) (row : string) :
  forall cells cur inq cells' cur' inq',
    split_row_scan delim q row cells cur inq = (cells', cur', inq') ->
    String.concat delim (cells' ++ [cur'])
    = String.concat delim (cells ++ [cur]) +++ row.
Proof.
  induction row as [|c row IH]; intros cells cur inq cells' cur' inq' H.
  - simpl in H. injection H as <- <- <-. now rewrite sapp_empty_r.
  - simpl in H. destruct (Py.char_is c delim && negb inq) eqn:E.
    + apply IH in H. rewrite H.
      apply andb_true_iff in E. destruct E as [E _].
      apply String.eqb_eq in E. subst delim.
      rewrite concat_snoc by (destruct cells; simpl; discriminate).
      now rewrite !sapp_assoc.
    + assert (H' : String.concat delim (cells' ++ [cur'])
                   = String.concat delim (cells ++ [cur +++ str1 c]) +++ row).
      { destruct (Py.char_is c q); now apply IH in H. }
      rewrite H', concat_snoc_append. apply sapp_snoc_cons.
Qed.

(** X3: [split_row] loses no character.  Joined with the delimiter, the
    cells it returns are the row, or, when the row was scanned and ended
    on a delimiter outside quotes, the row without that last delimiter;
    on the naive path they are always the row. *)
Theorem split_row_join_gives_row_back
    (row delim : string) (quotechar : option string) (cells : list string) :
  split_row row delim quotechar = Ret cells ->
  (Py.str_join delim cells = row \/ Py.str_join delim cells +++ delim = row) /\
  ((quotechar = None \/
    exists q, quotechar = Some q /\ Py.str_in q row = false) ->
   Py.str_join delim cells = row).
Proof.
  intros H.
  assert (Hnaive : forall cs, Py.str_split row delim = Ret cs ->
                              Py.str_join delim cs = row).
  { intros cs Hs. unfold Py.str_split in Hs.
    destruct delim as [|d0 dt]; [discriminate|].
    injection Hs as <-. apply join_split_on. discriminate. }
  split.
  - unfold split_row in H. destruct quotechar as [q|]; [|left; now apply Hnaive].
    destruct (negb (Py.str_in q row)); [left; now apply Hnaive|].
    destruct (split_row_scan delim q row [] EmptyString false)
      as [[cs cur] inq] eqn:E.
    apply split_row_scan_join in E. simpl in E.
    injection H as <-. unfold Py.str_join.
    destruct (String.eqb cur EmptyString) eqn:Ec; [|now left].
    apply String.eqb_eq in Ec. subst cur.
    destruct cs as [|c0 cs]; [left; exact E|].
    right. rewrite concat_snoc in E by discriminate.
    now rewrite sapp_empty_r in E.
  - intros Hq. rewrite (split_row_unquoted row delim quotechar Hq) in H.
    now apply Hnaive.
Qed.

Lemma split_row_join_gives_row_back_witness :
  Py.str_join "," [QT +++ "x,y" +++ QT; "z"] = QT +++ "x,y" +++ QT +++ ",z" \/
  Py.str_join "," [QT +++ "x,y" +++ QT; "z"] +++ "," = QT +++ "x,y" +++ QT +++ ",z".
Proof.
  apply (proj1 (split_row_join_gives_row_back
                  (QT +++ "x,y" +++ QT +++ ",z") "," (Some QT)
                  [QT +++ "x,y" +++ QT; "z"] eq_refl)).
Defined.

(** ** Quotes and cells *)

Lemma count_quotes_snoc (q s : string) (c : ascii) :
  count_quotes q (s +++ str1 c)
  = count_quotes q s + (if Py.char_is c q then 1 else 0).
Proof.
  induction s as [|a s IH]; simpl.
  - destruct (Py.char_is c q); reflexivity.
  - rewrite IH. destruct (Py.char_is a q); reflexivity.
Qed.

(** The scan keeps every closed cell balanced, and is inside quotes
    exactly when the accumulator holds an odd number of quotes. *)
Lemma split_row_scan_balanced (delim q : string) (row : string) :
  forall cells cur inq cells' cur' inq',
    Forall (balanced q) cells ->
    inq = Nat.odd (count_quotes q cur) ->
    split_row_scan delim q row cells cur inq = (cells', cur', inq') ->
    Forall (balanced q) cells' /\ inq' = Nat.odd (count_quotes q cur').
Proof.
  induction row as [|c row IH]; intros cells cur inq cells' cur' inq' Hc Hi H.
  - simpl in H. injection H as <- <- <-. now split.
  - simpl in H. destruct (Py.char_is c delim && negb inq) eqn:E.
    + apply andb_true_iff in E. destruct E as [_ E].
      apply negb_true_iff in E.
      apply (IH _ _ _ _ _ _) in H; [exact H | | now rewrite E].
      apply Forall_app. split; [exact Hc|]. constructor; [|constructor].
      unfold balanced. now rewrite <- Nat.negb_odd, <- Hi, E.
    + destruct (Py.char_is c q) eqn:Eq.
      * apply (IH _ _ _ _ _ _) in H; [exact H | exact Hc |].
        rewrite count_quotes_snoc, Eq, Nat.add_1_r, Nat.odd_succ, <- Nat.negb_odd.
        now rewrite Hi.
      * apply (IH _ _ _ _ _ _) in H; [exact H | exact Hc |].
        now rewrite count_quotes_snoc, Eq, Nat.add_0_r.
Qed.

Lemma removelast_Forall {A : Type} (P : A -> Prop) (l : list A) :
  Forall P l -> Forall P (removelast l).
Proof.
  induction l as [|a l IH]; [constructor|]. intros H.
  destruct l as [|b l]; [constructor|].
  inversion H; subst. constructor; [assumption | now apply IH].
Qed.

(** When the quotechar is not the delimiter, the quotes of the row are
    those of the cells and of the accumulator. *)
Lemma split_row_scan_quotes (delim q : string) (row : string) :
  delim <> q ->
  forall cells cur inq cells' cur' inq',
    split_row_scan delim q row cells cur inq = (cells', cur', inq') ->
    list_sum (map (count_quotes q) cells') + count_quotes q cur'
    = list_sum (map (count_quotes q) cells) + count_quotes q cur
      + count_quotes q row.
Proof.
  intros Hdq.
  induction row as [|c row IH]; intros cells cur inq cells' cur' inq' H.
  - simpl in H. injection H as <- <- <-. simpl. lia.
  - simpl in H. simpl count_quotes. destruct (Py.char_is c delim && negb inq) eqn:E.
    + apply andb_true_iff in E. destruct E as [E _].
      apply String.eqb_eq in E.
      assert (Eq : Py.char_is c q = false).
      { apply String.eqb_neq. congruence. }
      apply IH in H. rewrite H, Eq, map_app, list_sum_app. simpl. lia.
    + destruct (Py.char_is c q) eqn:Eq; apply IH in H; rewrite H;
        rewrite count_quotes_snoc, Eq; lia.
Qed.

Lemma even_sum_balanced (q : string) (cells : list string) (n : nat) :
  Forall (balanced q) cells ->
  Nat.even (list_sum (map (count_quotes q) cells) + n) = Nat.even n.
Proof.
  induction 1 as [|cell cells Hcell _ IH]; [reflexivity|].
  simpl. rewrite <- Nat.add_assoc, Nat.even_add, IH.
  unfold balanced in Hcell. rewrite Hcell. now destruct (Nat.even n).
Qed.

(** X4: when the quotechar occurs in the row, a delimiter closes a cell
    only outside quotes: every cell [split_row] returns but the last
    holds an even number of quote characters; if the quotechar is not
    the delimiter and the row holds an even number of quote characters,
    so does the last cell. *)
Theorem split_row_cells_are_balanced
    (row delim q : string) (cells : list string) :
  Py.str_in q row = true ->
  split_row row delim (Some q) = Ret cells ->
  Forall (balanced q) (removelast cells) /\
  (delim <> q -> balanced q row -> Forall (balanced q) cells).
Proof.
  intros Hq H. unfold split_row in H. rewrite Hq in H. simpl in H.
  destruct (split_row_scan delim q row [] EmptyString false)
    as [[cs cur] inq] eqn:E.
  pose proof (split_row_scan_balanced delim q row [] EmptyString false cs cur inq
                (Forall_nil _) eq_refl E) as [Hcs _].
  injection H as <-. split.
  - destruct (String.eqb cur EmptyString).
    + now apply removelast_Forall.
    + now rewrite removelast_last.
  - intros Hdq Hrow. destruct (String.eqb cur EmptyString); [exact Hcs|].
    apply Forall_app. split; [exact Hcs|]. constructor; [|constructor].
    pose proof (split_row_scan_quotes delim q row Hdq _ _ _ _ _ _ E) as Hsum.
    simpl in Hsum. unfold balanced in *.
    rewrite <- (even_sum_balanced q cs _ Hcs), Hsum. exact Hrow.
Qed.

Lemma split_row_cells_are_balanced_witness :
  Forall (balanced QT) (removelast [QT +++ "x,y" +++ QT; "z"]).
Proof.
  apply (proj1 (split_row_cells_are_balanced
                  (QT +++ "x,y" +++ QT +++ ",z") "," QT
                  [QT +++ "x,y" +++ QT; "z"] eq_refl eq_refl)).
Defined.

(** ** The structural predicates *)

Lemma last_char_snoc (c : ascii) (s : string) (d : ascii) :
  Py.last_char c (s +++ str1 d) = d.
Proof. revert c. induction s as [|a s IH]; intros c; simpl; [reflexivity | apply IH]. Qed.

Lemma drop_last_snoc (s : string) (d : ascii) :
  Py.drop_last (s +++ str1 d) = s.
Proof.
  induction s as [|a s IH]; [reflexivity|].
  simpl. simpl in IH. rewrite IH. now destruct s.
Qed.

Lemma last_decompose (c : ascii) (s : string) :
  String c s = Py.drop_last (String c s) +++ str1 (Py.last_char c s).
Proof.
  revert c. induction s as [|a s IH]; intros c; [reflexivity|].
  change (Py.drop_last (String c (String a s)))
    with (String c (Py.drop_last (String a s))).
  cbn [String.append]. f_equal. exact (IH a).
Qed.

Lemma char_is_eq (c : ascii) (q : string) :
  Py.char_is c q = true <-> q = str1 c.
Proof.
  unfold Py.char_is. rewrite String.eqb_eq. split; congruence.
Qed.

Lemma is_quoted_cell_iff (cell q : string) :
  is_quoted_cell cell q = true <->
  exists c inner, q = str1 c /\ cell = String c (inner +++ str1 c).
Proof.
  unfold is_quoted_cell. split.
  - destruct cell as [|c0 [|c1 rest]]; try discriminate.
    simpl Nat.ltb. cbv iota. intros H. apply andb_true_iff in H.
    destruct H as [H0 Hl]. apply char_is_eq in H0. apply char_is_eq in Hl.
    rewrite H0 in Hl. injection Hl as Hl.
    exists c0, (Py.drop_last (String c1 rest)). split; [exact H0|].
    f_equal. rewrite Hl. apply last_decompose.
  - intros (c & inner & -> & ->).
    replace (String.length (String c (inner +++ str1 c)) <? 2)%nat with false.
    + rewrite last_char_snoc, char_is_str1. reflexivity.
    + symmetry. apply Nat.ltb_ge. simpl. rewrite length_sapp. simpl. lia.
Qed.

Lemma is_empty_quoted_iff (cell q : string) :
  is_empty_quoted cell q = true <->
  exists c, q = str1 c /\ cell = String c (str1 c).
Proof.
  unfold is_empty_quoted. rewrite andb_true_iff, is_quoted_cell_iff, Nat.eqb_eq.
  split.
  - intros (Hlen & c & inner & -> & ->). exists c. split; [reflexivity|].
    simpl in Hlen. rewrite length_sapp in Hlen. simpl in Hlen.
    destruct inner; [reflexivity | simpl in Hlen; lia].
  - intros (c & -> & ->). split; [reflexivity|].
    exists c, EmptyString. split; reflexivity.
Qed.

(** X5: a cell is quoted with [q] exactly when [q] is one character and
    the cell is that character, any text, and that character again (so
    the cell has two characters at least, and its text is [cell[1:-1]]);
    it is an empty quoted cell exactly when it is that character twice;
    and [is_any_empty] holds of exactly three cells: the empty string,
    two single quotes, two double quotes. *)
Theorem quoted_and_empty_cells (cell q : string) :
  (is_quoted_cell cell q = true <->
   exists c inner, q = str1 c /\ cell = String c (inner +++ str1 c)
                   /\ Py.inner cell = inner) /\
  (is_empty_quoted cell q = true <->
   exists c, q = str1 c /\ cell = String c (str1 c)) /\
  (is_any_empty cell = true <->
   cell = EmptyString \/ cell = String SQ (str1 SQ) \/ cell = String DQ (str1 DQ)).
Proof.
  split; [|split].
  - rewrite is_quoted_cell_iff. split.
    + intros (c & inner & -> & ->). exists c, inner.
      repeat split. simpl. apply drop_last_snoc.
    + intros (c & inner & Hq & Hc & _). now exists c, inner.
  - apply is_empty_quoted_iff.
  - unfold is_any_empty, is_empty_unquoted.
    rewrite !orb_true_iff, !is_empty_quoted_iff, String.eqb_eq. split.
    + intros [[H|H]|H].
      * now left.
      * destruct H as (c & Hq & ->). injection Hq as <-. tauto.
      * destruct H as (c & Hq & ->). injection Hq as <-. tauto.
    + intros [H|[H|H]].
      * now left; left.
      * left. right. exists SQ. now split.
      * right. exists DQ. now split.
Qed.

Lemma all_chars_last (p : ascii -> bool) (c : ascii) (s : string) :
  all_chars p (String c s) = true -> p (Py.last_char c s) = true.
Proof.
  revert c. induction s as [|a s IH]; intros c H; simpl in H.
  - now rewrite andb_true_r in H.
  - apply andb_true_iff in H. destruct H as [_ H]. now apply IH.
Qed.

Lemma elementary_char_not_quote (c : ascii) :
  elementary_char c = true -> Ascii.eqb c DQ = false /\ Ascii.eqb c SQ = false.
Proof.
  intros H. split.
  - destruct (Ascii.eqb c DQ) eqn:E; [|reflexivity].
    apply Ascii.eqb_eq in E. subst c. discriminate H.
  - destruct (Ascii.eqb c SQ) eqn:E; [|reflexivity].
    apply Ascii.eqb_eq in E. subst c. discriminate H.
Qed.

Lemma quoted_is_partial (cell : string) :
  is_any_quoted_cell cell = true -> is_any_partial_quoted_cell cell = true.
Proof.
  unfold is_any_quoted_cell. rewrite orb_true_iff, !is_quoted_cell_iff.
  intros [(c & inner & Hq & ->)|(c & inner & Hq & ->)];
    injection Hq as <-; reflexivity.
Qed.

Lemma elementary_not_partial (cell : string) :
  is_elementary cell = true -> is_any_partial_quoted_cell cell = false.
Proof.
  unfold is_elementary. rewrite andb_true_iff. intros [_ H].
  destruct cell as [|c0 rest]; [reflexivity|].
  pose proof (all_chars_last _ _ _ H) as Hl.
  simpl in H. apply andb_true_iff in H. destruct H as [H0 _].
  apply elementary_char_not_quote in H0. destruct H0 as [A B].
  apply elementary_char_not_quote in Hl. destruct Hl as [C D].
  unfold is_any_partial_quoted_cell. now rewrite A, B, C, D.
Qed.

Lemma elementary_is_plain (cell : string) :
  is_elementary cell = true ->
  is_empty_unquoted cell = false /\ is_any_quoted_cell cell = false
  /\ is_any_partial_quoted_cell cell = false.
Proof.
  intros H. pose proof (elementary_not_partial cell H) as Hp.
  repeat split; [| |exact Hp].
  - unfold is_elementary in H. apply andb_true_iff in H. destruct H as [H _].
    now apply negb_true_iff in H.
  - destruct (is_any_quoted_cell cell) eqn:E; [|reflexivity].
    apply quoted_is_partial in E. congruence.
Qed.

Lemma form_2_cell_iff (cell : string) :
  form_2_cell tt cell = Ret (Continue tt) <-> is_elementary cell = true.
Proof.
  unfold form_2_cell. split.
  - destruct (is_empty_unquoted cell); [discriminate|].
    destruct (is_any_quoted_cell cell); [discriminate|].
    destruct (is_any_partial_quoted_cell cell); [discriminate|].
    destruct (is_elementary cell); [reflexivity | discriminate].
  - intros H. destruct (elementary_is_plain cell H) as (-> & -> & ->). now rewrite H.
Qed.

(** X6: [is_any_partial_quoted_cell] holds of every quoted cell as well
    (it asks for a quote at either end, not at one end only), and an
    elementary cell is neither empty, nor quoted, nor partially quoted.
    So the cell checks of form 2 pass exactly the elementary cells: the
    three earlier checks only choose the reason code. *)
Theorem form_2_passes_elementary_cells (cell : string) :
  (is_any_quoted_cell cell = true -> is_any_partial_quoted_cell cell = true) /\
  (is_elementary cell = true ->
   is_empty_unquoted cell = false /\ is_any_quoted_cell cell = false
   /\ is_any_partial_quoted_cell cell = false) /\
  (form_2_cell tt cell = Ret (Continue tt) <-> is_elementary cell = true).
Proof.
  split; [apply quoted_is_partial|].
  split; [apply elementary_is_plain | apply form_2_cell_iff].
Qed.

(** X7: the escape pre-check can only fire for a delimiter or a
    quotechar of exactly one character.  With both of any other length,
    in particular with both empty as for form 6, it is false for every
    content and every oracle, and the wrapped tester is its body. *)
Theorem precheck_needs_a_one_character_parameter
    (esc : ascii -> string -> bool) (data encoding delim quotechar : string) :
  String.length delim <> 1 -> String.length quotechar <> 1 ->
  maybe_has_escapechar esc data encoding delim quotechar = false /\
  (forall body,
     form_escape_wrapper esc body data encoding delim quotechar
     = body data encoding delim quotechar).
Proof.
  intros Hd Hq.
  assert (H : maybe_has_escapechar esc data encoding delim quotechar = false).
  { destruct (maybe_has_escapechar esc data encoding delim quotechar) eqn:E;
      [|reflexivity].
    apply maybe_has_escapechar_pair in E.
    destruct E as (pre & u & v & post & _ & [Hv|Hv] & _); subst; simpl in *;
      congruence. }
  split; [exact H|]. intros body. now apply wrapper_pass.
Qed.

Lemma precheck_needs_a_one_character_parameter_witness :
  maybe_has_escapechar backslash_only "a\b" UTF8 EmptyString EmptyString = false.
Proof.
  apply (proj1 (precheck_needs_a_one_character_parameter backslash_only "a\b" UTF8
                  EmptyString EmptyString ltac:(discriminate) ltac:(discriminate))).
Defined.

(** ** The checks on the cells of every row *)

Section RowChecks.

Variables (delim : string) (quotechar : option string).

Lemma multiple_cell_per_row_items_iff (items : list string) :
  multiple_cell_per_row_items items delim quotechar = Ret true <->
  forall row, In row items ->
    exists cells, split_row row delim quotechar = Ret cells
                  /\ List.length cells <> 1.
Proof.
  induction items as [|row rest IH]; simpl.
  - split; [intros _ row [] | reflexivity].
  - split.
    + intros H. apply rbind_Ret_inv in H. destruct H as (cells & Hs & H).
      destruct (List.length cells =? 1)%nat eqn:E; [discriminate|].
      apply Nat.eqb_neq in E. pose proof (proj1 IH H) as H'.
      clear H; rename H' into H.
      intros r [<-|Hr]; [now exists cells | now apply H].
    + intros H. destruct (H row (or_introl eq_refl)) as (cells & -> & Hlen).
      simpl. apply Nat.eqb_neq in Hlen. rewrite Hlen.
      apply IH. intros r Hr. apply H. now right.
Qed.

Lemma even_rows_items_forward (items : list string) :
  forall acc s,
    even_rows_items items delim quotechar acc = Ret s ->
    (items = [] -> s = acc) /\
    forall row, In row items ->
      exists cells, split_row row delim quotechar = Ret cells
                    /\ In (List.length cells) s.
Proof.
  assert (Hsub : forall its acc s,
             even_rows_items its delim quotechar acc = Ret s ->
             forall n, In n acc -> In n s).
  { induction its as [|row rest IH]; intros acc s H n Hn; simpl in H.
    - now injection H as <-.
    - apply rbind_Ret_inv in H. destruct H as (cells & _ & H).
      apply (IH _ _ H). apply set_add_intro1. exact Hn. }
  induction items as [|row rest IH]; intros acc s H; simpl in H.
  - injection H as <-. split; [reflexivity | intros row []].
  - apply rbind_Ret_inv in H. destruct H as (cells & Hs & H).
    split; [discriminate|].
    intros r [<-|Hr].
    + exists cells. split; [exact Hs|].
      apply (Hsub _ _ _ H). apply set_add_intro2. reflexivity.
    + now apply (IH _ _ H).
Qed.

Lemma even_rows_items_backward (n : nat) (items : list string) :
  (forall row, In row items ->
     exists cells, split_row row delim quotechar = Ret cells
                   /\ List.length cells = n) ->
  forall acc,
    acc = [] \/ acc = [n] ->
    exists s, even_rows_items items delim quotechar acc = Ret s /\
              (s = [n] \/ (items = [] /\ s = acc)).
Proof.
  induction items as [|row rest IH]; intros Hrows acc Hacc; simpl.
  - exists acc. split; [reflexivity|]. now right.
  - destruct (Hrows row (or_introl eq_refl)) as (cells & -> & Hlen). simpl.
    destruct (IH (fun r Hr => Hrows r (or_intror Hr))
                 (set_add Nat.eq_dec (List.length cells) acc)) as (s & Hs & Hcase).
    + right. rewrite Hlen. destruct Hacc as [->| ->]; simpl; [reflexivity|].
      destruct (Nat.eq_dec n n); [reflexivity | congruence].
    + exists s. split; [exact Hs|]. left.
      destruct Hcase as [->|[_ ->]]; [reflexivity|].
      rewrite Hlen. destruct Hacc as [->| ->]; simpl; [reflexivity|].
      destruct (Nat.eq_dec n n); [reflexivity | congruence].
Qed.

End RowChecks.

(** X8: [multiple_cell_per_row] is true exactly when no row splits into
    exactly one cell (a row that splits into no cell at all passes),
    every split having returned. *)
Theorem multiple_cell_per_row_rejects_single_cells
    (rows : rows_t) (delim : string) (quotechar : option string) :
  multiple_cell_per_row rows delim quotechar = Ret true <->
  forall row, In row (row_items rows) ->
    exists cells, split_row row delim quotechar = Ret cells
                  /\ List.length cells <> 1.
Proof. apply multiple_cell_per_row_items_iff. Qed.

Lemma even_rows_iff (rows : rows_t) (delim : string) (quotechar : option string) :
  even_rows rows delim quotechar = Ret true <->
  row_items rows <> [] /\
  exists n, forall row, In row (row_items rows) ->
    exists cells, split_row row delim quotechar = Ret cells
                  /\ List.length cells = n.
Proof.
  unfold even_rows. split.
  - intros H. apply rbind_Ret_inv in H. destruct H as (s & Hs & H).
    injection H as H. apply Nat.eqb_eq in H.
    destruct s as [|n [|m s]]; try discriminate H.
    apply even_rows_items_forward in Hs. destruct Hs as [Hnil Hrows]. split.
    + intros E. specialize (Hnil E). discriminate Hnil.
    + exists n. intros row Hrow. destruct (Hrows row Hrow) as (cells & Hc & Hin).
      exists cells. split; [exact Hc|]. destruct Hin as [<-|[]]. reflexivity.
  - intros (Hne & n & Hrows).
    destruct (even_rows_items_backward delim quotechar n (row_items rows) Hrows
                (empty_set nat) (or_introl eq_refl)) as (s & -> & Hcase).
    simpl. destruct Hcase as [->|[E _]]; [reflexivity | congruence].
Qed.

(** X9: [even_rows] is true exactly when there is a row and all rows
    split into the same number of cells; with no row at all it is
    false. *)
Theorem even_rows_same_cell_count
    (rows : rows_t) (delim : string) (quotechar : option string) :
  (even_rows rows delim quotechar = Ret true <->
   row_items rows <> [] /\
   exists n, forall row, In row (row_items rows) ->
     exists cells, split_row row delim quotechar = Ret cells
                   /\ List.length cells = n) /\
  (row_items rows = [] -> even_rows rows delim quotechar = Ret false).
Proof.
  split; [apply even_rows_iff|]. unfold even_rows. intros ->. reflexivity.
Qed.

(** ** What a match of form 1 and of form 2 means *)

Lemma positive_lift (r : res verdict) :
  positive (lift r) = true <-> exists reason, r = Ret (true, reason).
Proof.
  unfold positive, lift. simpl. split.
  - destruct r as [[[] reason]|e]; try discriminate. intros _. now exists reason.
  - intros [reason ->]. reflexivity.
Qed.

Lemma positive_wrapper_iff (esc : ascii -> string -> bool) (body : tester)
    (data encoding delim quotechar : string) :
  positive (form_escape_wrapper esc body data encoding delim quotechar) = true <->
  maybe_has_escapechar esc data encoding delim quotechar = false /\
  positive (body data encoding delim quotechar) = true.
Proof.
  unfold form_escape_wrapper.
  destruct (maybe_has_escapechar esc data encoding delim quotechar).
  - split; [discriminate | intros [H _]; discriminate H].
  - tauto.
Qed.

(** A loop without variables goes through exactly when each of its
    passes does. *)
Lemma for_each_unit_iff {A : Type} (body : unit -> A -> res (step unit))
    (items : list A) :
  for_each body tt items = Ret (Continue tt) <->
  forall x, In x items -> body tt x = Ret (Continue tt).
Proof.
  induction items as [|x rest IH]; simpl.
  - split; [intros _ x [] | reflexivity].
  - split.
    + intros H. apply rbind_Ret_inv in H. destruct H as ([[]|v] & Hx & H);
        [|discriminate].
      intros y [<-|Hy]; [exact Hx | now apply IH].
    + intros H. rewrite (H x (or_introl eq_refl)). simpl.
      apply IH. intros y Hy. apply H. now right.
Qed.

Lemma shape_checks_negative (rows : rows_t) (delim : string)
    (q_cells q_even : option string) (v : verdict) :
  shape_checks rows delim q_cells q_even = Ret (Some v) -> negative v.
Proof.
  unfold shape_checks, negative. intros H.
  destruct (negb (every_row_has_delim rows delim)); [now injection H as <-|].
  apply rbind_Ret_inv in H. destruct H as (multi & _ & H).
  destruct (negb multi); [now injection H as <-|].
  apply rbind_Ret_inv in H. destruct H as (even & _ & H).
  destruct (negb even); [now injection H as <-|].
  destruct (negb (more_than_one_row rows)); [now injection H as <-|discriminate].
Qed.

Lemma shape_checks_None_iff (rows : rows_t) (delim : string)
    (q_cells q_even : option string) :
  shape_checks rows delim q_cells q_even = Ret None <->
  every_row_has_delim rows delim = true /\
  multiple_cell_per_row rows delim q_cells = Ret true /\
  even_rows rows delim q_even = Ret true /\
  more_than_one_row rows = true.
Proof.
  unfold shape_checks. split.
  - destruct (every_row_has_delim rows delim); [|discriminate]. simpl.
    intros H. apply rbind_Ret_inv in H. destruct H as ([] & Hm & H);
      [|discriminate]. simpl in H.
    apply rbind_Ret_inv in H. destruct H as ([] & He & H); [|discriminate].
    simpl in H. destruct (more_than_one_row rows); [|discriminate].
    now repeat split.
  - intros (-> & -> & -> & ->). reflexivity.
Qed.

(** The frame of the testers that check every cell of every row and
    keep no count. *)
Lemma unit_structure_accepts (rows : rows_t) (delim : string)
    (q : option string) (cell_body : unit -> string -> res (step unit)) :
  (forall cell v, cell_body tt cell = Ret (Return v) -> negative v) ->
  ((exists reason,
      (early <- shape_checks rows delim q q ;;
       match early with
       | Some v => Ret v
       | None =>
           (r <- for_each (fun (_ : unit) row =>
                             cells <- split_row row delim q ;;
                             for_each cell_body tt cells) tt (row_items rows) ;;
            match r with
            | Return v => Ret v
            | Continue _ => Ret accept
            end)
       end)%res = Ret (true, reason)) <->
   2 <= List.length (row_items rows) /\
   exists n, n <> 1 /\
     forall row, In row (row_items rows) ->
       Py.str_in delim row = true /\
       exists cells,
         split_row row delim q = Ret cells /\ List.length cells = n /\
         forall cell, In cell cells -> cell_body tt cell = Ret (Continue tt)).
Proof.
  intros Hneg. split.
  - intros [reason H].
    apply rbind_Ret_inv in H. destruct H as ([v|] & Hs & H).
    + injection H as ->. apply shape_checks_negative in Hs. discriminate Hs.
    + apply (proj1 (shape_checks_None_iff _ _ _ _)) in Hs. destruct Hs as (Hd & Hm & He & Hr).
      apply rbind_Ret_inv in H. destruct H as ([[]|v] & Hl & H).
      * pose proof (proj1 (for_each_unit_iff _ _) Hl) as Hl'.
        clear Hl; rename Hl' into Hl.
        apply (proj1 (even_rows_iff _ _ _)) in He.
        destruct He as (_ & n & He).
        pose proof (proj1 (multiple_cell_per_row_items_iff _ _ _) Hm) as Hm'.
        clear Hm; rename Hm' into Hm.
        unfold more_than_one_row in Hr. apply Nat.ltb_lt in Hr.
        split; [lia|]. exists n. split.
        -- destruct (row_items rows) as [|row0 rest] eqn:E; [simpl in Hr; lia|].
           destruct (He row0 (or_introl eq_refl)) as (c1 & Hc1 & <-).
           destruct (Hm row0 (or_introl eq_refl)) as (c2 & Hc2 & Hlen).
           congruence.
        -- intros row Hrow. split.
           ++ unfold every_row_has_delim in Hd. rewrite forallb_forall in Hd.
              exact (Hd row Hrow).
           ++ destruct (He row Hrow) as (cells & Hc & Hlen).
              exists cells. split; [exact Hc|]. split; [exact Hlen|].
              specialize (Hl row Hrow). cbv beta in Hl. rewrite Hc in Hl.
              simpl in Hl. now apply (proj1 (for_each_unit_iff _ _)).
      * injection H as ->. exfalso.
        assert (Hv : negative (true, reason)); [|discriminate Hv].
        revert Hl. apply for_each_Return. intros s row v Hrow.
        apply rbind_Ret_inv in Hrow. destruct Hrow as (cells & _ & Hc).
        revert Hc. apply for_each_Return. intros [] cell v0. apply Hneg.
  - intros (Hlen & n & Hn & Hrows). exists None.
    assert (Hs : shape_checks rows delim q q = Ret None).
    { apply (proj2 (shape_checks_None_iff _ _ _ _)). repeat split.
      - unfold every_row_has_delim. apply forallb_forall.
        intros row Hrow. apply (Hrows row Hrow).
      - apply (proj2 (multiple_cell_per_row_items_iff _ _ _)). intros row Hrow.
        destruct (Hrows row Hrow) as (_ & cells & Hc & Hl & _).
        exists cells. split; [exact Hc | congruence].
      - apply (proj2 (even_rows_iff _ _ _)). split.
        + destruct (row_items rows); [simpl in Hlen; lia | discriminate].
        + exists n. intros row Hrow.
          destruct (Hrows row Hrow) as (_ & cells & Hc & Hl & _). now exists cells.
      - unfold more_than_one_row. apply Nat.ltb_lt. lia. }
    rewrite Hs. simpl.
    assert (Hl : for_each (fun (_ : unit) row =>
                             (cells <- split_row row delim q ;;
                              for_each cell_body tt cells)%res) tt (row_items rows)
                 = Ret (Continue tt)).
    { apply (proj2 (for_each_unit_iff _ _)). intros row Hrow.
      destruct (Hrows row Hrow) as (_ & cells & -> & _ & Hcells). simpl.
      now apply (proj2 (for_each_unit_iff _ _)). }
    rewrite Hl. reflexivity.
Qed.

Lemma form_1_cell_iff (quotechar cell : string) :
  form_1_cell quotechar tt cell = Ret (Continue tt) <->
  is_any_empty cell = false /\ is_quoted_cell cell quotechar = true
  /\ has_nested_quotes cell quotechar = false.
Proof.
  unfold form_1_cell.
  destruct (is_any_empty cell), (is_quoted_cell cell quotechar),
    (has_nested_quotes cell quotechar); simpl;
    split; intros H; try discriminate; try tauto;
    destruct H as (A & B & C); discriminate.
Qed.

Lemma unit_structure_accepts_ok (rows : rows_t) (delim : string)
    (q : option string) (cell_body : unit -> string -> res (step unit))
    (ok : string -> Prop) :
  (forall cell v, cell_body tt cell = Ret (Return v) -> negative v) ->
  (forall cell, cell_body tt cell = Ret (Continue tt) <-> ok cell) ->
  ((exists reason,
      (early <- shape_checks rows delim q q ;;
       match early with
       | Some v => Ret v
       | None =>
           (r <- for_each (fun (_ : unit) row =>
                             cells <- split_row row delim q ;;
                             for_each cell_body tt cells) tt (row_items rows) ;;
            match r with
            | Return v => Ret v
            | Continue _ => Ret accept
            end)
       end)%res = Ret (true, reason)) <->
   2 <= List.length (row_items rows) /\
   exists n, n <> 1 /\
     forall row, In row (row_items rows) ->
       Py.str_in delim row = true /\
       exists cells,
         split_row row delim q = Ret cells /\ List.length cells = n /\
         forall cell, In cell cells -> ok cell).
Proof.
  intros Hneg Hok. rewrite (unit_structure_accepts rows delim q cell_body Hneg).
  split; intros (Hlen & n & Hn & Hrows); (split; [exact Hlen|]);
    exists n; (split; [exact Hn|]); intros row Hrow;
    destruct (Hrows row Hrow) as (Hd & cells & Hc & Hl & Hcells);
    (split; [exact Hd|]); exists cells; (split; [exact Hc|]);
    (split; [exact Hl|]); intros cell Hcell; apply Hok; now apply Hcells.
Qed.

Lemma form_1_cell_negative (quotechar cell : string) (v : verdict) :
  form_1_cell quotechar tt cell = Ret (Return v) -> negative v.
Proof.
  unfold form_1_cell, negative. intros H.
  repeat match type of H with
         | context [if ?b then _ else _] => destruct b
         end; try discriminate H; now injection H as <-.
Qed.

Lemma form_2_cell_negative (cell : string) (v : verdict) :
  form_2_cell tt cell = Ret (Return v) -> negative v.
Proof.
  unfold form_2_cell, negative. intros H.
  repeat match type of H with
         | context [if ?b then _ else _] => destruct b
         end; try discriminate H; now injection H as <-.
Qed.

(** X10: form 1 matches exactly when the pre-check is false, there are
    two rows at least, every row holds the delimiter, all rows split
    into the same number of cells, which is not one, and every cell is
    quoted with the quotechar, is none of the empty cells, and has no
    quotechar inside. *)
Theorem form_1_matches_fully_quoted_tables
    (esc : ascii -> string -> bool) (data encoding delim quotechar : string) :
  positive (is_form_1 esc data encoding delim quotechar) = true <->
  maybe_has_escapechar esc data encoding delim quotechar = false /\
  2 <= List.length (row_items (split_file data)) /\
  exists n, n <> 1 /\
    forall row, In row (row_items (split_file data)) ->
      Py.str_in delim row = true /\
      exists cells,
        split_row row delim (Some quotechar) = Ret cells /\
        List.length cells = n /\
        forall cell, In cell cells ->
          is_any_empty cell = false /\ is_quoted_cell cell quotechar = true
          /\ has_nested_quotes cell quotechar = false.
Proof.
  unfold is_form_1. rewrite positive_wrapper_iff.
  unfold is_form_1_body. rewrite positive_set_ID, positive_lift.
  unfold form_1_structure. cbv zeta. unfold form_1_row.
  rewrite (unit_structure_accepts_ok (split_file data) delim (Some quotechar)
             (form_1_cell quotechar)
             (fun cell => is_any_empty cell = false
                          /\ is_quoted_cell cell quotechar = true
                          /\ has_nested_quotes cell quotechar = false)
             (form_1_cell_negative quotechar) (form_1_cell_iff quotechar)).
  reflexivity.
Qed.

Lemma positive_excluding_iff (sibling : tester) (reason : string)
    (data encoding delim quotechar : string) (rest : M verdict) :
  returns (snd (sibling data encoding delim quotechar)) ->
  (positive (excluding sibling reason data encoding delim quotechar rest) = true <->
   positive (sibling data encoding delim quotechar) = false /\
   positive rest = true).
Proof.
  intros [r Hr]. unfold positive. rewrite snd_excluding, Hr.
  destruct r as [[] reason']; simpl.
  - split; [discriminate | intros [H _]; discriminate H].
  - tauto.
Qed.

(** X11: form 2 matches exactly when the pre-check is false, none of
    forms 13, 18 and 17 matches, there are two rows at least, every row
    holds the delimiter, all rows split at the delimiter into the same
    number of cells, which is not one, and every cell is elementary. *)
Theorem form_2_matches_elementary_tables
    (esc : ascii -> string -> bool) (data encoding delim quotechar : string) :
  positive (is_form_2 esc data encoding delim quotechar) = true <->
  maybe_has_escapechar esc data encoding delim quotechar = false /\
  positive (is_form_13 esc data encoding delim quotechar) = false /\
  positive (is_form_18 esc data encoding delim quotechar) = false /\
  positive (is_form_17 esc data encoding delim quotechar) = false /\
  2 <= List.length (row_items (split_file data)) /\
  exists n, n <> 1 /\
    forall row, In row (row_items (split_file data)) ->
      Py.str_in delim row = true /\
      exists cells,
        split_row row delim None = Ret cells /\
        List.length cells = n /\
        forall cell, In cell cells -> is_elementary cell = true.
Proof.
  unfold is_form_2. rewrite positive_wrapper_iff.
  unfold is_form_2_body. rewrite positive_set_ID.
  rewrite (positive_excluding_iff _ _ _ _ _ _ _
             (is_form_13_returns esc data encoding delim quotechar)).
  rewrite (positive_excluding_iff _ _ _ _ _ _ _
             (is_form_18_returns esc data encoding delim quotechar)).
  rewrite (positive_excluding_iff _ _ _ _ _ _ _
             (is_form_17_returns esc data encoding delim quotechar)).
  rewrite positive_lift.
  unfold form_2_structure. cbv zeta. unfold form_2_row.
  rewrite (unit_structure_accepts_ok (split_file data) delim None form_2_cell
             (fun cell => is_elementary cell = true)
             form_2_cell_negative form_2_cell_iff).
  reflexivity.
Qed.

(** ** Forms that cannot match together *)

(** A loop whose passes leave the state as it is ends in that state. *)
Lemma for_each_unchanged {A S : Type} (body : S -> A -> res (step S))
    (P : A -> Prop) :
  (forall s x s', P x -> body s x = Ret (Continue s') -> s' = s) ->
  forall items s s',
    (forall x, In x items -> P x) ->
    for_each body s items = Ret (Continue s') -> s' = s.
Proof.
  intros Hbody. induction items as [|x rest IH]; intros s s' HP H; simpl in H.
  - now injection H as <-.
  - apply rbind_Ret_inv in H. destruct H as ([s1|v] & Hx & H); [|discriminate].
    apply Hbody in Hx; [|apply HP; now left]. subst s1.
    apply (IH _ _ (fun y Hy => HP y (or_intror Hy)) H).
Qed.

Lemma form_10_cell_negative (quotechar : string) (count : nat)
    (cell : string) (v : verdict) :
  form_10_cell quotechar count cell = Ret (Return v) -> negative v.
Proof.
  unfold form_10_cell, negative. cbv zeta. intros H.
  repeat match type of H with
         | context [if ?b then _ else _] => destruct b
         end; try discriminate H; now injection H as <-.
Qed.

Lemma form_11_cell_negative (num_empty : nat) (cell : string) (v : verdict) :
  form_11_cell num_empty cell = Ret (Return v) -> negative v.
Proof.
  unfold form_11_cell, negative. intros H.
  repeat match type of H with
         | context [if ?b then _ else _] => destruct b
         end; try discriminate H; now injection H as <-.
Qed.

(** What the rows are when form 1 matches. *)
Lemma form_1_rows (esc : ascii -> string -> bool)
    (data encoding delim quotechar : string) :
  positive (is_form_1 esc data encoding delim quotechar) = true ->
  forall row, In row (row_items (split_file data)) ->
    exists cells,
      split_row row delim (Some quotechar) = Ret cells /\
      forall cell, In cell cells -> is_any_empty cell = false.
Proof.
  unfold is_form_1. rewrite positive_wrapper_iff. intros [_ H].
  unfold is_form_1_body in H. rewrite positive_set_ID, positive_lift in H.
  pose proof (proj1 (unit_structure_accepts_ok (split_file data) delim
                       (Some quotechar) (form_1_cell quotechar) _
                       (form_1_cell_negative quotechar)
                       (form_1_cell_iff quotechar)) H)
    as (_ & n & _ & Hrows).
  intros row Hrow. destruct (Hrows row Hrow) as (_ & cells & Hc & _ & Hcells).
  exists cells. split; [exact Hc|]. intros cell Hcell. now apply Hcells.
Qed.

(** What the rows are when form 2 matches. *)
Lemma form_2_rows (esc : ascii -> string -> bool)
    (data encoding delim quotechar : string) :
  positive (is_form_2 esc data encoding delim quotechar) = true ->
  forall row, In row (row_items (split_file data)) ->
    exists cells,
      split_row row delim None = Ret cells /\
      forall cell, In cell cells -> is_elementary cell = true.
Proof.
  unfold is_form_2. rewrite positive_wrapper_iff. intros [_ H].
  unfold is_form_2_body in H. rewrite positive_set_ID in H.
  apply positive_excluding in H. destruct H as [_ H].
  apply positive_excluding in H. destruct H as [_ H].
  apply positive_excluding in H. destruct H as [_ H].
  rewrite positive_lift in H.
  pose proof (proj1 (unit_structure_accepts_ok (split_file data) delim
                       None form_2_cell _
                       form_2_cell_negative form_2_cell_iff) H)
    as (_ & n & _ & Hrows).
  intros row Hrow. destruct (Hrows row Hrow) as (_ & cells & Hc & _ & Hcells).
  exists cells. split; [exact Hc|]. exact Hcells.
Qed.

(** X12: with the quotechar a single or a double quote, as the
    catalogue calls them, forms 1 and 10 never match on the same
    arguments: form 1 wants no empty cell, form 10 at least one empty
    quoted cell. *)
Theorem forms_1_and_10_never_both_match
    (esc : ascii -> string -> bool) (data encoding delim quotechar : string) :
  quotechar = str1 SQ \/ quotechar = str1 DQ ->
  positive (is_form_1 esc data encoding delim quotechar) = true ->
  positive (is_form_10 esc data encoding delim quotechar) = false.
Proof.
  intros Hq H1.
  destruct (positive (is_form_10 esc data encoding delim quotechar)) eqn:H10;
    [exfalso | reflexivity].
  pose proof (form_1_rows _ _ _ _ _ H1) as Hrows.
  unfold is_form_10 in H10. rewrite positive_wrapper_iff in H10.
  destruct H10 as [_ H10]. unfold is_form_10_body in H10.
  rewrite positive_set_ID, positive_lift in H10. destruct H10 as [reason H10].
  unfold form_10_structure in H10. cbv zeta in H10.
  apply rbind_Ret_inv in H10. destruct H10 as ([v|] & Hs & H10).
  { injection H10 as ->. apply shape_checks_negative in Hs. discriminate Hs. }
  apply rbind_Ret_inv in H10. destruct H10 as ([n|v] & Hl & H10).
  - assert (n = 0); [|subst n; discriminate H10].
    revert Hl. apply for_each_unchanged with
      (P := fun row => exists cells,
                split_row row delim (Some quotechar) = Ret cells /\
                forall cell, In cell cells -> is_any_empty cell = false);
      [|exact Hrows].
    intros s row s' (cells & Hc & Hcells) Hrow. unfold form_10_row in Hrow.
    rewrite Hc in Hrow. simpl in Hrow. revert Hrow.
    apply for_each_unchanged with
      (P := fun cell => is_empty_quoted cell quotechar = false).
    + intros c cell c' He Hcell. unfold form_10_cell in Hcell. cbv zeta in Hcell.
      rewrite He in Hcell.
      repeat match type of Hcell with
             | context [if ?b then _ else _] => destruct b
             end; try discriminate Hcell. now injection Hcell as <-.
    + intros cell Hcell. specialize (Hcells cell Hcell).
      unfold is_any_empty in Hcells.
      apply orb_false_iff in Hcells. destruct Hcells as [Hcells Hdq].
      apply orb_false_iff in Hcells. destruct Hcells as [_ Hsq].
      destruct Hq as [-> | ->]; assumption.
  - injection H10 as ->. exfalso.
    assert (Hv : negative (true, reason)); [|discriminate Hv].
    revert Hl. apply for_each_Return. intros s row v Hrow.
    unfold form_10_row in Hrow.
    apply rbind_Ret_inv in Hrow. destruct Hrow as (cells & _ & Hc).
    revert Hc. apply for_each_Return. intros c cell v0.
    apply form_10_cell_negative.
Qed.

Lemma forms_1_and_10_never_both_match_witness :
  positive (is_form_10 backslash_only quoted_table UTF8 "," (str1 DQ)) = false.
Proof.
  apply forms_1_and_10_never_both_match.
  - right. reflexivity.
  - vm_compute. reflexivity.
Defined.

(** Form 11 does not match a table of elementary cells. *)
Lemma form_11_needs_an_empty_cell
    (esc : ascii -> string -> bool) (data encoding delim quotechar : string) :
  (forall row, In row (row_items (split_file data)) ->
     exists cells,
       split_row row delim None = Ret cells /\
       forall cell, In cell cells -> is_elementary cell = true) ->
  positive (is_form_11 esc data encoding delim quotechar) = false.
Proof.
  intros Hrows.
  destruct (positive (is_form_11 esc data encoding delim quotechar)) eqn:H11;
    [exfalso | reflexivity].
  unfold is_form_11 in H11. rewrite positive_wrapper_iff in H11.
  destruct H11 as [_ H11]. unfold is_form_11_body in H11.
  rewrite positive_set_ID in H11.
  apply positive_excluding in H11. destruct H11 as [_ H11].
  apply positive_excluding in H11. destruct H11 as [_ H11].
  rewrite positive_lift in H11. destruct H11 as [reason H11].
  unfold form_11_structure in H11. cbv zeta in H11.
  apply rbind_Ret_inv in H11. destruct H11 as ([v|] & Hs & H11).
  { injection H11 as ->. apply shape_checks_negative in Hs. discriminate Hs. }
  apply rbind_Ret_inv in H11. destruct H11 as ([n|v] & Hl & H11).
  - assert (n = 0); [|subst n; discriminate H11].
    revert Hl. apply for_each_unchanged with
      (P := fun row => exists cells,
                split_row row delim None = Ret cells /\
                forall cell, In cell cells -> is_elementary cell = true);
      [|exact Hrows].
    intros s row s' (cells & Hc & Hcells) Hrow. unfold form_11_row in Hrow.
    rewrite Hc in Hrow. simpl in Hrow.
    apply rbind_Ret_inv in Hrow. destruct Hrow as ([k|v] & Hk & Hrow);
      [|discriminate].
    assert (k = 0).
    { revert Hk. apply for_each_unchanged with
        (P := fun cell => is_elementary cell = true); [|exact Hcells].
      intros c cell c' He Hcell. unfold form_11_cell in Hcell.
      destruct (elementary_is_plain cell He) as (E1 & E2 & E3).
      rewrite E1, E2, E3, He in Hcell. simpl in Hcell. now injection Hcell as <-. }
    subst k. simpl in Hrow. injection Hrow as <-. lia.
  - injection H11 as ->. exfalso.
    assert (Hv : negative (true, reason)); [|discriminate Hv].
    revert Hl. apply for_each_Return. intros s row v Hrow.
    unfold form_11_row in Hrow.
    apply rbind_Ret_inv in Hrow. destruct Hrow as (cells & _ & Hrow).
    apply rbind_Ret_inv in Hrow. destruct Hrow as ([k|v1] & Hk & Hrow).
    + destruct (1 <? k)%nat; [|discriminate]. injection Hrow as <-. reflexivity.
    + injection Hrow as <-. revert Hk. apply for_each_Return.
      intros c cell v0. apply form_11_cell_negative.
Qed.


(** X13: forms 2 and 11 never match on the same arguments: form 2 wants
    every cell elementary, form 11 at least one empty cell. *)
Theorem forms_2_and_11_never_both_match
    (esc : ascii -> string -> bool) (data encoding delim quotechar : string) :
  positive (is_form_2 esc data encoding delim quotechar) = true ->
  positive (is_form_11 esc data encoding delim quotechar) = false.
Proof.
  intros H2. apply form_11_needs_an_empty_cell.
  exact (form_2_rows _ _ _ _ _ H2).
Qed.

Lemma forms_2_and_11_never_both_match_witness :
  positive (is_form_11 backslash_only ("a,b" +++ str1 LF +++ "c,d") UTF8 "," EmptyString)
  = false.
Proof.
  apply forms_2_and_11_never_both_match. vm_compute. reflexivity.
Defined.

(** ** The signature forms *)

Lemma str_in_quote_part (part data : string) :
  substring_of (str1 DQ) part ->
  Py.str_in (str1 DQ) data = false -> Py.str_in part data = false.
Proof.
  intros Hsub Hno. destruct (Py.str_in part data) eqn:E; [|reflexivity].
  apply str_in_iff in E.
  assert (H : Py.str_in (str1 DQ) data = true).
  { apply str_in_iff. eapply substring_of_trans; eassumption. }
  congruence.
Qed.

Lemma quote_in_QUOTE_COMMA : substring_of (str1 DQ) QUOTE_COMMA.
Proof. apply str_in_iff. reflexivity. Qed.

Lemma quote_in_COMMA_QUOTE : substring_of (str1 DQ) COMMA_QUOTE.
Proof. apply str_in_iff. reflexivity. Qed.

Lemma signature_quote_checks_accept (no_quote data quotechar : string) :
  fst (signature_quote_checks no_quote data quotechar) = true ->
  (quotechar = EmptyString /\ Py.str_in (str1 DQ) data = false) \/
  (quotechar = str1 DQ /\ Py.str_in (str1 DQ) data = true).
Proof.
  unfold signature_quote_checks.
  destruct (Py.str_in SQ_COMMA_SQ data); [discriminate|].
  destruct (String.eqb quotechar (str1 DQ)) eqn:Eq.
  - apply String.eqb_eq in Eq. intros H. right. split; [exact Eq|].
    destruct (Py.str_in (str1 DQ) data) eqn:E; [reflexivity|].
    rewrite (str_in_quote_part _ _ quote_in_QUOTE_COMMA E) in H.
    rewrite (str_in_quote_part _ _ quote_in_COMMA_QUOTE E) in H.
    discriminate H.
  - destruct (String.eqb quotechar EmptyString) eqn:Ee; [|discriminate].
    apply String.eqb_eq in Ee. intros H. left. split; [exact Ee|].
    destruct (Py.str_in (str1 DQ) data); [discriminate H | reflexivity].
Qed.

Lemma positive_mret (v : verdict) : positive (mret v) = fst v.
Proof. destruct v as [[] r]; reflexivity. Qed.

(** X14: a match of form 17, 18 or 19 tells how the file is quoted:
    the quotechar is empty and no double quote occurs in the content,
    or the quotechar is the double quote and one occurs.  Form 13 says
    the same for these two quotechars, and does not look at any other.
    So none of the four matches with both quotechars of its catalogue
    entry. *)
Theorem signature_match_tells_quoting
    (esc : ascii -> string -> bool) (data encoding delim quotechar : string) :
  (forall f, In f [is_form_17 esc; is_form_18 esc; is_form_19 esc] ->
     positive (f data encoding delim quotechar) = true ->
     (quotechar = EmptyString /\ Py.str_in (str1 DQ) data = false) \/
     (quotechar = str1 DQ /\ Py.str_in (str1 DQ) data = true)) /\
  (positive (is_form_13 esc data encoding delim quotechar) = true ->
     (quotechar = EmptyString -> Py.str_in (str1 DQ) data = false) /\
     (quotechar = str1 DQ -> Py.str_in (str1 DQ) data = true)) /\
  (forall f delim',
     In f [is_form_13 esc; is_form_17 esc; is_form_18 esc; is_form_19 esc] ->
     positive (f data encoding delim EmptyString) = true ->
     positive (f data encoding delim' (str1 DQ)) = false).
Proof.
  assert (H3 : forall f d q,
             In f [is_form_17 esc; is_form_18 esc; is_form_19 esc] ->
             positive (f data encoding d q) = true ->
             (q = EmptyString /\ Py.str_in (str1 DQ) data = false) \/
             (q = str1 DQ /\ Py.str_in (str1 DQ) data = true)).
  { intros f d q Hf H.
    destruct Hf as [<-|[<-|[<-|[]]]];
      [unfold is_form_17 in H | unfold is_form_18 in H | unfold is_form_19 in H];
      rewrite positive_wrapper_iff in H; destruct H as [_ H];
      [unfold is_form_17_body in H | unfold is_form_18_body in H
       | unfold is_form_19_body in H];
      rewrite positive_set_ID in H;
      match type of H with
      | context [if ?b then _ else _] => destruct b
      end; try discriminate H;
      rewrite positive_mret in H; now apply signature_quote_checks_accept in H. }
  assert (H13 : forall d q,
             positive (is_form_13 esc data encoding d q) = true ->
             (q = EmptyString -> Py.str_in (str1 DQ) data = false) /\
             (q = str1 DQ -> Py.str_in (str1 DQ) data = true)).
  { intros d q H. unfold is_form_13 in H.
    rewrite positive_wrapper_iff in H. destruct H as [_ H].
    unfold is_form_13_body in H. rewrite positive_set_ID in H.
    destruct (negb (Py.startswith data
                      "what,kind,bundleId,bundleVersion,description,time"));
      [discriminate H|].
    split; intros ->; simpl in H;
      destruct (Py.str_in (str1 DQ) data); try reflexivity; discriminate H. }
  split; [intros f; apply H3|]. split; [apply H13|].
  intros f delim' Hf H.
  destruct (positive (f data encoding delim' (str1 DQ))) eqn:E; [|reflexivity].
  exfalso. destruct Hf as [<-|Hf].
  - apply H13 in H. apply H13 in E.
    destruct H as [H _], E as [_ E].
    specialize (H eq_refl). specialize (E eq_refl). congruence.
  - apply (H3 _ _ _ Hf) in H. apply (H3 _ _ _ Hf) in E.
    destruct H as [[_ H]|[H _]]; [|discriminate H].
    destruct E as [[E _]|[_ E]]; [discriminate E | congruence].
Qed.

(** X15: the status of form 5 depends on the banner alone: it matches
    exactly when the pre-check is false and the content starts with the
    banner; what follows in the tester only chooses the reason of a
    rejection. *)
Theorem form_5_matches_the_banner_only
    (esc : ascii -> string -> bool) (data encoding delim quotechar : string) :
  positive (is_form_5 esc data encoding delim quotechar) = true <->
  maybe_has_escapechar esc data encoding delim quotechar = false /\
  Py.startswith data ";Originally developed by Anthony Bowden" = true.
Proof.
  unfold is_form_5. rewrite positive_wrapper_iff.
  unfold is_form_5_body. rewrite positive_set_ID.
  destruct (Py.startswith data ";Originally developed by Anthony Bowden").
  - rewrite positive_mret. reflexivity.
  - assert (H : forall m : M verdict, positive m = false ->
                (maybe_has_escapechar esc data encoding delim quotechar = false /\
                 positive m = true <->
                 maybe_has_escapechar esc data encoding delim quotechar = false /\
                 false = true)).
    { intros m ->. reflexivity. }
    apply H. cbv zeta.
    destruct (Py.str_in (str1 DQ) data); [reflexivity|].
    destruct (Py.str_in (str1 SQ) data); [|reflexivity].
    destruct (Py.indices_of SQ 0 data) as [|i0 [|i1 [|i2 l]]]; try reflexivity.
    destruct (negb (String.eqb (substring i0 (i1 + 1 - i0) data) README_QUOTED));
      reflexivity.
Qed.

(** ** What [detect_form] writes *)

Lemma try_combination_no_record (filename : string) (verbose : bool)
    (data encoding : string) (c : tester * nat * dict) (w : world)
    (detected : list (nat * dict)) :
  recorded (fst (try_combination filename false verbose data encoding c w detected))
  = recorded w.
Proof.
  unfold try_combination. destruct c as [[f id] opt].
  destruct (call_with f data encoding opt) as [ids [[[] reason]|e]].
  - destruct (get_ID id (add_attrs ids w)); reflexivity.
  - destruct verbose; [destruct (get_ID id (add_attrs ids w))|]; reflexivity.
  - reflexivity.
Qed.

Lemma collect_no_record (filename : string) (verbose : bool)
    (data encoding : string) (cs : list (tester * nat * dict)) :
  forall (w : world) (detected : list (nat * dict)),
    recorded (fst (collect filename false verbose data encoding cs w detected))
    = recorded w.
Proof.
  induction cs as [|c cs IH]; intros w detected; simpl.
  - reflexivity.
  - pose proof (try_combination_no_record filename verbose data encoding c w detected)
      as Hc.
    destruct (try_combination filename false verbose data encoding c w detected)
      as [w1 [ms1|e]]; simpl in Hc.
    + now rewrite IH.
    + exact Hc.
Qed.

(** X16: when [detect_form] raises its ValueError with recording on,
    the lines are already in the record files: two matches at least
    were found, and one line for each of them, in the order of the
    catalogue, has been appended. *)
Theorem detect_form_records_before_it_raises
    (esc : ascii -> string -> bool) (delims : list string)
    (filename : string) (verbose : bool)
    (encoding data : string) (w : world) :
  Permutation DELIMS delims ->
  let run := detect_form esc delims filename true verbose encoding (Some data) w in
  let ms := positive_matches esc delims data encoding in
  snd run = Raised ValueError ->
  2 <= List.length ms /\
  recorded (fst run) = recorded w ++ map (record_line filename) ms.
Proof.
  intros HP. cbv zeta. unfold detect_form.
  destruct (collect_outcome filename true verbose data encoding
              (combinations esc delims)
              (combinations_safe esc delims data encoding (DELIMS_not_empty delims HP))
              w [])
    as (w' & [[Hv E]|[ms E]]); rewrite E.
  - discriminate.
  - destruct (collect_Ret _ _ _ _ _ _ _ _ _ _ E) as [Hms Hrec].
    cbv zeta in Hms, Hrec. simpl in Hms. rewrite positive_matches_eq, <- Hms.
    unfold conclude. destruct ms as [|[id p] [|m2 rest]]; simpl; try discriminate.
    intros _. split; [lia|]. rewrite Hrec, <- Hms. reflexivity.
Qed.

Lemma detect_form_records_before_it_raises_witness :
  recorded (fst (detect_form backslash_only DELIMS "f.csv" true false UTF8
                   (Some tab_banner_table) fresh))
  = map (record_line "f.csv")
        (positive_matches backslash_only DELIMS tab_banner_table UTF8).
Proof.
  apply (detect_form_records_before_it_raises backslash_only DELIMS "f.csv" false
           UTF8 tab_banner_table fresh (Permutation_refl _)).
  vm_compute. reflexivity.
Defined.

(** X17: with recording off [detect_form] appends no line to any record
    file, whatever the catalogue order, the flags and the outcome, also
    when it raises; and a file that could not be loaded gives FAIL with
    nothing written and no tester called. *)
Theorem detect_form_without_recording_writes_nothing
    (esc : ascii -> string -> bool) (delims : list string)
    (filename : string) (record_result verbose : bool) (encoding : string)
    (loaded : option string) (w : world) :
  recorded (fst (detect_form esc delims filename false verbose encoding loaded w))
  = recorded w /\
  detect_form esc delims filename record_result verbose encoding None w = (w, Fail).
Proof.
  split; [|reflexivity].
  unfold detect_form. destruct loaded as [data|]; [|reflexivity].
  pose proof (collect_no_record filename verbose data encoding
                (combinations esc delims) w []) as H.
  destruct (collect filename false verbose data encoding (combinations esc delims) w [])
    as [w' [ms|e]]; simpl in H; [|exact H].
  unfold conclude. destruct ms as [|[id p] [|m2 rest]]; exact H.
Qed.

(** ** The other methods of Dialect *)

Lemma validate_Ok_iff (d : Dialect.t) :
  (exists warned, DialectOps.validate d = DialectOps.Ok warned) <->
  forall f, In f [Dialect.delimiter d; Dialect.quotechar d; Dialect.escapechar d] ->
    exists s, f = Some s /\ String.length s <= 1.
Proof.
  assert (Hlong : forall f, DialectOps.too_long f = false <->
                            exists s, f = Some s /\ String.length s <= 1).
  { intros [s|]; simpl; split.
    - intros H. apply Nat.ltb_ge in H. now exists s.
    - intros (s' & E & H). injection E as <-. now apply Nat.ltb_ge.
    - discriminate.
    - intros (s' & E & _). discriminate E. }
  unfold DialectOps.validate. split.
  - intros [warned H] f Hf.
    destruct (DialectOps.too_long (Dialect.delimiter d)) eqn:E1; [discriminate|].
    destruct (DialectOps.too_long (Dialect.quotechar d)) eqn:E2; [discriminate|].
    destruct (DialectOps.too_long (Dialect.escapechar d)) eqn:E3; [discriminate|].
    destruct Hf as [<-|[<-|[<-|[]]]]; now apply Hlong.
  - intros H.
    rewrite (proj2 (Hlong _) (H _ (or_introl eq_refl))).
    rewrite (proj2 (Hlong _) (H _ (or_intror (or_introl eq_refl)))).
    rewrite (proj2 (Hlong _) (H _ (or_intror (or_intror (or_introl eq_refl))))).
    eexists. reflexivity.
Qed.

(** X18: [to_dict] followed by [from_dict] gives the Dialect back.
    [to_dict] returns exactly when the three attributes are strings of
    one character at most, and raises the ValueError of [validate]
    otherwise, which names the first of delimiter, quotechar and
    escapechar that is [None] or longer.  [from_dict] itself validates
    nothing: it returns exactly when the three keys are in the dict,
    with the Dialect of their values whatever they are, and otherwise
    raises the KeyError of the first of "delimiter", "quotechar" and
    "escapechar", in this order, that is missing. *)
Theorem Dialect_to_dict_from_dict_round_trip (d : Dialect.t) :
  (forall dict, DialectOps.to_dict d = DialectOps.Ok dict ->
                DialectOps.from_dict dict = DialectOps.Ok d) /\
  ((exists dict, DialectOps.to_dict d = DialectOps.Ok dict) <->
   forall f, In f [Dialect.delimiter d; Dialect.quotechar d; Dialect.escapechar d] ->
     exists s, f = Some s /\ String.length s <= 1) /\
  (forall e, DialectOps.to_dict d = DialectOps.Err e ->
     DialectOps.validate d = DialectOps.Err e /\
     ((DialectOps.too_long (Dialect.delimiter d) = true /\
       e = DialectOps.ValueError "Delimiter") \/
      (DialectOps.too_long (Dialect.delimiter d) = false /\
       DialectOps.too_long (Dialect.quotechar d) = true /\
       e = DialectOps.ValueError "Quotechar") \/
      (DialectOps.too_long (Dialect.delimiter d) = false /\
       DialectOps.too_long (Dialect.quotechar d) = false /\
       DialectOps.too_long (Dialect.escapechar d) = true /\
       e = DialectOps.ValueError "Escapechar"))) /\
  DialectOps.from_dict
    [ ("delimiter", Dialect.delimiter d); ("quotechar", Dialect.quotechar d);
      ("escapechar", Dialect.escapechar d) ] = DialectOps.Ok d /\
  (forall dict,
     DialectOps.from_dict dict = DialectOps.Ok d <->
     DialectOps.lookup "delimiter" dict = DialectOps.Ok (Dialect.delimiter d) /\
     DialectOps.lookup "quotechar" dict = DialectOps.Ok (Dialect.quotechar d) /\
     DialectOps.lookup "escapechar" dict = DialectOps.Ok (Dialect.escapechar d)) /\
  (forall dict e,
     DialectOps.from_dict dict = DialectOps.Err e <->
     (DialectOps.lookup "delimiter" dict
      = DialectOps.Err (DialectOps.KeyError "delimiter") /\
      e = DialectOps.KeyError "delimiter") \/
     ((exists v, DialectOps.lookup "delimiter" dict = DialectOps.Ok v) /\
      DialectOps.lookup "quotechar" dict
      = DialectOps.Err (DialectOps.KeyError "quotechar") /\
      e = DialectOps.KeyError "quotechar") \/
     ((exists v, DialectOps.lookup "delimiter" dict = DialectOps.Ok v) /\
      (exists v, DialectOps.lookup "quotechar" dict = DialectOps.Ok v) /\
      DialectOps.lookup "escapechar" dict
      = DialectOps.Err (DialectOps.KeyError "escapechar") /\
      e = DialectOps.KeyError "escapechar")).
Proof.
  assert (Hlookup : forall k dict e,
             DialectOps.lookup k dict = DialectOps.Err e -> e = DialectOps.KeyError k).
  { intros k dict e. induction dict as [|[k' v] dict IH]; simpl.
    - intros H. now injection H as <-.
    - destruct (String.eqb k k'); [discriminate | exact IH]. }
  split; [|split; [|split; [|split; [|split]]]].
  - intros dict H. unfold DialectOps.to_dict in H.
    destruct (DialectOps.validate d); [|discriminate].
    injection H as <-. destruct d. reflexivity.
  - rewrite <- validate_Ok_iff. unfold DialectOps.to_dict. split.
    + intros [dict H]. destruct (DialectOps.validate d) as [warned|e];
        [now exists warned | discriminate].
    + intros [warned ->]. eexists. reflexivity.
  - intros e H. unfold DialectOps.to_dict in H.
    destruct (DialectOps.validate d) as [warned|e'] eqn:E; [discriminate|].
    injection H as <-. split; [reflexivity|].
    unfold DialectOps.validate in E.
    destruct (DialectOps.too_long (Dialect.delimiter d));
      [injection E as <-; left; now split|].
    destruct (DialectOps.too_long (Dialect.quotechar d));
      [injection E as <-; right; left; now repeat split|].
    destruct (DialectOps.too_long (Dialect.escapechar d));
      [injection E as <-; right; right; now repeat split | discriminate E].
  - destruct d. reflexivity.
  - intros dict. unfold DialectOps.from_dict. split.
    + destruct (DialectOps.lookup "delimiter" dict) as [f1|e1]; [|discriminate].
      destruct (DialectOps.lookup "quotechar" dict) as [f2|e2]; [|discriminate].
      destruct (DialectOps.lookup "escapechar" dict) as [f3|e3]; [|discriminate].
      intros H. injection H as <-. now repeat split.
    + intros (-> & -> & ->). destruct d. reflexivity.
  - intros dict e. unfold DialectOps.from_dict. split.
    + destruct (DialectOps.lookup "delimiter" dict) as [f1|e1] eqn:E1.
      * destruct (DialectOps.lookup "quotechar" dict) as [f2|e2] eqn:E2.
        -- destruct (DialectOps.lookup "escapechar" dict) as [f3|e3] eqn:E3;
             [discriminate|].
           intros H. injection H as <-. pose proof (Hlookup _ _ _ E3) as ->.
           right. right. repeat split; eauto.
        -- intros H. injection H as <-. pose proof (Hlookup _ _ _ E2) as ->.
           right. left. repeat split; eauto.
      * intros H. injection H as <-. pose proof (Hlookup _ _ _ E1) as ->.
        left. now split.
    + intros [[-> ->]|[([v1 ->] & -> & ->)|([v1 ->] & [v2 ->] & -> & ->)]];
        reflexivity.
Qed.

(** *** The order *)

Lemma string_compare_refl (s : string) : String.compare s s = Eq.
Proof.
  pose proof (String.compare_antisym s s) as H.
  destruct (String.compare s s); simpl in H; [reflexivity | discriminate..].
Qed.

Lemma ascii_compare_lt_trans (a b c : ascii) :
  Ascii.compare a b = Lt -> Ascii.compare b c = Lt -> Ascii.compare a c = Lt.
Proof.
  unfold Ascii.compare. rewrite !N.compare_lt_iff. apply N.lt_trans.
Qed.

Lemma string_compare_lt_trans (a : string) :
  forall b c, String.compare a b = Lt -> String.compare b c = Lt ->
              String.compare a c = Lt.
Proof.
  induction a as [|x a IH]; intros [|y b] [|z c]; simpl; try discriminate;
    try reflexivity.
  destruct (Ascii.compare x y) eqn:A; try discriminate.
  - apply Ascii.compare_eq_iff in A. subst y.
    destruct (Ascii.compare x z); try discriminate; [apply IH | reflexivity].
  - intros _. destruct (Ascii.compare y z) eqn:B; try discriminate.
    + apply Ascii.compare_eq_iff in B. subst z. now rewrite A.
    + now rewrite (ascii_compare_lt_trans _ _ _ A B).
Qed.

Lemma string_eqb_compare (x y : string) :
  String.eqb x y = match String.compare x y with Eq => true | _ => false end.
Proof.
  destruct (String.eqb_spec x y) as [->|Hne].
  - now rewrite string_compare_refl.
  - destruct (String.compare x y) eqn:E; try reflexivity.
    apply String.compare_eq_iff in E. contradiction.
Qed.

Lemma key_compare_antisym (a b : string * string * string) :
  key_compare a b = CompOpp (key_compare b a).
Proof.
  destruct a as [[a1 a2] a3], b as [[b1 b2] b3]. unfold key_compare, lex3.
  rewrite (String.compare_antisym b1 a1), (String.compare_antisym b2 a2),
    (String.compare_antisym b3 a3).
  destruct (String.compare a1 b1), (String.compare a2 b2), (String.compare a3 b3);
    reflexivity.
Qed.

Lemma key_compare_eq (a b : string * string * string) :
  key_compare a b = Eq <-> a = b.
Proof.
  destruct a as [[a1 a2] a3], b as [[b1 b2] b3]. unfold key_compare, lex3. split.
  - destruct (String.compare a1 b1) eqn:E1; try discriminate.
    destruct (String.compare a2 b2) eqn:E2; try discriminate.
    intros E3. apply String.compare_eq_iff in E1, E2, E3. now subst.
  - intros H. injection H as -> -> ->. now rewrite !string_compare_refl.
Qed.

Lemma key_compare_lt_trans (a b c : string * string * string) :
  key_compare a b = Lt -> key_compare b c = Lt -> key_compare a c = Lt.
Proof.
  destruct a as [[a1 a2] a3], b as [[b1 b2] b3], c as [[c1 c2] c3].
  unfold key_compare, lex3.
  destruct (String.compare a1 b1) eqn:A1; try discriminate;
    destruct (String.compare b1 c1) eqn:B1; try discriminate;
    try (apply String.compare_eq_iff in A1; subst b1);
    try (apply String.compare_eq_iff in B1; subst c1);
    rewrite ?string_compare_refl, ?A1, ?B1,
      ?(string_compare_lt_trans _ _ _ A1 B1); try reflexivity.
  destruct (String.compare a2 b2) eqn:A2; try discriminate;
    destruct (String.compare b2 c2) eqn:B2; try discriminate;
    try (apply String.compare_eq_iff in A2; subst b2);
    try (apply String.compare_eq_iff in B2; subst c2);
    rewrite ?string_compare_refl, ?A2, ?B2,
      ?(string_compare_lt_trans _ _ _ A2 B2); try reflexivity.
  apply string_compare_lt_trans.
Qed.

Lemma lt_str_dialect (a b : string * string * string) :
  DialectOps.lt (str_dialect a) (Dialect.VDialect (str_dialect b))
  = DialectOps.Ok (DialectOps.ABool
                     match key_compare a b with Lt => true | _ => false end).
Proof.
  destruct a as [[a1 a2] a3], b as [[b1 b2] b3].
  unfold DialectOps.lt, DialectOps.key_lt, DialectOps.field_lt, Dialect.field_eqb,
    str_dialect, Dialect.key, key_compare, lex3, String.ltb. cbn.
  rewrite !string_eqb_compare.
  destruct (String.compare a1 b1), (String.compare a2 b2), (String.compare a3 b3);
    reflexivity.
Qed.

Lemma eq_str_dialect (a b : string * string * string) :
  Dialect.eq (str_dialect a) (Dialect.VDialect (str_dialect b))
  = match key_compare a b with Eq => true | _ => false end.
Proof.
  destruct a as [[a1 a2] a3], b as [[b1 b2] b3].
  unfold Dialect.eq, Dialect.key_eqb, Dialect.field_eqb,
    str_dialect, Dialect.key, key_compare, lex3. cbn.
  rewrite !string_eqb_compare.
  destruct (String.compare a1 b1), (String.compare a2 b2), (String.compare a3 b3);
    reflexivity.
Qed.

Lemma all_str_dialect (d : Dialect.t) :
  DialectOps.all_str d -> exists k, d = str_dialect k.
Proof.
  destruct d as [[d|] [q|] [e|]]; intros (H1 & H2 & H3); simpl in *;
    try congruence.
  now exists (d, q, e).
Qed.

(** X19: on Dialects whose attributes are all strings, [<] never
    raises and is a strict total order that agrees with [==]: no
    Dialect is less than itself, [<] is transitive, and of [a < b],
    [a == b] and [b < a] exactly one holds.  The comparisons derived by
    [total_ordering] agree with it: [a > b] is [b < a], [a >= b] is
    [b <= a], and [a <= b] is [a < b or a == b]. *)
Theorem Dialect_order_is_strict_and_total (a b c : Dialect.t) :
  DialectOps.all_str a -> DialectOps.all_str b -> DialectOps.all_str c ->
  let less x y := DialectOps.lt x (Dialect.VDialect y)
                  = DialectOps.Ok (DialectOps.ABool true) in
  let not_less x y := DialectOps.lt x (Dialect.VDialect y)
                      = DialectOps.Ok (DialectOps.ABool false) in
  let equal x y := Dialect.eq x (Dialect.VDialect y) in
  (less a b \/ not_less a b) /\
  not_less a a /\
  (less a b -> less b c -> less a c) /\
  ((less a b /\ equal a b = false /\ not_less b a) \/
   (not_less a b /\ equal a b = true /\ not_less b a) \/
   (not_less a b /\ equal a b = false /\ less b a)) /\
  DialectOps.gt a (Dialect.VDialect b) = DialectOps.lt b (Dialect.VDialect a) /\
  DialectOps.ge a (Dialect.VDialect b) = DialectOps.le b (Dialect.VDialect a) /\
  DialectOps.le a (Dialect.VDialect b)
  = DialectOps.Ok (DialectOps.ABool
                     (match DialectOps.lt a (Dialect.VDialect b) with
                      | DialectOps.Ok (DialectOps.ABool true) => true
                      | _ => false
                      end || equal a b)).
Proof.
  intros Ha Hb Hc.
  destruct (all_str_dialect a Ha) as [ka ->].
  destruct (all_str_dialect b Hb) as [kb ->].
  destruct (all_str_dialect c Hc) as [kc ->].
  cbv zeta. unfold DialectOps.gt, DialectOps.ge, DialectOps.le.
  rewrite !lt_str_dialect, !eq_str_dialect.
  pose proof (key_compare_antisym ka kb) as Hanti.
  pose proof (key_compare_lt_trans ka kb kc) as Htrans.
  pose proof (proj2 (key_compare_eq ka ka) eq_refl) as Hrefl.
  rewrite Hrefl.
  repeat split.
  - destruct (key_compare ka kb); auto.
  - intros H1 H2.
    destruct (key_compare ka kb); try discriminate H1.
    destruct (key_compare kb kc); try discriminate H2.
    now rewrite Htrans.
  - destruct (key_compare ka kb), (key_compare kb ka); simpl in Hanti;
      try discriminate Hanti; tauto.
  - destruct (key_compare ka kb), (key_compare kb ka); simpl in Hanti;
      try discriminate Hanti; reflexivity.
  - destruct (key_compare ka kb), (key_compare kb ka); simpl in Hanti;
      try discriminate Hanti; reflexivity.
  - destruct (key_compare ka kb); reflexivity.
Qed.

Lemma Dialect_order_is_strict_and_total_witness :
  DialectOps.gt (Dialect.mk (Some ";") (Some EmptyString) (Some EmptyString))
    (Dialect.VDialect (Dialect.mk (Some ",") (Some (str1 DQ)) (Some EmptyString)))
  = DialectOps.lt (Dialect.mk (Some ",") (Some (str1 DQ)) (Some EmptyString))
      (Dialect.VDialect (Dialect.mk (Some ";") (Some EmptyString) (Some EmptyString))).
Proof.
  apply (Dialect_order_is_strict_and_total
           (Dialect.mk (Some ";") (Some EmptyString) (Some EmptyString))
           (Dialect.mk (Some ",") (Some (str1 DQ)) (Some EmptyString))
           (Dialect.mk (Some "|") (Some EmptyString) (Some EmptyString)));
    unfold DialectOps.all_str; simpl; repeat split; discriminate.
Defined.

(** X20: compared with a value that is not a Dialect, a Dialect is
    never equal, [<] returns the integer -1, which counts as true, and
    so does [<=], while [>] and [>=] return False; none of them raises.
    Between two Dialects [<] raises TypeError when the first pair of
    attributes that differ has a [None], and Dialects with equal
    attributes, [None] included, are not less than one another. *)
Theorem Dialect_compared_with_other_values (d : Dialect.t) (v : Dialect.value) :
  Dialect.isinstance_Dialect v = false ->
  Dialect.eq d v = false /\
  DialectOps.lt d v = DialectOps.Ok (DialectOps.AInt (-1)) /\
  DialectOps.truthy (DialectOps.AInt (-1)) = true /\
  DialectOps.le d v = DialectOps.Ok (DialectOps.AInt (-1)) /\
  DialectOps.gt d v = DialectOps.Ok (DialectOps.ABool false) /\
  DialectOps.ge d v = DialectOps.Ok (DialectOps.ABool false) /\
  (forall o, Dialect.eq d (Dialect.VDialect o) = true ->
     DialectOps.lt d (Dialect.VDialect o) = DialectOps.Ok (DialectOps.ABool false)) /\
  (forall o,
     Dialect.delimiter d <> Dialect.delimiter o ->
     Dialect.delimiter d = None \/ Dialect.delimiter o = None ->
     DialectOps.lt d (Dialect.VDialect o) = DialectOps.Err DialectOps.TypeError).
Proof.
  intros Hv. destruct v as [o| | | |]; try discriminate Hv;
    (repeat split; try reflexivity).
  all: try (intros o He; unfold Dialect.eq, Dialect.key_eqb, Dialect.key in He;
            apply andb_true_iff in He; destruct He as [He E3];
            apply andb_true_iff in He; destruct He as [E1 E2];
            unfold DialectOps.lt, DialectOps.key_lt, Dialect.key;
            now rewrite E1, E2, E3).
  all: intros o Hne Hnone;
    unfold DialectOps.lt, DialectOps.key_lt, DialectOps.field_lt, Dialect.key;
    destruct (Dialect.delimiter d) as [x|], (Dialect.delimiter o) as [y|];
    simpl; try reflexivity; try congruence;
    destruct Hnone; discriminate.
Qed.

Lemma Dialect_compared_with_other_values_witness :
  DialectOps.le (Dialect.mk (Some ",") (Some EmptyString) (Some EmptyString))
    Dialect.VNone
  = DialectOps.Ok (DialectOps.AInt (-1)).
Proof.
  apply (Dialect_compared_with_other_values
           (Dialect.mk (Some ",") (Some EmptyString) (Some EmptyString))
           Dialect.VNone).
  reflexivity.
Defined.

(** ** One delimiter for a table of elementary cells *)

Lemma str_in_str1_cons (c a : ascii) (s : string) :
  Py.str_in (str1 c) (String a s) = Ascii.eqb c a || Py.str_in (str1 c) s.
Proof.
  rewrite str_in_cons. f_equal. unfold str1. simpl.
  destruct (ascii_dec c a) as [->|Hne].
  - rewrite Ascii.eqb_refl. now destruct s.
  - apply Ascii.eqb_neq in Hne. now rewrite Hne.
Qed.

Lemma str_in_str1_append (c : ascii) (a b : string) :
  Py.str_in (str1 c) (a +++ b) = Py.str_in (str1 c) a || Py.str_in (str1 c) b.
Proof.
  induction a as [|x a IH].
  - simpl String.append. rewrite str_in_nil. reflexivity.
  - cbn [String.append]. rewrite !str_in_str1_cons, IH. now rewrite orb_assoc.
Qed.

Lemma str_in_str1_concat (c : ascii) (sep : string) (cells : list string) :
  Py.str_in (str1 c) (String.concat sep cells) = true ->
  Py.str_in (str1 c) sep = true \/
  exists cell, In cell cells /\ Py.str_in (str1 c) cell = true.
Proof.
  induction cells as [|cell rest IH]; intros H.
  - discriminate H.
  - destruct rest as [|cell' rest].
    + right. exists cell. split; [now left | exact H].
    + rewrite concat_cons in H by discriminate.
      rewrite !str_in_str1_append in H.
      apply orb_true_iff in H. destruct H as [H|H].
      * right. exists cell. split; [now left | exact H].
      * apply orb_true_iff in H. destruct H as [H|H]; [now left|].
        destruct (IH H) as [Hs|(x & Hx & Hin)]; [now left|].
        right. exists x. split; [now right | exact Hin].
Qed.

Lemma elementary_has_no_other_char (c : ascii) (cell : string) :
  elementary_char c = false -> is_elementary cell = true ->
  Py.str_in (str1 c) cell = false.
Proof.
  intros Hc H. unfold is_elementary in H. apply andb_true_iff in H.
  destruct H as [_ H]. induction cell as [|a cell IH]; [reflexivity|].
  simpl in H. apply andb_true_iff in H. destruct H as [Ha H].
  rewrite str_in_str1_cons, (IH H), orb_false_r.
  apply Ascii.eqb_neq. intros ->. congruence.
Qed.

(** The table form 2 has seen when it matches. *)
Lemma form_2_table (esc : ascii -> string -> bool)
    (data encoding delim quotechar : string) :
  positive (is_form_2 esc data encoding delim quotechar) = true ->
  2 <= List.length (row_items (split_file data)) /\
  forall row, In row (row_items (split_file data)) ->
    Py.str_in delim row = true /\
    exists cells,
      split_row row delim None = Ret cells /\
      forall cell, In cell cells -> is_elementary cell = true.
Proof.
  unfold is_form_2. rewrite positive_wrapper_iff. intros [_ H].
  unfold is_form_2_body in H. rewrite positive_set_ID in H.
  apply positive_excluding in H. destruct H as [_ H].
  apply positive_excluding in H. destruct H as [_ H].
  apply positive_excluding in H. destruct H as [_ H].
  rewrite positive_lift in H.
  pose proof (proj1 (unit_structure_accepts_ok (split_file data) delim
                       None form_2_cell _
                       form_2_cell_negative form_2_cell_iff) H)
    as (Hlen & n & _ & Hrows).
  split; [exact Hlen|]. intros row Hrow.
  destruct (Hrows row Hrow) as (Hd & cells & Hc & _ & Hcells).
  split; [exact Hd|]. now exists cells.
Qed.

(** Every row of form 11 holds the delimiter. *)
Lemma form_11_rows_have_delim (esc : ascii -> string -> bool)
    (data encoding delim quotechar : string) :
  positive (is_form_11 esc data encoding delim quotechar) = true ->
  forall row, In row (row_items (split_file data)) -> Py.str_in delim row = true.
Proof.
  unfold is_form_11. rewrite positive_wrapper_iff. intros [_ H].
  unfold is_form_11_body in H. rewrite positive_set_ID in H.
  apply positive_excluding in H. destruct H as [_ H].
  apply positive_excluding in H. destruct H as [_ H].
  rewrite positive_lift in H. destruct H as [reason H].
  unfold form_11_structure in H. cbv zeta in H.
  apply rbind_Ret_inv in H. destruct H as ([v|] & Hs & H).
  { injection H as ->. apply shape_checks_negative in Hs. discriminate Hs. }
  apply (proj1 (shape_checks_None_iff _ _ _ _)) in Hs. destruct Hs as (Hd & _).
  unfold every_row_has_delim in Hd. rewrite forallb_forall in Hd. exact Hd.
Qed.

(** In a table of elementary cells split at [c], no row holds another
    character that is not elementary. *)
Lemma elementary_table_one_delimiter (esc : ascii -> string -> bool)
    (data encoding quotechar : string) (c c' : ascii) :
  positive (is_form_2 esc data encoding (str1 c) quotechar) = true ->
  elementary_char c' = false ->
  (forall row, In row (row_items (split_file data)) ->
               Py.str_in (str1 c') row = true) ->
  c' = c.
Proof.
  intros H2 Hc' Hall. apply form_2_table in H2. destruct H2 as [Hlen Hrows].
  destruct (row_items (split_file data)) as [|row rest] eqn:E;
    [simpl in Hlen; lia|].
  destruct (Hrows row (or_introl eq_refl)) as (_ & cells & Hc & Hcells).
  specialize (Hall row (or_introl eq_refl)).
  simpl in Hc. injection Hc as <-.
  rewrite <- (join_split_on row (str1 c)) in Hall by discriminate.
  apply str_in_str1_concat in Hall. destruct Hall as [Hs|(cell & Hin & Hcell)].
  - unfold str1 at 2 in Hs. rewrite str_in_str1_cons in Hs. simpl in Hs.
    rewrite orb_false_r in Hs. now apply Ascii.eqb_eq in Hs.
  - rewrite (elementary_has_no_other_char c' cell Hc' (Hcells cell Hin)) in Hcell.
    discriminate Hcell.
Qed.

(** X21: a table that form 2 matches with a delimiter of one character
    has that delimiter only: whatever the quotechars, form 2 matches
    with no other one-character delimiter outside the elementary
    characters, as those of DELIMS are, and form 11 matches with none
    at all. *)
Theorem form_2_match_fixes_the_delimiter
    (esc : ascii -> string -> bool) (data encoding quotechar quotechar' : string)
    (c c' : ascii) :
  positive (is_form_2 esc data encoding (str1 c) quotechar) = true ->
  elementary_char c' = false ->
  (positive (is_form_2 esc data encoding (str1 c') quotechar') = true -> c' = c) /\
  positive (is_form_11 esc data encoding (str1 c') quotechar') = false.
Proof.
  intros H2 Hc'. split.
  - intros H2'. apply (elementary_table_one_delimiter esc data encoding quotechar c c' H2 Hc').
    apply form_2_table in H2'. intros row Hrow. now apply H2'.
  - destruct (positive (is_form_11 esc data encoding (str1 c') quotechar')) eqn:H11;
      [|reflexivity].
    assert (c' = c) as ->.
    { apply (elementary_table_one_delimiter esc data encoding quotechar c c' H2 Hc').
      exact (form_11_rows_have_delim _ _ _ _ _ H11). }
    rewrite form_11_needs_an_empty_cell in H11; [discriminate H11|].
    apply form_2_table in H2. intros row Hrow. now apply H2.
Qed.

Lemma form_2_match_fixes_the_delimiter_witness :
  positive (is_form_11 backslash_only ("a,b" +++ str1 LF +++ "c,d") UTF8 ";" EmptyString)
  = false.
Proof.
  apply (form_2_match_fixes_the_delimiter backslash_only
           ("a,b" +++ str1 LF +++ "c,d") UTF8 EmptyString EmptyString ","%char ";"%char).
  - vm_compute. reflexivity.
  - reflexivity.
Defined.

(** ** The single-column forms *)

Lemma single_column_accepts (rows : rows_t)
    (row_body : unit -> string -> res (step unit)) (ok : string -> Prop) :
  (forall row v, row_body tt row = Ret (Return v) -> negative v) ->
  (forall row, row_body tt row = Ret (Continue tt) <-> ok row) ->
  ((exists reason,
      (if negb (more_than_one_row rows) then Ret (reject "single_row")
       else
         (r <- for_each row_body tt (row_items rows) ;;
          match r with
          | Return v => Ret v
          | Continue _ => Ret accept
          end))%res = Ret (true, reason)) <->
   2 <= List.length (row_items rows) /\
   forall row, In row (row_items rows) -> ok row).
Proof.
  intros Hneg Hok. unfold more_than_one_row. split.
  - intros [reason H].
    destruct (1 <? List.length (row_items rows))%nat eqn:E; [|discriminate H].
    apply Nat.ltb_lt in E. simpl in H. split; [lia|].
    apply rbind_Ret_inv in H. destruct H as ([[]|v] & Hl & H).
    + pose proof (proj1 (for_each_unit_iff _ _) Hl) as Hall.
      intros row Hrow. apply Hok. now apply Hall.
    + injection H as ->. exfalso.
      assert (Hv : negative (true, reason)); [|discriminate Hv].
      revert Hl. apply for_each_Return. intros [] row v. apply Hneg.
  - intros [Hlen Hall]. exists None.
    apply Nat.ltb_lt in Hlen. rewrite Hlen. simpl.
    assert (Hl : for_each row_body tt (row_items rows) = Ret (Continue tt)).
    { apply (proj2 (for_each_unit_iff _ _)). intros row Hrow.
      apply Hok. now apply Hall. }
    rewrite Hl. reflexivity.
Qed.

Lemma form_6_row_iff (row : string) :
  form_6_row tt row = Ret (Continue tt) <->
  is_any_quoted_cell row = false /\ all_chars form_6_char row = true.
Proof.
  unfold form_6_row, search_outside. cbv zeta.
  destruct (is_any_quoted_cell row), (all_chars form_6_char row); simpl;
    split; intros H; try discriminate; try tauto;
    destruct H as [A B]; discriminate.
Qed.

Lemma form_6_row_negative (row : string) (v : verdict) :
  form_6_row tt row = Ret (Return v) -> negative v.
Proof.
  unfold form_6_row, negative. cbv zeta. intros H.
  repeat match type of H with
         | context [if ?b then _ else _] => destruct b
         end; try discriminate H; now injection H as <-.
Qed.

Lemma form_9_row_iff (quotechar row : string) :
  form_9_row quotechar tt row = Ret (Continue tt) <->
  is_quoted_cell row quotechar = true
  /\ all_chars form_9_char (Py.inner row) = true.
Proof.
  unfold form_9_row, search_outside.
  destruct (is_quoted_cell row quotechar),
    (all_chars form_9_char (Py.inner row)); simpl;
    split; intros H; try discriminate; try tauto;
    destruct H as [A B]; discriminate.
Qed.

Lemma form_9_row_negative (quotechar row : string) (v : verdict) :
  form_9_row quotechar tt row = Ret (Return v) -> negative v.
Proof.
  unfold form_9_row, negative. intros H.
  repeat match type of H with
         | context [if ?b then _ else _] => destruct b
         end; try discriminate H; now injection H as <-.
Qed.

(** X22: the single-column forms look at whole rows and at neither
    parameter beyond the pre-check (form 9 at its quotechar).  Form 6
    matches exactly when there are two rows at least and no row is
    quoted or holds a character outside letters, digits and [._&-];
    form 9 exactly when there are two rows at least and every row is
    quoted with the quotechar around characters from letters, digits,
    [._&-] and the space.  With a single or a double quote as the
    quotechar of form 9, as in the catalogue, the two never match the
    same content. *)
Theorem single_column_forms
    (esc : ascii -> string -> bool) (data encoding delim quotechar : string) :
  (positive (is_form_6 esc data encoding delim quotechar) = true <->
   maybe_has_escapechar esc data encoding delim quotechar = false /\
   2 <= List.length (row_items (split_file data)) /\
   forall row, In row (row_items (split_file data)) ->
     is_any_quoted_cell row = false /\ all_chars form_6_char row = true) /\
  (positive (is_form_9 esc data encoding delim quotechar) = true <->
   maybe_has_escapechar esc data encoding delim quotechar = false /\
   2 <= List.length (row_items (split_file data)) /\
   forall row, In row (row_items (split_file data)) ->
     is_quoted_cell row quotechar = true
     /\ all_chars form_9_char (Py.inner row) = true) /\
  (forall delim' quotechar',
     quotechar' = str1 SQ \/ quotechar' = str1 DQ ->
     positive (is_form_6 esc data encoding delim quotechar) = true ->
     positive (is_form_9 esc data encoding delim' quotechar') = false).
Proof.
  assert (H6 : forall d q,
             positive (is_form_6 esc data encoding d q) = true <->
             maybe_has_escapechar esc data encoding d q = false /\
             2 <= List.length (row_items (split_file data)) /\
             forall row, In row (row_items (split_file data)) ->
               is_any_quoted_cell row = false /\ all_chars form_6_char row = true).
  { intros d q. unfold is_form_6. rewrite positive_wrapper_iff.
    unfold is_form_6_body. rewrite positive_set_ID, positive_lift.
    unfold form_6_structure. cbv zeta.
    rewrite (single_column_accepts (split_file data) form_6_row _
               form_6_row_negative form_6_row_iff).
    reflexivity. }
  assert (H9 : forall d q,
             positive (is_form_9 esc data encoding d q) = true <->
             maybe_has_escapechar esc data encoding d q = false /\
             2 <= List.length (row_items (split_file data)) /\
             forall row, In row (row_items (split_file data)) ->
               is_quoted_cell row q = true
               /\ all_chars form_9_char (Py.inner row) = true).
  { intros d q. unfold is_form_9. rewrite positive_wrapper_iff.
    unfold is_form_9_body. rewrite positive_set_ID, positive_lift.
    unfold form_9_structure. cbv zeta.
    rewrite (single_column_accepts (split_file data) (form_9_row q) _
               (form_9_row_negative q) (form_9_row_iff q)).
    reflexivity. }
  split; [apply H6|]. split; [apply H9|].
  intros delim' quotechar' Hq Hp6.
  destruct (positive (is_form_9 esc data encoding delim' quotechar')) eqn:Hp9;
    [exfalso | reflexivity].
  apply H6 in Hp6. apply H9 in Hp9.
  destruct Hp6 as (_ & Hlen & Hrows6). destruct Hp9 as (_ & _ & Hrows9).
  destruct (row_items (split_file data)) as [|row rest]; [simpl in Hlen; lia|].
  destruct (Hrows6 row (or_introl eq_refl)) as [Hnq _].
  destruct (Hrows9 row (or_introl eq_refl)) as [Hq9 _].
  unfold is_any_quoted_cell in Hnq. apply orb_false_iff in Hnq.
  destruct Hnq as [Hsq Hdq]. destruct Hq as [-> | ->]; congruence.
Qed.

(** ** Rows quoted as a whole *)

Lemma form_7_row_negative (quotechar row : string) (v : verdict) :
  form_7_row quotechar tt row = Ret (Return v) -> negative v.
Proof.
  unfold form_7_row, negative. destruct row as [|c0 row]; [discriminate|].
  simpl. intros H.
  repeat match type of H with
         | context [if ?b then _ else _] => destruct b
         end; try discriminate H; now injection H as <-.
Qed.

Lemma form_7_row_first (quotechar row : string) :
  form_7_row quotechar tt row = Ret (Continue tt) ->
  exists c0 rest, row = String c0 rest /\ quotechar = str1 c0.
Proof.
  unfold form_7_row. destruct row as [|c0 row]; [discriminate|]. simpl.
  destruct (Py.char_is c0 quotechar) eqn:E; [|discriminate]. intros _.
  exists c0, row. split; [reflexivity|]. apply String.eqb_eq in E. now symmetry.
Qed.

(** What form 7 has checked itself when it matches. *)
Lemma form_7_match_inv (esc : ascii -> string -> bool)
    (data encoding delim quotechar : string) :
  positive (is_form_7 esc data encoding delim quotechar) = true ->
  2 <= List.length (row_items (split_file data)) /\
  (forall row, In row (row_items (split_file data)) ->
     exists c0 rest, row = String c0 rest /\ quotechar = str1 c0) /\
  positive (is_form_2 esc
              (Py.str_join (str1 LF) (map Py.inner (row_items (split_file data))))
              encoding delim quotechar) = true.
Proof.
  unfold is_form_7 at 1. rewrite positive_wrapper_iff. intros [_ H].
  unfold is_form_7_body in H. rewrite positive_set_ID in H.
  unfold positive in H. rewrite snd_mbind in H. simpl in H.
  destruct (form_7_checks data delim quotechar) as [[newrows|v]|e] eqn:E;
    [| |discriminate H].
  - unfold form_7_checks in E. cbv zeta in E.
    destruct (negb (every_row_has_delim (split_file data) delim)); [discriminate|].
    destruct (negb (more_than_one_row (split_file data))) eqn:Em; [discriminate|].
    apply rbind_Ret_inv in E. destruct E as ([[]|v] & Hl & E); [|discriminate].
    injection E as <-.
    apply negb_false_iff in Em. unfold more_than_one_row in Em.
    apply Nat.ltb_lt in Em. split; [lia|]. split.
    + pose proof (proj1 (for_each_unit_iff _ _) Hl) as Hall.
      intros row Hrow. apply form_7_row_first. now apply Hall.
    + unfold positive. exact H.
  - exfalso. assert (Hv : negative v).
    { unfold form_7_checks in E. cbv zeta in E.
      destruct (negb (every_row_has_delim (split_file data) delim));
        [now injection E as <-|].
      destruct (negb (more_than_one_row (split_file data)));
        [now injection E as <-|].
      apply rbind_Ret_inv in E. destruct E as ([[]|v'] & Hl & E); [discriminate|].
      injection E as <-. revert Hl. apply for_each_Return.
      intros [] row v0. apply form_7_row_negative. }
    unfold negative in Hv. destruct v as [[] reason]; simpl in *; discriminate.
Qed.

Lemma concat_head (sep : string) (a : ascii) (cell : string) (l : list string) :
  exists rest, String.concat sep (String a cell :: l) = String a rest.
Proof. destruct l; simpl; eexists; reflexivity. Qed.

(** X23: a content that form 7 matches is matched by form 2 only once
    the quotes around the rows are taken off.  When form 7 matches with
    a quotechar outside the elementary characters, every row starts
    with it, form 2 has matched the rows without their first and last
    characters, and form 2 does not match the content itself, whatever
    the delimiter and the quotechar it is given. *)
Theorem form_7_excludes_form_2
    (esc : ascii -> string -> bool) (data encoding delim quotechar : string)
    (c : ascii) :
  quotechar = str1 c -> elementary_char c = false ->
  positive (is_form_7 esc data encoding delim quotechar) = true ->
  (forall row, In row (row_items (split_file data)) ->
     exists rest, row = String c rest) /\
  positive (is_form_2 esc
              (Py.str_join (str1 LF) (map Py.inner (row_items (split_file data))))
              encoding delim quotechar) = true /\
  (forall delim' quotechar',
     positive (is_form_2 esc data encoding delim' quotechar') = false).
Proof.
  intros -> Hc H7. apply form_7_match_inv in H7. destruct H7 as (Hlen & Hrows & H2).
  assert (Hfirst : forall row, In row (row_items (split_file data)) ->
                               exists rest, row = String c rest).
  { intros row Hrow. destruct (Hrows row Hrow) as (c0 & rest & -> & E).
    injection E as ->. now exists rest. }
  split; [exact Hfirst|]. split; [exact H2|].
  intros delim' quotechar'.
  destruct (positive (is_form_2 esc data encoding delim' quotechar')) eqn:E;
    [exfalso | reflexivity].
  apply form_2_table in E. destruct E as [_ Htable].
  destruct (row_items (split_file data)) as [|row rows]; [simpl in Hlen; lia|].
  destruct (Hfirst row (or_introl eq_refl)) as [rest ->].
  destruct (Htable _ (or_introl eq_refl)) as (_ & cells & Hc' & Hcells).
  simpl in Hc'. unfold Py.str_split in Hc'.
  destruct delim' as [|d0 delim']; [discriminate|]. injection Hc' as <-.
  pose proof (join_split_on (String c rest) (String d0 delim')) as Hjoin.
  unfold Py.str_join in Hjoin.
  destruct (Py.split_on (String c rest) (String d0 delim')) as [|cell cells].
  - simpl in Hjoin. discriminate Hjoin. discriminate.
  - specialize (Hcells cell (or_introl eq_refl)).
    unfold is_elementary in Hcells. apply andb_true_iff in Hcells.
    destruct Hcells as [Hne Hall]. destruct cell as [|a cell]; [discriminate Hne|].
    simpl in Hall. apply andb_true_iff in Hall. destruct Hall as [Ha _].
    destruct (concat_head (String d0 delim') a cell cells) as [x Hx].
    rewrite Hx in Hjoin. specialize (Hjoin ltac:(discriminate)).
    injection Hjoin as -> _. congruence.
Qed.

Lemma form_7_excludes_form_2_witness :
  positive (is_form_2 backslash_only
              (String DQ "a,b" +++ String DQ (str1 LF) +++ String DQ "c,d" +++ str1 DQ)
              UTF8 "," EmptyString) = false.
Proof.
  apply (form_7_excludes_form_2 backslash_only
           (String DQ "a,b" +++ String DQ (str1 LF) +++ String DQ "c,d" +++ str1 DQ)
           UTF8 "," (str1 DQ) DQ).
  - reflexivity.
  - reflexivity.
  - vm_compute. reflexivity.
Defined.
